(** * Visitor Traffic Quality Analyzer: a shallow embedding of [app.py]

    The development follows the source file top to bottom:

    - [Py]: the fragment of the Python runtime the analyzers rely on
      (JSON values, truthiness, comparisons, [dict.get], [len], [float],
      string helpers), with exceptions made explicit in a [result] monad;
    - the request context and [get_client_ip];
    - one function per analyzer method of [VisitorAnalyzer];
    - [calculate_risk_score], written as the sequence of state updates of
      the [risk] dictionary;
    - [analyze] and the [/analyze] endpoint;
    - the properties of the specification, stated over these definitions.

    Conventions.  Strings are sequences of 8-bit characters (the encoding
    WSGI uses for header values); [lower] and [strip] follow Python on that
    range.  The display-only ['value'] strings of indicator records
    and the ['details'] of consistency checks ([str(...)] and f-strings,
    which cannot raise) and the clock reads ([datetime.now()]) are not
    kept.  Everything that can raise is. *)

From Stdlib Require Import ZArith String Ascii Bool List Lia SpecFloat.
From stdpp Require Import gmap strings list fin_maps.

Set Warnings "-register-all".
Local Open Scope string_scope.
Local Open Scope Z_scope.
Local Open Scope list_scope.

(* ===================================================================== *)
(** ** The Python fragment                                                *)
(* ===================================================================== *)

Module Py.

(** Exceptions the analyzers can meet. *)
Inductive exn : Type :=
| AttributeError
| TypeError
| ValueError
| OverflowError
| HTTPError (status : Z).

(** A computation either returns or raises. *)
Inductive result (A : Type) : Type :=
| Ok (a : A)
| Raise (e : exn).
Arguments Ok {A} a.
Arguments Raise {A} e.

Definition bind {A B} (m : result A) (f : A -> result B) : result B :=
  match m with
  | Ok a => f a
  | Raise e => Raise e
  end.

Definition lift {A B} (f : A -> B) (m : result A) : result B :=
  bind m (fun a => Ok (f a)).

Notation "x <- m ;; k" := (bind m (fun x => k))
  (at level 100, m at next level, right associativity,
   format "'[v' x  <-  m  ;; '/' k ']'").

Definition returns {A} (m : result A) : bool :=
  match m with Ok _ => true | Raise _ => false end.

(** What [json.loads] produces: the loosely typed payload values. *)
Inductive value : Type :=
| VNone
| VBool (b : bool)
| VInt (z : Z)
| VFloat (f : spec_float)
| VStr (s : string)
| VList (l : list value)
| VDict (m : gmap string value).

(** binary64 *)
Definition prec : Z := 53.
Definition emax : Z := 1024.

Definition float_of_Z (z : Z) : spec_float := binary_normalize prec emax z 0 false.

(** Python compares an [int] with a [float] exactly, on the real values. *)
Definition cmp_float_Z (f : spec_float) (n : Z) : option comparison :=
  match f with
  | S754_nan => None
  | S754_zero _ => Some (0 ?= n)
  | S754_infinity neg => Some (if neg then Lt else Gt)
  | S754_finite s m e =>
      let sm := if s then Z.neg m else Z.pos m in
      Some (if 0 <=? e then (sm * 2 ^ e ?= n) else (sm ?= n * 2 ^ (- e)))
  end.

Definition Z_of_bool (b : bool) : Z := if b then 1 else 0.

(** [bool(v)] *)
Definition truthy (v : value) : bool :=
  match v with
  | VNone => false
  | VBool b => b
  | VInt z => negb (z =? 0)
  | VFloat (S754_zero _) => false
  | VFloat _ => true
  | VStr s => negb (String.eqb s "")
  | VList l => match l with [] => false | _ => true end
  | VDict m => negb (bool_decide (m = ∅))
  end.

(** [v == n] for an integer literal [n]; [==] never raises. *)
Definition eq_int (v : value) (n : Z) : bool :=
  match v with
  | VInt z => z =? n
  | VBool b => Z_of_bool b =? n
  | VFloat f => match cmp_float_Z f n with Some Eq => true | _ => false end
  | _ => false
  end.

(** [v == s] for a string literal [s]. *)
Definition eq_str (v : value) (s : string) : bool :=
  match v with
  | VStr t => String.eqb t s
  | _ => false
  end.

(** The order of a number against an integer literal; anything that is
    not a number raises [TypeError] in [<], [>], [>=]. *)
Definition cmp_int (v : value) (n : Z) : result (option comparison) :=
  match v with
  | VInt z => Ok (Some (z ?= n))
  | VBool b => Ok (Some (Z_of_bool b ?= n))
  | VFloat f => Ok (cmp_float_Z f n)
  | _ => Raise TypeError
  end.

Definition is_lt (c : option comparison) : bool :=
  match c with Some Lt => true | _ => false end.
Definition is_gt (c : option comparison) : bool :=
  match c with Some Gt => true | _ => false end.
Definition is_ge (c : option comparison) : bool :=
  match c with Some Gt | Some Eq => true | _ => false end.

Definition lt_int (v : value) (n : Z) : result bool := lift is_lt (cmp_int v n).
Definition gt_int (v : value) (n : Z) : result bool := lift is_gt (cmp_int v n).
Definition ge_int (v : value) (n : Z) : result bool := lift is_ge (cmp_int v n).

(** [d.get(k, dflt)]: only a dict has [get]. *)
Definition get (d : value) (k : string) (dflt : value) : result value :=
  match d with
  | VDict m => Ok (default dflt (m !! k))
  | _ => Raise AttributeError
  end.

(** [len(v)] *)
Definition len (v : value) : result Z :=
  match v with
  | VStr s => Ok (Z.of_nat (String.length s))
  | VList l => Ok (Z.of_nat (List.length l))
  | VDict m => Ok (Z.of_nat (size m))
  | _ => Raise TypeError
  end.

(** *** Strings *)

Definition in_range (lo hi n : N) : bool := ((lo <=? n) && (n <=? hi))%N.

(** [str.lower] on one character: A-Z and the accented capitals of the
    upper half (0xC0-0xDE except the multiplication sign 0xD7). *)
Definition lower_char (c : ascii) : ascii :=
  let n := N_of_ascii c in
  if in_range 65 90 n || (in_range 192 222 n && negb (n =? 215)%N)
  then ascii_of_N (n + 32)
  else c.

Fixpoint lower (s : string) : string :=
  match s with
  | EmptyString => EmptyString
  | String c s' => String (lower_char c) (lower s')
  end.

(** [str.title] on ASCII text, as the framework applies it to the name
    of a header: a letter that starts a run of letters is upper-cased,
    a letter inside a run is lower-cased, any other character is kept. *)
Definition is_letter (c : ascii) : bool :=
  let n := N_of_ascii c in
  in_range 65 90 n || in_range 97 122 n.

Definition title_char (inside_word : bool) (c : ascii) : ascii :=
  let n := N_of_ascii c in
  if inside_word then (if in_range 65 90 n then ascii_of_N (n + 32) else c)
  else (if in_range 97 122 n then ascii_of_N (n - 32) else c).

Fixpoint title_from (inside_word : bool) (s : string) : string :=
  match s with
  | EmptyString => EmptyString
  | String c s' => String (title_char inside_word c) (title_from (is_letter c) s')
  end.

Definition title (s : string) : string := title_from false s.

(** [needle in hay] on strings. *)
Fixpoint contains (needle hay : string) : bool :=
  String.prefix needle hay ||
  match hay with
  | EmptyString => false
  | String _ hay' => contains needle hay'
  end.

(** [s.split(sep)[0]]: the text before the first separator. *)
Fixpoint split_first (sep : ascii) (s : string) : string :=
  match s with
  | EmptyString => EmptyString
  | String c s' => if Ascii.eqb c sep then EmptyString else String c (split_first sep s')
  end.

(** The characters [str.strip()] removes: tab to carriage return, the
    four separators 0x1C-0x1F, space, NEL and the no-break space. *)
Definition is_space (c : ascii) : bool :=
  let n := N_of_ascii c in
  in_range 9 13 n || in_range 28 32 n || (n =? 133)%N || (n =? 160)%N.

Fixpoint lstrip (s : string) : string :=
  match s with
  | EmptyString => EmptyString
  | String c s' => if is_space c then lstrip s' else s
  end.

Fixpoint rstrip (s : string) : string :=
  match s with
  | EmptyString => EmptyString
  | String c s' =>
      match rstrip s' with
      | EmptyString => if is_space c then EmptyString else String c EmptyString
      | r => String c r
      end
  end.

Definition strip (s : string) : string := rstrip (lstrip s).

(** [s.count(c)] for a one-character pattern. *)
Fixpoint count_char (c : ascii) (s : string) : Z :=
  match s with
  | EmptyString => 0
  | String d s' => (if Ascii.eqb c d then 1 else 0) + count_char c s'
  end.

Definition str_len (s : string) : Z := Z.of_nat (String.length s).

(** [any(k in s for k in ks)] *)
Definition contains_any (ks : list string) (s : string) : bool :=
  existsb (fun k => contains k s) ks.

(** *** Methods and operators that can raise *)

(** [v.lower()]: a [str] method. *)
Definition str_lower (v : value) : result string :=
  match v with
  | VStr s => Ok (lower s)
  | _ => Raise AttributeError
  end.

(** [v.split(sep)[0]]: a [str] method. *)
Definition str_split_first (sep : ascii) (v : value) : result string :=
  match v with
  | VStr s => Ok (split_first sep s)
  | _ => Raise AttributeError
  end.

(** [x == e] where [x] is a string or [None]. *)
Definition eq_atom (x e : value) : bool :=
  match x, e with
  | VStr s, VStr t => String.eqb s t
  | VNone, VNone => true
  | _, _ => false
  end.

(** [x in c] where [x] is a string or [None] (the resolved address):
    key membership in a dict, element membership in a list, substring
    test in a string, which wants a string on the left. *)
Definition contains_atom (x c : value) : result bool :=
  match c with
  | VDict m =>
      match x with
      | VStr k => Ok (bool_decide (is_Some (m !! k)))
      | _ => Ok false
      end
  | VList l => Ok (existsb (eq_atom x) l)
  | VStr s =>
      match x with
      | VStr k => Ok (contains k s)
      | _ => Raise TypeError
      end
  | _ => Raise TypeError
  end.

Definition is_str (v : value) : bool :=
  match v with VStr _ => true | _ => false end.

(** [", ".join(v)] is kept for its exception only: the items of a list
    must all be strings; a string yields its characters and a dict its
    keys; anything else is not iterable. *)
Definition join_check (v : value) : result unit :=
  match v with
  | VList l => if forallb is_str l then Ok tt else Raise TypeError
  | VStr _ | VDict _ => Ok tt
  | _ => Raise TypeError
  end.

(** The two library functions the source calls and this file does not
    define: [float] on a string (its grammar is the interpreter's) and
    [user_agents.parse]. *)
Record parsed_ua : Type := {
  browser_family : string;
  browser_version : string;
  os_family : string;
  os_version : string;
  device_family : string;
  is_mobile : bool;
  is_tablet : bool;
  is_pc : bool;
  is_bot : bool
}.

Class Runtime : Type := {
  float_of_str : string -> option spec_float;
  parse : string -> parsed_ua
}.

(** [float(v)]: an [int] too large for binary64 raises [OverflowError],
    a string that is not a number [ValueError]. *)
Definition float `{Runtime} (v : value) : result spec_float :=
  match v with
  | VInt z =>
      match float_of_Z z with
      | S754_infinity _ => Raise OverflowError
      | f => Ok f
      end
  | VBool b => Ok (float_of_Z (Z_of_bool b))
  | VFloat f => Ok f
  | VStr s =>
      match float_of_str s with
      | Some f => Ok f
      | None => Raise ValueError
      end
  | _ => Raise TypeError
  end.

(** [a + b] on numbers, as [sum] uses it; [bool] counts as [int], an
    [int] meeting a [float] is converted first. *)
Definition add (a b : value) : result value :=
  let as_int v := match v with
                  | VInt z => Some z
                  | VBool b => Some (Z_of_bool b)
                  | _ => None
                  end in
  let float_of_int z := match float_of_Z z with
                        | S754_infinity _ => Raise OverflowError
                        | f => Ok f
                        end in
  match as_int a, as_int b with
  | Some x, Some y => Ok (VInt (x + y))
  | Some x, None =>
      match b with
      | VFloat g => f <- float_of_int x ;; Ok (VFloat (SFadd prec emax f g))
      | _ => Raise TypeError
      end
  | None, Some y =>
      match a with
      | VFloat f => g <- float_of_int y ;; Ok (VFloat (SFadd prec emax f g))
      | _ => Raise TypeError
      end
  | None, None =>
      match a, b with
      | VFloat f, VFloat g => Ok (VFloat (SFadd prec emax f g))
      | _, _ => Raise TypeError
      end
  end.

(** [sum(vs)]: the fold of [+] from [0], left to right.  (The rounding
    compensation newer interpreters apply to floats is not modelled.) *)
Definition sum (vs : list value) : result value :=
  foldl (fun acc v => a <- acc ;; add a v) (Ok (VInt 0)) vs.

End Py.

Import Py.

(* ===================================================================== *)
(** ** Labels and records of the findings                                 *)
(* ===================================================================== *)

(** The label strings the analyzers write and the aggregator compares. *)
Inductive label : Type :=
| Unknown | Good | Acceptable | Suspicious | Bad
| NoRisk | Low | Medium | High | VeryHigh | Critical | Minimal
| HumanLikely | Uncertain | BotLikely
| Passed | Failed | Warning.

#[export] Instance label_eq_dec : EqDecision label.
Proof. solve_decision. Defined.

Definition label_eqb (a b : label) : bool := bool_decide (a = b).

(** An indicator record: its message and the property or header it
    names ([""] when the source gives none). *)
Record indicator : Type := Indicator {
  message : string;
  property : string
}.

(** The request object handed over by the framework.  [sent_headers]
    holds the header fields as the client sent them, each name in the
    letter case the client chose (ASCII, no two names equal up to letter
    case). *)
Record request : Type := {
  sent_headers : gmap string string;
  remote_addr : option string;
  method : string;
  path : string;
  environ : gmap string string;
  is_secure : bool
}.

(** [request.headers].  The framework keeps the fields under their WSGI
    keys and gives every name back title-cased: this is the map that
    [dict(request.headers)] copies, in which a field sent as
    [X-Real-IP] is found under [X-Real-Ip]. *)
Definition req_headers (req : request) : gmap string string :=
  list_to_map (map (fun kv : string * string => (title kv.1, kv.2))
                   (map_to_list (sent_headers req))).

(** [request.headers.get(name)]: the lookup ignores the letter case of
    [name]. *)
Definition header (req : request) (name : string) : option string :=
  req_headers req !! title name.

(** [VisitorAnalyzer]: the instance attributes set by [__init__] and
    [analyze]. *)
Record analyzer : Type := {
  self_request : request;
  ip : option string;
  headers : gmap string string;
  user_agent : string;
  fingerprint : value
}.

(** [if h:] on the optional string [headers.get(name)]. *)
Definition truthy_str (o : option string) : bool :=
  match o with
  | Some s => negb (String.eqb s "")
  | None => false
  end.

Definition has_key {A} (m : gmap string A) (k : string) : bool :=
  bool_decide (is_Some (m !! k)).

(** [get_client_ip] *)
Definition get_client_ip (req : request) : option string :=
  if truthy_str (header req "X-Forwarded-For") then
    Some (strip (split_first "," (default "" (header req "X-Forwarded-For"))))
  else if truthy_str (header req "X-Real-IP") then
    header req "X-Real-IP"
  else
    remote_addr req.

(** [__init__], then the assignment [self.fingerprint = client_fingerprint or {}]
    that opens [analyze].  [self.headers] is the copy
    [dict(request.headers)], a plain dict with the title-cased names as
    its keys: the analyzers look their names up in it letter for
    letter. *)
Definition init (req : request) : analyzer :=
  {| self_request := req;
     ip := get_client_ip req;
     headers := req_headers req;
     user_agent := default "" (header req "User-Agent");
     fingerprint := VDict ∅ |}.

Definition set_fingerprint (self : analyzer) (client_fingerprint : value) : analyzer :=
  {| self_request := self_request self;
     ip := ip self;
     headers := headers self;
     user_agent := user_agent self;
     fingerprint := if truthy client_fingerprint then client_fingerprint else VDict ∅ |}.

(* ===================================================================== *)
(** ** Analyzers that read the request only                               *)
(* ===================================================================== *)

Record basic_info : Type := {
  bi_ip_address : option string;
  bi_method : string;
  bi_path : string;
  bi_protocol : string;
  bi_port : string;
  bi_is_secure : bool
}.

Definition analyze_basic_info (self : analyzer) : basic_info :=
  let req := self_request self in
  {| bi_ip_address := ip self;
     bi_method := method req;
     bi_path := path req;
     bi_protocol := default "Unknown" (environ req !! "SERVER_PROTOCOL");
     bi_port := default "Unknown" (environ req !! "SERVER_PORT");
     bi_is_secure := is_secure req |}.

Record header_analysis : Type := {
  total_headers : Z;
  suspicious_patterns : list string;
  missing_standard_headers : list string;
  proxy_headers : list (string * string);
  header_quality : label
}.

Definition standard_headers : list string :=
  ["User-Agent"; "Accept"; "Accept-Language";
   "Accept-Encoding"; "Connection"; "Upgrade-Insecure-Requests"].

Definition proxy_indicator_names : list string :=
  ["X-Forwarded-For"; "X-Real-IP"; "Via"; "X-Proxy-ID"; "Forwarded";
   "CF-Connecting-IP"; "X-Forwarded-Proto"].

Definition automation_headers : list string :=
  ["Selenium"; "PhantomJS"; "Headless"; "Python"; "curl"; "wget"].

(** The nested loop over the automation names and the header items: one
    pattern per header value that contains the name, case-folded. *)
Definition automation_signatures (hdrs : gmap string string) : list string :=
  flat_map (fun auto_header =>
    flat_map (fun '(_, header_value) =>
      if contains (lower auto_header) (lower header_value)
      then ["Automation signature: " +:+ auto_header] else [])
      (map_to_list hdrs))
    automation_headers.

Definition header_grade (suspicious_count missing_count : Z) : label :=
  if (suspicious_count >? 2) || (missing_count >? 3) then Bad
  else if (suspicious_count >? 0) || (missing_count >? 1) then Suspicious
  else Good.

Definition analyze_headers (self : analyzer) : header_analysis :=
  let hdrs := headers self in
  let missing := List.filter (fun h => negb (has_key hdrs h)) standard_headers in
  let proxies :=
    flat_map (fun k : string =>
      if truthy_str (hdrs !! k) then [(k, default "" (hdrs !! k))] else [])
      proxy_indicator_names in
  let too_few :=
    if Z.of_nat (size hdrs) <? 5 then ["Too few headers (possible bot)"] else [] in
  let accept := default "" (hdrs !! "Accept") in
  let accept_pattern :=
    if String.eqb accept "*/*" then ["Generic Accept header (typical of bots)"]
    else if String.eqb accept "" then ["Missing Accept header"]
    else [] in
  let language_pattern :=
    if negb (has_key hdrs "Accept-Language") then ["Missing Accept-Language header"] else [] in
  let patterns := too_few ++ accept_pattern ++ language_pattern ++ automation_signatures hdrs in
  {| total_headers := Z.of_nat (size hdrs);
     suspicious_patterns := patterns;
     missing_standard_headers := missing;
     proxy_headers := proxies;
     header_quality := header_grade (Z.of_nat (length patterns)) (Z.of_nat (length missing)) |}.

Section WithRuntime.
Context `{rt : Runtime}.

Record ua_analysis : Type := {
  raw_user_agent : string;
  parsed : option parsed_ua;
  ua_suspicious_patterns : list string;
  ua_quality : label
}.

Definition bot_keywords : list string :=
  ["bot"; "crawler"; "spider"; "scraper"; "curl"; "wget"; "python";
   "java"; "php"; "ruby"; "go-http"; "postman"; "insomnia"].

Definition browser_tokens : list string :=
  ["mozilla"; "chrome"; "safari"; "firefox"; "edge"; "opera"].

Definition analyze_user_agent (self : analyzer) : ua_analysis :=
  let ua := user_agent self in
  if String.eqb ua "" then
    {| raw_user_agent := ua; parsed := None;
       ua_suspicious_patterns := ["Missing User-Agent"];
       ua_quality := Bad |}
  else
    let p := parse ua in
    let ua_lower := lower ua in
    let keywords :=
      flat_map (fun keyword =>
        if contains keyword ua_lower then ["Bot keyword detected: " +:+ keyword] else [])
        bot_keywords in
    let length_pattern :=
      if str_len ua <? 50 then ["User-Agent too short"]
      else if str_len ua >? 500 then ["User-Agent abnormally long"]
      else [] in
    let browser_pattern :=
      if negb (contains_any browser_tokens ua_lower)
      then ["Missing common browser identifiers"] else [] in
    let version_pattern :=
      if count_char "/" ua >? 10 then ["Excessive version strings"] else [] in
    let patterns := keywords ++ length_pattern ++ browser_pattern ++ version_pattern in
    let n := Z.of_nat (length patterns) in
    {| raw_user_agent := ua; parsed := Some p;
       ua_suspicious_patterns := patterns;
       ua_quality := if is_bot p || (n >? 2) then Bad
                     else if n >? 0 then Suspicious
                     else Good |}.

Record threats : Type := {
  threat_level : label;
  threats_detected : list string;
  risk_factors : list string
}.

Definition suspicious_paths : list string :=
  ["admin"; "wp-admin"; "phpmyadmin"; ".env"; "config"; "backup"].

Definition detect_threats (self : analyzer) : threats :=
  let req := self_request self in
  let ua_lower := lower (user_agent self) in
  let detected :=
    (if contains "sqlmap" ua_lower then ["SQL injection tool detected"] else []) ++
    (if contains "nikto" ua_lower then ["Nikto scanner detected"] else []) in
  let factors :=
    (if contains_any suspicious_paths (lower (path req))
     then ["Accessing suspicious path: " +:+ path req] else []) ++
    (if negb (String.eqb (method req) "GET" || String.eqb (method req) "POST")
     then ["Unusual HTTP method: " +:+ method req] else []) in
  {| threat_level :=
       if Z.of_nat (length detected) >? 0 then Critical
       else if Z.of_nat (length factors) >? 2 then High
       else if Z.of_nat (length factors) >? 0 then Medium
       else NoRisk;
     threats_detected := detected;
     risk_factors := factors |}.

(* ===================================================================== *)
(** ** Analyzers that read the fingerprint payload                        *)
(* ===================================================================== *)

Record fp_analysis : Type := {
  fingerprint_data : value;
  inconsistencies : list indicator;
  manipulation_indicators : list indicator;
  fp_quality : label
}.

Definition automation_props : list string :=
  ["__nightmare"; "__phantomas"; "callPhantom"; "_phantom";
   "__selenium"; "__webdriver"; "__driver"].

(** [[x] if cond else []]: one conditional [append]. *)
Definition when {A} (cond : bool) (x : A) : list A := if cond then [x] else [].

(** The loop over [automation_props]. *)
Fixpoint automation_artifacts (fp : value) (props : list string) : result (list indicator) :=
  match props with
  | [] => Ok []
  | prop :: rest =>
      v <- get fp prop VNone ;;
      more <- automation_artifacts fp rest ;;
      Ok (when (truthy v) (Indicator "Automation artifact detected" ("window." +:+ prop)) ++ more)
  end.

Definition fp_grade (manipulation_count inconsistency_count : Z) : label :=
  if manipulation_count >? 0 then Bad
  else if inconsistency_count >? 3 then Suspicious
  else if inconsistency_count >? 0 then Acceptable
  else Good.

Definition analyze_browser_fingerprint (self : analyzer) : result fp_analysis :=
  let fp := fingerprint self in
  if negb (truthy fp) then
    Ok {| fingerprint_data := fp;
          inconsistencies := [Indicator "No fingerprint data received" ""];
          manipulation_indicators := [];
          fp_quality := Bad |}
  else
    (* WebDriver, headless *)
    webdriver <- get fp "webdriver" VNone ;;
    headless <- get fp "headless" VNone ;;
    (* plugins *)
    plugins <- get fp "plugins" (VInt 0) ;;
    (* languages: [not languages or len(languages) == 0] *)
    languages <- get fp "languages" (VList []) ;;
    no_languages <- (if negb (truthy languages) then Ok true
                    else n <- len languages ;; Ok (n =? 0)) ;;
    (* canvas *)
    canvas_value <- get fp "canvas" VNone ;;
    (* WebGL *)
    webgl_vendor <- get fp "webgl_vendor" VNone ;;
    webgl_renderer <- get fp "webgl_renderer" VNone ;;
    (* screen *)
    screen_width <- get fp "screen_width" (VInt 0) ;;
    screen_height <- get fp "screen_height" (VInt 0) ;;
    screen <- (if eq_int screen_width 0 || eq_int screen_height 0 then
                Ok [Indicator "Invalid screen dimensions" "screen.width x screen.height"]
              else
                narrow <- lt_int screen_width 800 ;;
                small <- (if narrow then Ok true else lt_int screen_height 600) ;;
                Ok (when small
                      (Indicator "Unusual screen resolution (too small)"
                                 "screen.width x screen.height"))) ;;
    (* timezone *)
    timezone <- get fp "timezone" VNone ;;
    (* automation artifacts *)
    artifacts <- automation_artifacts fp automation_props ;;
    let manipulation :=
      when (truthy webdriver)
           (Indicator "WebDriver detected (Selenium/Automation)" "navigator.webdriver") ++
      when (truthy headless) (Indicator "Headless browser detected" "headless") ++
      when (eq_str canvas_value "blocked" || negb (truthy canvas_value))
           (Indicator "Canvas fingerprinting blocked or unavailable" "canvas") ++
      artifacts in
    let inconsistent :=
      when (eq_int plugins 0)
           (Indicator "No browser plugins (unusual for real browsers)"
                      "navigator.plugins.length") ++
      when no_languages (Indicator "No languages detected" "navigator.languages") ++
      when (negb (truthy webgl_vendor) || negb (truthy webgl_renderer))
           (Indicator "WebGL information missing" "webgl_vendor/renderer") ++
      screen ++
      when (negb (truthy timezone)) (Indicator "Timezone not detected" "timezone") in
    Ok {| fingerprint_data := fp;
          inconsistencies := inconsistent;
          manipulation_indicators := manipulation;
          fp_quality := fp_grade (Z.of_nat (length manipulation))
                                 (Z.of_nat (length inconsistent)) |}.

Record proxy_detection : Type := {
  proxy_indicators : list indicator;
  proxy_headers_found : list string;
  proxy_risk_level : label;
  is_proxy_likely : bool
}.

Definition proxy_header_names : list string :=
  ["X-Forwarded-For"; "X-Real-IP"; "Via"; "Forwarded";
   "X-Proxy-ID"; "CF-Connecting-IP"; "X-Forwarded-Proto"].

Definition value_of_ip (o : option string) : value :=
  match o with Some s => VStr s | None => VNone end.

Definition proxy_grade (indicator_count : Z) (likely : bool) : label :=
  if (indicator_count >? 3) || likely then High
  else if indicator_count >? 1 then Medium
  else if indicator_count >? 0 then Low
  else NoRisk.

Definition detect_proxy_vpn (self : analyzer) : result proxy_detection :=
  let fp := fingerprint self in
  let hdrs := headers self in
  let found := List.filter (has_key hdrs) proxy_header_names in
  let from_headers := map (Indicator "Proxy header present") found in
  let xff := default "" (hdrs !! "X-Forwarded-For") in
  let chain := contains "," xff in
  let via := has_key hdrs "Via" in
  (* reputation flags handed over in the payload *)
  ip_info <- get fp "ip_info" VNone ;;
  reputation <- (if truthy ip_info then
                  is_datacenter <- get ip_info "is_datacenter" VNone ;;
                  is_vpn <- get ip_info "is_vpn" VNone ;;
                  is_proxy <- get ip_info "is_proxy" VNone ;;
                  is_tor <- get ip_info "is_tor" VNone ;;
                  Ok (when (truthy is_datacenter)
                           (Indicator "IP from datacenter (hosting provider)"
                                      "ip_info.is_datacenter") ++
                      when (truthy is_vpn) (Indicator "VPN detected" "ip_info.is_vpn") ++
                      when (truthy is_proxy) (Indicator "Proxy detected" "ip_info.is_proxy") ++
                      when (truthy is_tor)
                           (Indicator "Tor exit node detected" "ip_info.is_tor"))
                else Ok []) ;;
  (* WebRTC leak *)
  webrtc_ips <- get fp "webrtc_ips" (VList []) ;;
  leak <- (if truthy webrtc_ips then
            n <- len webrtc_ips ;;
            if n >? 0 then
              listed <- contains_atom (value_of_ip (ip self)) webrtc_ips ;;
              if negb listed then
                _ <- join_check webrtc_ips ;;
                Ok [Indicator "WebRTC IP mismatch (possible VPN/proxy leak)" "webrtc_ips"]
              else Ok []
            else Ok []
          else Ok []) ;;
  let indicators :=
    from_headers ++
    when chain (Indicator "Multiple IPs in proxy chain" "X-Forwarded-For") ++
    when via (Indicator "Via header indicates explicit proxy" "Via") ++
    reputation ++ leak in
  let likely := chain || via in
  Ok {| proxy_indicators := indicators;
        proxy_headers_found := found;
        proxy_risk_level := proxy_grade (Z.of_nat (length indicators)) likely;
        is_proxy_likely := likely |}.

Record automation_detection : Type := {
  automation_indicators : list indicator;
  automation_type : list string;
  automation_confidence : label
}.

Definition automation_checks : list (string * string) :=
  [("__webdriver", "Selenium"); ("__driver", "WebDriver"); ("__selenium", "Selenium");
   ("__nightmare", "Nightmare.js"); ("__phantomas", "PhantomJS");
   ("callPhantom", "PhantomJS"); ("_phantom", "PhantomJS");
   ("domAutomation", "Chrome Extension");
   ("domAutomationController", "Chrome Automation")].

Definition mem_str (s : string) (l : list string) : bool :=
  existsb (String.eqb s) l.

(** The loop over [automation_checks], threading the two lists. *)
Fixpoint automation_properties (fp : value) (checks : list (string * string))
    (acc : list indicator * list string) : result (list indicator * list string) :=
  match checks with
  | [] => Ok acc
  | (prop, tool) :: rest =>
      v <- get fp prop VNone ;;
      automation_properties fp rest
        (if truthy v then
           (acc.1 ++ [Indicator "Automation property detected" ("window." +:+ prop)],
            if mem_str tool acc.2 then acc.2 else acc.2 ++ [tool])
         else acc)
  end.

Definition automation_grade (indicator_count : Z) : label :=
  if indicator_count >? 3 then VeryHigh
  else if indicator_count >? 1 then High
  else if indicator_count >? 0 then Medium
  else Low.

Definition detect_automation (self : analyzer) : result automation_detection :=
  let fp := fingerprint self in
  webdriver <- get fp "webdriver" VNone ;;
  looped <- automation_properties fp automation_checks
              (when (truthy webdriver) (Indicator "Navigator.webdriver = true" "navigator.webdriver"),
               when (truthy webdriver) "Selenium/WebDriver") ;;
  chrome <- get fp "chrome" VNone ;;
  runtime_missing <- (if truthy chrome then
                       chrome_runtime <- get fp "chrome_runtime" VNone ;;
                       Ok (negb (truthy chrome_runtime))
                     else Ok false) ;;
  permissions <- get fp "permissions_query_unavailable" VNone ;;
  notification <- get fp "notification_permission" VNone ;;
  let indicators :=
    looped.1 ++
    when runtime_missing
         (Indicator "Chrome detected but chrome.runtime missing" "window.chrome.runtime") ++
    when (truthy permissions)
         (Indicator "Permissions API blocked (common in automation)"
                    "navigator.permissions.query") ++
    when (eq_str notification "denied")
         (Indicator "Notifications denied (automation default)" "Notification.permission") in
  Ok {| automation_indicators := indicators;
        automation_type := looped.2;
        automation_confidence := automation_grade (Z.of_nat (length indicators)) |}.

Record check : Type := Check {
  check_name : string;
  status : label
}.

Record consistency : Type := {
  checks : list check;
  passed : Z;
  failed : Z;
  warnings : Z
}.

(** [consistency['checks'].append(...)] together with the counter it bumps. *)
Definition record_check (c : consistency) (name : string) (st : label) : consistency :=
  {| checks := checks c ++ [Check name st];
     passed := passed c + (if label_eqb st Passed then 1 else 0);
     failed := failed c + (if label_eqb st Failed then 1 else 0);
     warnings := warnings c + (if label_eqb st Warning then 1 else 0) |}.

Definition check_os (self : analyzer) (c : consistency) : result consistency :=
  platform <- get (fingerprint self) "platform" VNone ;;
  if truthy platform then
    fp_platform <- str_lower platform ;;
    let ua_os := lower (os_family (parse (user_agent self))) in
    if contains "win" fp_platform && negb (contains "windows" ua_os) then
      Ok (record_check c "OS Consistency" Failed)
    else if contains "mac" fp_platform && negb (contains "mac" ua_os) then
      Ok (record_check c "OS Consistency" Failed)
    else
      Ok (record_check c "OS Consistency" Passed)
  else Ok c.

Definition check_language (self : analyzer) (c : consistency) : result consistency :=
  fp_language <- get (fingerprint self) "language" (VStr "") ;;
  let header_language := default "" (headers self !! "Accept-Language") in
  if truthy fp_language && negb (String.eqb header_language "") then
    code <- str_split_first "-" fp_language ;;
    let fp_lang_code := lower code in
    if negb (contains fp_lang_code (lower header_language)) then
      Ok (record_check c "Language Consistency" Warning)
    else
      Ok (record_check c "Language Consistency" Passed)
  else Ok c.

Definition is_none (v : value) : bool :=
  match v with VNone => true | _ => false end.

Definition check_timezone (self : analyzer) (c : consistency) : result consistency :=
  timezone_offset <- get (fingerprint self) "timezone_offset" VNone ;;
  if negb (is_none timezone_offset) then
    below <- lt_int timezone_offset (-720) ;;
    outside <- (if below then Ok true else gt_int timezone_offset 840) ;;
    if outside then Ok (record_check c "Timezone Validation" Failed)
    else Ok (record_check c "Timezone Validation" Passed)
  else Ok c.

Definition check_hardware (self : analyzer) (c : consistency) : result consistency :=
  hardware_concurrency <- get (fingerprint self) "hardware_concurrency" (VInt 0) ;;
  if eq_int hardware_concurrency 0 then
    Ok (record_check c "Hardware Concurrency" Failed)
  else
    many <- gt_int hardware_concurrency 32 ;;
    if many then Ok (record_check c "Hardware Concurrency" Warning)
    else Ok (record_check c "Hardware Concurrency" Passed).

Definition check_consistency (self : analyzer) : result consistency :=
  let c0 := {| checks := []; passed := 0; failed := 0; warnings := 0 |} in
  c1 <- check_os self c0 ;;
  c2 <- check_language self c1 ;;
  c3 <- check_timezone self c2 ;;
  check_hardware self c3.

Record tls_analysis : Type := {
  tls_protocol : string;
  tls_is_secure : bool;
  cipher_suite : string;
  tls_version : string;
  client_fingerprint : option value
}.

Definition analyze_tls (self : analyzer) : result tls_analysis :=
  let req := self_request self in
  tls_fingerprint <- get (fingerprint self) "tls_fingerprint" VNone ;;
  Ok {| tls_protocol := default "Unknown" (environ req !! "SERVER_PROTOCOL");
        tls_is_secure := is_secure req;
        cipher_suite := default "Unknown" (environ req !! "SSL_CIPHER");
        tls_version := default "Unknown" (environ req !! "SSL_PROTOCOL");
        client_fingerprint := if truthy tls_fingerprint then Some tls_fingerprint else None |}.

Record behavioral_signals : Type := {
  mouse_movement : value;
  keyboard_input : value;
  touch_support : value;
  page_focus : value;
  scroll_behavior : value;
  behavioral_score : label
}.

Definition analyze_behavioral_signals (self : analyzer) : result behavioral_signals :=
  let fp := fingerprint self in
  mouse <- get fp "has_mouse_movement" (VBool false) ;;
  keyboard <- get fp "has_keyboard_input" (VBool false) ;;
  touch <- get fp "touch_support" (VBool false) ;;
  focus <- get fp "has_page_focus" (VBool true) ;;
  scroll <- get fp "has_scroll" (VBool false) ;;
  positive_signals <- sum [mouse; keyboard; focus; scroll] ;;
  three <- ge_int positive_signals 3 ;;
  two <- (if three then Ok true else ge_int positive_signals 2) ;;
  Ok {| mouse_movement := mouse;
        keyboard_input := keyboard;
        touch_support := touch;
        page_focus := focus;
        scroll_behavior := scroll;
        behavioral_score := if three then HumanLikely
                            else if two then Uncertain
                            else BotLikely |}.

Record mouse_analysis : Type := {
  total_movements : value;
  mouse_average_velocity : spec_float;
  max_velocity : spec_float;
  average_acceleration : spec_float;
  has_human_curves : value;
  mouse_quality : label;
  mouse_bot_indicator : option string
}.

Record click_analysis : Type := {
  total_clicks : value;
  average_interval : spec_float;
  rhythm_variance : spec_float;
  click_quality : label;
  click_bot_indicator : option string
}.

Record scroll_analysis : Type := {
  total_scrolls : value;
  scroll_average_velocity : spec_float;
  has_scrolled : value
}.

Record keyboard_analysis : Type := {
  average_dwell_time : spec_float;
  average_flight_time : spec_float;
  typing_rhythm : spec_float;
  keyboard_quality : label
}.

(** Each of the four sub-dictionaries is [{}] ([None] here) unless the
    payload carries the matching non-empty entry. *)
Record advanced_behavioral : Type := {
  mouse_behavior : option mouse_analysis;
  click_behavior : option click_analysis;
  adv_scroll_behavior : option scroll_analysis;
  keyboard_behavior : option keyboard_analysis;
  human_likelihood : label
}.

Definition float_gt (f : spec_float) (n : Z) : bool := is_gt (cmp_float_Z f n).
Definition float_lt (f : spec_float) (n : Z) : bool := is_lt (cmp_float_Z f n).
Definition float_eq (f : spec_float) (n : Z) : bool :=
  match cmp_float_Z f n with Some Eq => true | _ => false end.

Definition analyze_mouse (fp : value) : result (option mouse_analysis) :=
  mouse_data <- get fp "mouse_behavior" (VDict ∅) ;;
  if truthy mouse_data then
    movements <- get mouse_data "total_movements" (VInt 0) ;;
    velocity <- get mouse_data "average_velocity" (VInt 0) ;;
    average <- float velocity ;;
    max_v <- get mouse_data "max_velocity" (VInt 0) ;;
    maximum <- float max_v ;;
    accel <- get mouse_data "average_acceleration" (VInt 0) ;;
    acceleration <- float accel ;;
    curves <- get mouse_data "has_human_curves" (VBool false) ;;
    curves' <- get mouse_data "has_human_curves" VNone ;;
    Ok (Some {| total_movements := movements;
                mouse_average_velocity := average;
                max_velocity := maximum;
                average_acceleration := acceleration;
                has_human_curves := curves;
                mouse_quality := if truthy curves' then Good else Suspicious;
                mouse_bot_indicator :=
                  if float_gt average 3000 then Some "Abnormally high velocity"
                  else if float_eq average 0 then Some "No mouse movement"
                  else None |})
  else Ok None.

Definition analyze_click (fp : value) : result (option click_analysis) :=
  click_data <- get fp "click_behavior" (VDict ∅) ;;
  if truthy click_data then
    clicks <- get click_data "total_clicks" (VInt 0) ;;
    interval <- get click_data "average_click_interval" (VInt 0) ;;
    average <- float interval ;;
    variance <- get click_data "click_rhythm_variance" (VInt 0) ;;
    rhythm <- float variance ;;
    Ok (Some {| total_clicks := clicks;
                average_interval := average;
                rhythm_variance := rhythm;
                click_quality := if float_gt rhythm 100 then Good else Suspicious;
                click_bot_indicator :=
                  if float_lt rhythm 50 then Some "Too consistent (bot-like)" else None |})
  else Ok None.

Definition analyze_scroll (fp : value) : result (option scroll_analysis) :=
  scroll_data <- get fp "scroll_behavior" (VDict ∅) ;;
  if truthy scroll_data then
    scrolls <- get scroll_data "total_scrolls" (VInt 0) ;;
    velocity <- get scroll_data "average_scroll_velocity" (VInt 0) ;;
    average <- float velocity ;;
    scrolled <- get scroll_data "has_scrolled" (VBool false) ;;
    Ok (Some {| total_scrolls := scrolls;
                scroll_average_velocity := average;
                has_scrolled := scrolled |})
  else Ok None.

Definition analyze_keyboard (fp : value) : result (option keyboard_analysis) :=
  keyboard_data <- get fp "keyboard_behavior" (VDict ∅) ;;
  if truthy keyboard_data then
    dwell <- get keyboard_data "average_dwell_time" (VInt 0) ;;
    dwell_time <- float dwell ;;
    flight <- get keyboard_data "average_flight_time" (VInt 0) ;;
    flight_time <- float flight ;;
    rhythm <- get keyboard_data "typing_rhythm" (VInt 0) ;;
    typing <- float rhythm ;;
    Ok (Some {| average_dwell_time := dwell_time;
                average_flight_time := flight_time;
                typing_rhythm := typing;
                keyboard_quality := if float_gt typing 0 then Good else Unknown |})
  else Ok None.

(** [if d.get('bot_indicator'):] on an optional string. *)
Definition mouse_indicator (m : option mouse_analysis) : option string :=
  match m with Some a => mouse_bot_indicator a | None => None end.
Definition click_indicator (c : option click_analysis) : option string :=
  match c with Some a => click_bot_indicator a | None => None end.
Definition mouse_curves (m : option mouse_analysis) : bool :=
  match m with Some a => truthy (has_human_curves a) | None => false end.

Definition likelihood (mouse : option mouse_analysis) (click : option click_analysis) : label :=
  let human_indicators :=
    (if mouse_curves mouse then 2 else 0) +
    (if match click with Some a => float_gt (rhythm_variance a) 100 | None => false end
     then 1 else 0) in
  let bot_indicators :=
    (if truthy_str (mouse_indicator mouse) then 2 else 0) +
    (if truthy_str (click_indicator click) then 2 else 0) in
  if human_indicators >? bot_indicators then High
  else if bot_indicators >? human_indicators then Low
  else Medium.

Definition analyze_advanced_behavioral (self : analyzer) : result advanced_behavioral :=
  let fp := fingerprint self in
  mouse <- analyze_mouse fp ;;
  click <- analyze_click fp ;;
  scroll <- analyze_scroll fp ;;
  keyboard <- analyze_keyboard fp ;;
  Ok {| mouse_behavior := mouse;
        click_behavior := click;
        adv_scroll_behavior := scroll;
        keyboard_behavior := keyboard;
        human_likelihood := likelihood mouse click |}.

Record vm_detection : Type := {
  vm_likelihood : value;
  vm_indicators : value;
  total_indicators : Z;
  is_likely_vm : bool
}.

(** [sum(1 for v in vm_data.values() if v == True)] *)
Definition count_true (m : gmap string value) : Z :=
  Z.of_nat (length (List.filter (fun kv => eq_int kv.2 1) (map_to_list m))).

Definition analyze_vm_detection (self : analyzer) : result vm_detection :=
  vm_data <- get (fingerprint self) "vm_detection" (VDict ∅) ;;
  likelihood_label <- get vm_data "vm_likelihood" (VStr "unknown") ;;
  likely <- (if truthy vm_data then
               l <- get vm_data "vm_likelihood" VNone ;;
               Ok (eq_str l "high" || eq_str l "medium")
             else Ok false) ;;
  Ok {| vm_likelihood := likelihood_label;
        vm_indicators := vm_data;
        total_indicators := match vm_data with VDict m => count_true m | _ => 0 end;
        is_likely_vm := likely |}.

Record extensions : Type := {
  total_detected : value;
  adblock_detected : value;
  devtools_detected : value;
  extensions_data : value;
  privacy_concerned : value
}.

(** [a or b] yields one of its operands. *)
Definition or_value (a b : value) : value := if truthy a then a else b.

Definition analyze_extensions (self : analyzer) : result extensions :=
  ext_data <- get (fingerprint self) "browser_extensions" (VDict ∅) ;;
  detected <- get ext_data "total_detected" (VInt 0) ;;
  adblock <- get ext_data "adblock_detected" (VBool false) ;;
  react <- get ext_data "react_devtools" (VBool false) ;;
  vue <- get ext_data "vue_devtools" (VBool false) ;;
  badger <- get ext_data "privacy_badger" (VBool false) ;;
  Ok {| total_detected := detected;
        adblock_detected := adblock;
        devtools_detected := or_value react vue;
        extensions_data := ext_data;
        privacy_concerned := or_value adblock badger |}.

Record timing_analysis : Type := {
  page_load_time : value;
  time_to_first_interaction : value;
  time_to_first_click : value;
  time_to_first_scroll : value;
  suspicion_level : label;
  reason : option string
}.

(** [d.get(k) and d[k] < bound] *)
Definition present_and_below (d : value) (k : string) (bound : Z) : result bool :=
  v <- get d k VNone ;;
  if truthy v then lt_int v bound else Ok false.

Definition analyze_timing (self : analyzer) : result timing_analysis :=
  timing_data <- get (fingerprint self) "advanced_timing" (VDict ∅) ;;
  load <- get timing_data "page_load_time" (VInt 0) ;;
  interaction <- get timing_data "time_to_first_interaction" VNone ;;
  click <- get timing_data "time_to_first_click" VNone ;;
  scroll <- get timing_data "time_to_first_scroll" VNone ;;
  fast_click <- present_and_below timing_data "time_to_first_click" 100 ;;
  fast_interaction <- (if fast_click then Ok false
                       else present_and_below timing_data "time_to_first_interaction" 50) ;;
  Ok {| page_load_time := load;
        time_to_first_interaction := interaction;
        time_to_first_click := click;
        time_to_first_scroll := scroll;
        suspicion_level := if fast_click || fast_interaction then High else NoRisk;
        reason := if fast_click then Some "Clicked too fast (< 100ms)"
                  else if fast_interaction then Some "Interacted too fast"
                  else None |}.

Record css_media : Type := {
  total_features : value;
  pointer_type : string;
  hover_capable : value;
  color_gamut : string;
  prefers_dark_mode : value;
  reduced_motion : value;
  features : value
}.

Definition analyze_css_media (self : analyzer) : result css_media :=
  let fp := fingerprint self in
  css_data <- get fp "css_media_queries" (VDict ∅) ;;
  counted <- contains_atom (VStr "css_media_queries_count") fp ;;
  total <- (if counted then get css_data "css_media_queries_count" (VInt 0)
            else Ok (VInt 0)) ;;
  fine <- get css_data "pointer_fine" VNone ;;
  coarse <- (if truthy fine then Ok VNone else get css_data "pointer_coarse" VNone) ;;
  hover <- get css_data "hover_hover" (VBool false) ;;
  p3 <- get css_data "color_gamut_p3" VNone ;;
  srgb <- (if truthy p3 then Ok VNone else get css_data "color_gamut_srgb" VNone) ;;
  dark <- get css_data "prefers_color_scheme_dark" (VBool false) ;;
  motion <- get css_data "prefers_reduced_motion" (VBool false) ;;
  Ok {| total_features := total;
        pointer_type := if truthy fine then "fine"
                        else if truthy coarse then "coarse" else "none";
        hover_capable := hover;
        color_gamut := if truthy p3 then "p3"
                       else if truthy srgb then "srgb" else "unknown";
        prefers_dark_mode := dark;
        reduced_motion := motion;
        features := css_data |}.

Record speech : Type := {
  voices_count : value;
  voice_hash : value;
  has_voices : bool;
  uniqueness : label
}.

(** [None] stands for [{'supported': False}]. *)
Definition analyze_speech (self : analyzer) : result (option speech) :=
  let fp := fingerprint self in
  speech_data <- get fp "speech_synthesis_support" (VBool false) ;;
  if negb (truthy speech_data) then Ok None
  else
    count <- get fp "speech_voices_count" (VInt 0) ;;
    hash <- get fp "speech_voice_hash" (VStr "") ;;
    some <- gt_int count 0 ;;
    many <- gt_int count 10 ;;
    Ok (Some {| voices_count := count;
                voice_hash := hash;
                has_voices := some;
                uniqueness := if many then High else Low |}).

Record client_hints : Type := {
  hints_mobile : value;
  hints_platform : value;
  brands : value;
  high_entropy : value;
  architecture : value;
  bitness : value
}.

(** [None] stands for [{'supported': False}]. *)
Definition analyze_client_hints (self : analyzer) : result (option client_hints) :=
  let fp := fingerprint self in
  hints <- get fp "client_hints" (VDict ∅) ;;
  if negb (truthy hints) then Ok None
  else
    mobile <- get hints "mobile" (VBool false) ;;
    platform <- get hints "platform" (VStr "unknown") ;;
    brand_list <- get hints "brands" (VList []) ;;
    entropy <- get fp "client_hints_high_entropy" (VDict ∅) ;;
    arch <- get entropy "architecture" VNone ;;
    bits <- get entropy "bitness" VNone ;;
    Ok (Some {| hints_mobile := mobile;
                hints_platform := platform;
                brands := brand_list;
                high_entropy := entropy;
                architecture := arch;
                bitness := bits |}).

(* ===================================================================== *)
(** ** The risk aggregator                                                *)
(* ===================================================================== *)

(** [self.results] as [calculate_risk_score] finds it. *)
Record findings : Type := {
  ip_address : option string;
  basic_info_of : basic_info;
  header_analysis_of : header_analysis;
  user_agent_analysis : ua_analysis;
  browser_fingerprint : fp_analysis;
  proxy_vpn_detection : proxy_detection;
  automation_detection_of : automation_detection;
  consistency_checks : consistency;
  threat_indicators : threats;
  tls_analysis_of : tls_analysis;
  behavioral_signals_of : behavioral_signals;
  advanced_behavioral_of : advanced_behavioral;
  vm_detection_of : vm_detection;
  browser_extensions : extensions;
  timing_analysis_of : timing_analysis;
  css_media_queries : css_media;
  speech_synthesis : option speech;
  client_hints_of : option client_hints
}.

Record risk : Type := {
  total_score : Z;
  max_score : Z;
  risk_level : label;
  visitor_quality : label;
  is_genuine : bool;
  confidence : Z;
  red_flags : list string;
  green_flags : list string
}.

Definition initial_risk : risk :=
  {| total_score := 0; max_score := 100;
     risk_level := Unknown; visitor_quality := Unknown;
     is_genuine := true; confidence := 0;
     red_flags := []; green_flags := [] |}.

(** The four kinds of update the function applies to [risk]. *)
Definition add_score (n : Z) (r : risk) : risk :=
  {| total_score := total_score r + n; max_score := max_score r;
     risk_level := risk_level r; visitor_quality := visitor_quality r;
     is_genuine := is_genuine r; confidence := confidence r;
     red_flags := red_flags r; green_flags := green_flags r |}.

Definition red_flag (s : string) (r : risk) : risk :=
  {| total_score := total_score r; max_score := max_score r;
     risk_level := risk_level r; visitor_quality := visitor_quality r;
     is_genuine := is_genuine r; confidence := confidence r;
     red_flags := red_flags r ++ [s]; green_flags := green_flags r |}.

Definition green_flag (s : string) (r : risk) : risk :=
  {| total_score := total_score r; max_score := max_score r;
     risk_level := risk_level r; visitor_quality := visitor_quality r;
     is_genuine := is_genuine r; confidence := confidence r;
     red_flags := red_flags r; green_flags := green_flags r ++ [s] |}.

Definition not_genuine (r : risk) : risk :=
  {| total_score := total_score r; max_score := max_score r;
     risk_level := risk_level r; visitor_quality := visitor_quality r;
     is_genuine := false; confidence := confidence r;
     red_flags := red_flags r; green_flags := green_flags r |}.

(** One definition per commented block of the function, in its order. *)
Definition score_headers (res : findings) (r : risk) : risk :=
  let header_quality := header_quality (header_analysis_of res) in
  if label_eqb header_quality Bad then red_flag "Poor header quality" (add_score 25 r)
  else if label_eqb header_quality Suspicious then red_flag "Suspicious headers" (add_score 15 r)
  else green_flag "Good header quality" r.

Definition score_user_agent (res : findings) (r : risk) : risk :=
  let ua_quality := ua_quality (user_agent_analysis res) in
  if label_eqb ua_quality Bad then red_flag "Bad User-Agent" (add_score 20 r)
  else if label_eqb ua_quality Suspicious then red_flag "Suspicious User-Agent" (add_score 10 r)
  else green_flag "Valid User-Agent" r.

Definition score_fingerprint (res : findings) (r : risk) : risk :=
  let fp_quality := fp_quality (browser_fingerprint res) in
  if label_eqb fp_quality Bad then
    not_genuine (red_flag "Manipulated fingerprint" (add_score 30 r))
  else if label_eqb fp_quality Suspicious then
    red_flag "Suspicious fingerprint" (add_score 15 r)
  else green_flag "Natural fingerprint" r.

Definition score_proxy (res : findings) (r : risk) : risk :=
  let proxy_risk := proxy_risk_level (proxy_vpn_detection res) in
  if label_eqb proxy_risk High then red_flag "Proxy/VPN detected" (add_score 20 r)
  else if label_eqb proxy_risk Medium then red_flag "Possible proxy/VPN" (add_score 10 r)
  else r.

Definition score_automation (res : findings) (r : risk) : risk :=
  let automation_confidence := automation_confidence (automation_detection_of res) in
  if label_eqb automation_confidence VeryHigh || label_eqb automation_confidence High then
    not_genuine (red_flag "Automation detected" (add_score 25 r))
  else if label_eqb automation_confidence Medium then
    red_flag "Possible automation" (add_score 10 r)
  else r.

Definition score_consistency (res : findings) (r : risk) : risk :=
  let consistency := consistency_checks res in
  if failed consistency >? 2 then red_flag "Multiple consistency failures" (add_score 15 r)
  else if failed consistency >? 0 then add_score 5 r
  else r.

Definition score_threat (res : findings) (r : risk) : risk :=
  let threat_level := threat_level (threat_indicators res) in
  if label_eqb threat_level Critical then
    not_genuine (red_flag "Critical threat detected" (add_score 50 r))
  else if label_eqb threat_level High then red_flag "High threat level" (add_score 30 r)
  else r.

Definition score_behavior (res : findings) (r : risk) : risk :=
  let human_likelihood := human_likelihood (advanced_behavioral_of res) in
  if label_eqb human_likelihood Low then red_flag "Bot-like behavior patterns" (add_score 20 r)
  else if label_eqb human_likelihood High then green_flag "Human-like behavior patterns" r
  else r.

Definition score_mouse (res : findings) (r : risk) : risk :=
  let mouse_behavior := mouse_behavior (advanced_behavioral_of res) in
  if truthy_str (mouse_indicator mouse_behavior) then
    red_flag ("Mouse: " +:+ default "" (mouse_indicator mouse_behavior)) (add_score 10 r)
  else if mouse_curves mouse_behavior then green_flag "Natural mouse movement curves" r
  else r.

Definition score_click (res : findings) (r : risk) : risk :=
  let click_behavior := click_behavior (advanced_behavioral_of res) in
  if truthy_str (click_indicator click_behavior) then
    red_flag ("Click: " +:+ default "" (click_indicator click_behavior)) (add_score 10 r)
  else r.

Definition score_vm (res : findings) (r : risk) : risk :=
  if is_likely_vm (vm_detection_of res) then
    red_flag "Running in virtual machine" (add_score 15 r)
  else r.

Definition score_timing (res : findings) (r : risk) : risk :=
  let timing := timing_analysis_of res in
  if label_eqb (suspicion_level timing) High then
    red_flag ("Timing: " +:+ default "Too fast" (reason timing)) (add_score 15 r)
  else r.

Definition score_extensions (res : findings) (r : risk) : risk :=
  if truthy (privacy_concerned (browser_extensions res)) then
    green_flag "Privacy-aware (ad blocker detected)" r
  else r.

Definition scoring_steps : list (findings -> risk -> risk) :=
  [score_headers; score_user_agent; score_fingerprint; score_proxy;
   score_automation; score_consistency; score_threat; score_behavior;
   score_mouse; score_click; score_vm; score_timing; score_extensions].

Definition run_steps (res : findings) (steps : list (findings -> risk -> risk))
    (r : risk) : risk :=
  fold_left (fun acc step => step res acc) steps r.

(** [risk['total_score'] = min(risk['total_score'], 100)] *)
Definition cap_score (r : risk) : risk :=
  {| total_score := Z.min (total_score r) 100; max_score := max_score r;
     risk_level := risk_level r; visitor_quality := visitor_quality r;
     is_genuine := is_genuine r; confidence := confidence r;
     red_flags := red_flags r; green_flags := green_flags r |}.

Definition set_level (level quality : label) (r : risk) : risk :=
  {| total_score := total_score r; max_score := max_score r;
     risk_level := level; visitor_quality := quality;
     is_genuine := is_genuine r; confidence := confidence r;
     red_flags := red_flags r; green_flags := green_flags r |}.

Definition determine_level (r : risk) : risk :=
  if total_score r >=? 70 then set_level Critical Bad r
  else if total_score r >=? 50 then set_level High Bad r
  else if total_score r >=? 30 then set_level Medium Suspicious r
  else if total_score r >=? 15 then set_level Low Acceptable r
  else set_level Minimal Good r.

Definition set_confidence (r : risk) : risk :=
  {| total_score := total_score r; max_score := max_score r;
     risk_level := risk_level r; visitor_quality := visitor_quality r;
     is_genuine := is_genuine r;
     confidence := Z.min 100 (total_score r + Z.of_nat (length (red_flags r)) * 5);
     red_flags := red_flags r; green_flags := green_flags r |}.

Definition calculate_risk_score (res : findings) : risk :=
  set_confidence (determine_level (cap_score (run_steps res scoring_steps initial_risk))).

(* ===================================================================== *)
(** ** The pipeline and the endpoint                                      *)
(* ===================================================================== *)

Record results : Type := {
  findings_of : findings;
  risk_assessment : risk
}.

(** [analyze]: the analyzers run in the order of the dictionary display;
    the first exception ends the run. *)
Definition collect (self : analyzer) : result findings :=
  let basic := analyze_basic_info self in
  let hdr := analyze_headers self in
  let ua := analyze_user_agent self in
  fp <- analyze_browser_fingerprint self ;;
  proxy <- detect_proxy_vpn self ;;
  automation <- detect_automation self ;;
  consistent <- check_consistency self ;;
  let threat := detect_threats self in
  tls <- analyze_tls self ;;
  behavioral <- analyze_behavioral_signals self ;;
  advanced <- analyze_advanced_behavioral self ;;
  vm <- analyze_vm_detection self ;;
  ext <- analyze_extensions self ;;
  timing <- analyze_timing self ;;
  css <- analyze_css_media self ;;
  spoken <- analyze_speech self ;;
  hints <- analyze_client_hints self ;;
  Ok {| ip_address := ip self;
        basic_info_of := basic;
        header_analysis_of := hdr;
        user_agent_analysis := ua;
        browser_fingerprint := fp;
        proxy_vpn_detection := proxy;
        automation_detection_of := automation;
        consistency_checks := consistent;
        threat_indicators := threat;
        tls_analysis_of := tls;
        behavioral_signals_of := behavioral;
        advanced_behavioral_of := advanced;
        vm_detection_of := vm;
        browser_extensions := ext;
        timing_analysis_of := timing;
        css_media_queries := css;
        speech_synthesis := spoken;
        client_hints_of := hints |}.

Definition analyze (self : analyzer) (client_fingerprint : value) : result results :=
  res <- collect (set_fingerprint self client_fingerprint) ;;
  Ok {| findings_of := res; risk_assessment := calculate_risk_score res |}.

(** The answer of the endpoint: the JSON body with its success flag, and
    the status code. *)
Inductive response : Type :=
| Success (r : results)
| Failure (error : exn) (status_code : Z).

(** [analyze_visitor].  [get_json] is the outcome of the framework's
    [request.get_json()] on this request: the decoded body, or the
    exception it raises. *)
Definition analyze_visitor (req : request) (get_json : result value) : response :=
  let attempt :=
    data <- get_json ;;
    client_fingerprint <- (if truthy data then get data "fingerprint" (VDict ∅)
                           else Ok (VDict ∅)) ;;
    analyze (init req) client_fingerprint in
  match attempt with
  | Ok r => Success r
  | Raise e => Failure e 500
  end.

End WithRuntime.

(* ===================================================================== *)
(** ** The weight table of the specification                              *)
(* ===================================================================== *)

(** The table of section 4.4, row by row, as a function of the findings;
    [calculate_risk_score] is compared with it below. *)
Module WeightTable.

Definition header (q : label) : Z :=
  match q with Bad => 25 | Suspicious => 15 | _ => 0 end.

Definition user_agent (q : label) : Z :=
  match q with Bad => 20 | Suspicious => 10 | _ => 0 end.

Definition fingerprint (q : label) : Z :=
  match q with Bad => 30 | Suspicious => 15 | _ => 0 end.

Definition proxy (l : label) : Z :=
  match l with High => 20 | Medium => 10 | _ => 0 end.

Definition automation (c : label) : Z :=
  match c with VeryHigh | High => 25 | Medium => 10 | _ => 0 end.

Definition consistency_failures (n : Z) : Z :=
  if 2 <? n then 15 else if 0 <? n then 5 else 0.

Definition threat (l : label) : Z :=
  match l with Critical => 50 | High => 30 | _ => 0 end.

Definition behavior (l : label) : Z :=
  match l with Low => 20 | _ => 0 end.

Definition present (b : bool) (w : Z) : Z := if b then w else 0.

Definition sum (res : findings) : Z :=
  header (header_quality (header_analysis_of res)) +
  user_agent (ua_quality (user_agent_analysis res)) +
  fingerprint (fp_quality (browser_fingerprint res)) +
  proxy (proxy_risk_level (proxy_vpn_detection res)) +
  automation (automation_confidence (automation_detection_of res)) +
  consistency_failures (failed (consistency_checks res)) +
  threat (threat_level (threat_indicators res)) +
  behavior (human_likelihood (advanced_behavioral_of res)) +
  present (truthy_str (mouse_indicator (mouse_behavior (advanced_behavioral_of res)))) 10 +
  present (truthy_str (click_indicator (click_behavior (advanced_behavioral_of res)))) 10 +
  present (is_likely_vm (vm_detection_of res)) 15 +
  present (label_eqb (suspicion_level (timing_analysis_of res)) High) 15.

End WeightTable.

(** What one scoring block adds to the running total. *)
Definition step_weight (step : findings -> risk -> risk) (res : findings) : Z :=
  total_score (step res initial_risk).

(** The three conditions that clear [is_genuine]. *)
Definition flagged (res : findings) : Prop :=
  fp_quality (browser_fingerprint res) = Bad \/
  (automation_confidence (automation_detection_of res) = High \/
   automation_confidence (automation_detection_of res) = VeryHigh) \/
  threat_level (threat_indicators res) = Critical.

(* ===================================================================== *)
(** ** The statements of the specification, and sample requests           *)
(* ===================================================================== *)

(** The header grading as the specification words it: bad on more than 2
    suspicious patterns or more than 3 missing standard headers,
    suspicious when any suspicious pattern is present, good otherwise. *)
Definition header_grade_as_specified (suspicious_count missing_count : Z) : label :=
  if (2 <? suspicious_count) || (3 <? missing_count) then Bad
  else if 0 <? suspicious_count then Suspicious
  else Good.

(** The address precedence as the specification words it: the first
    comma-separated value of [X-Forwarded-For] if present, else the value
    of [X-Real-IP], else the peer address. *)
Definition client_ip_as_specified (req : request) : option string :=
  match header req "X-Forwarded-For" with
  | Some xff => Some (strip (split_first "," xff))
  | None =>
      match header req "X-Real-IP" with
      | Some real_ip => Some real_ip
      | None => remote_addr req
      end
  end.

Definition chrome_user_agent : string :=
  "Mozilla/5.0 (Windows NT 10.0; Win64; x64) AppleWebKit/537.36 (KHTML, like Gecko) Chrome/120.0.0.0 Safari/537.36".

Definition request_with (hdrs : gmap string string) : request :=
  {| sent_headers := hdrs;
     remote_addr := Some "203.0.113.7";
     method := "POST";
     path := "/analyze";
     environ := ∅;
     is_secure := false |}.

(** A browser request over HTTP/2 made by a script of the page: neither
    [Connection] nor [Upgrade-Insecure-Requests] is sent. *)
Definition fetch_headers : gmap string string :=
  <["Host" := "example.org"]>
  (<["User-Agent" := chrome_user_agent]>
  (<["Accept" := "application/json"]>
  (<["Accept-Language" := "en-US,en;q=0.9"]>
  (<["Accept-Encoding" := "gzip, deflate, br"]> ∅)))).

(** A navigation request with the six standard headers. *)
Definition browser_headers : gmap string string :=
  <["Connection" := "keep-alive"]>
  (<["Upgrade-Insecure-Requests" := "1"]>
  (<["Content-Type" := "application/json"]> fetch_headers)).

Definition forwarded_headers : gmap string string :=
  <["X-Forwarded-For" := "1.2.3.4, 5.6.7.8"]>
  (<["X-Real-IP" := "9.9.9.9"]> ∅).

(** A forwarding header sent with an empty value. *)
Definition empty_forwarded_headers : gmap string string :=
  <["X-Forwarded-For" := ""]>
  (<["X-Real-IP" := "9.9.9.9"]> ∅).

(** A stand-in for the two library functions, for the sample runs: it
    reads every user agent as desktop Chrome on Windows and accepts no
    string as a number. *)
Definition sample_runtime : Runtime :=
  {| float_of_str := fun _ => None;
     parse := fun _ =>
       {| browser_family := "Chrome"; browser_version := "120.0.0";
          os_family := "Windows"; os_version := "10";
          device_family := "Other";
          is_mobile := false; is_tablet := false; is_pc := true;
          is_bot := false |} |}.

Definition suspicious_count (h : header_analysis) : Z :=
  Z.of_nat (length (suspicious_patterns h)).
Definition missing_count (h : header_analysis) : Z :=
  Z.of_nat (length (missing_standard_headers h)).

(** A payload whose timing block reports a first click [click] ms after
    load. *)
Definition timing_payload (click : value) : value :=
  VDict {[ "advanced_timing" := VDict {[ "time_to_first_click" := click ]} ]}.

(** "The reported time [k] is below [bound] ms": the timing block
    carries a number under [k] and it is less than [bound]. *)
Definition reported_below (td : gmap string value) (k : string) (bound : Z) : Prop :=
  exists v, td !! k = Some v /\ lt_int v bound = Ok true.

Definition with_fingerprint (req : request) (fp : value) : analyzer :=
  set_fingerprint (init req) fp.

(** The scenario of the specification: standard-compliant headers (the
    six standard browser headers, [Accept-Language] among them, a
    specific [Accept] value, no automation-tool name in any value) ... *)
Definition standard_compliant (hdrs : gmap string string) : bool :=
  forallb (has_key hdrs) standard_headers
  && negb (String.eqb (default "" (hdrs !! "Accept")) "*/*")
  && negb (String.eqb (default "" (hdrs !! "Accept")) "")
  && match automation_signatures hdrs with [] => true | _ => false end.

(** ... that arrive without any forwarding header ... *)
Definition direct_connection (hdrs : gmap string string) : bool :=
  forallb (fun k => negb (has_key hdrs k)) proxy_header_names.

(** ... by GET or POST on a path with no sensitive substring, as is the
    endpoint's own route [POST /analyze] ... *)
Definition plain_route (req : request) : bool :=
  negb (contains_any suspicious_paths (lower (path req)))
  && (String.eqb (method req) "GET" || String.eqb (method req) "POST").

(** ... and a realistic modern-browser user agent: 50 to 500 characters,
    a browser token, no bot keyword or scanner name, at most ten
    slashes. *)
Definition realistic_user_agent (ua : string) : bool :=
  (50 <=? str_len ua) && (str_len ua <=? 500)
  && contains_any browser_tokens (lower ua)
  && negb (contains_any bot_keywords (lower ua))
  && negb (contains_any ["sqlmap"; "nikto"] (lower ua))
  && (count_char "/" ua <=? 10).

(** What the analyzers return on the empty payload. *)
Definition empty_fp_analysis : fp_analysis :=
  {| fingerprint_data := VDict ∅;
     inconsistencies := [Indicator "No fingerprint data received" ""];
     manipulation_indicators := [];
     fp_quality := Bad |}.

Definition empty_automation : automation_detection :=
  {| automation_indicators := []; automation_type := []; automation_confidence := Low |}.

Definition empty_consistency : consistency :=
  {| checks := [Check "Hardware Concurrency" Failed];
     passed := 0; failed := 1; warnings := 0 |}.

Definition empty_advanced : advanced_behavioral :=
  {| mouse_behavior := None; click_behavior := None;
     adv_scroll_behavior := None; keyboard_behavior := None;
     human_likelihood := Medium |}.

Definition empty_behavioral : behavioral_signals :=
  {| mouse_movement := VBool false; keyboard_input := VBool false;
     touch_support := VBool false; page_focus := VBool true;
     scroll_behavior := VBool false; behavioral_score := BotLikely |}.

Definition empty_vm : vm_detection :=
  {| vm_likelihood := VStr "unknown"; vm_indicators := VDict ∅;
     total_indicators := 0; is_likely_vm := false |}.

Definition empty_extensions : extensions :=
  {| total_detected := VInt 0; adblock_detected := VBool false;
     devtools_detected := VBool false; extensions_data := VDict ∅;
     privacy_concerned := VBool false |}.

Definition empty_timing : timing_analysis :=
  {| page_load_time := VInt 0; time_to_first_interaction := VNone;
     time_to_first_click := VNone; time_to_first_scroll := VNone;
     suspicion_level := NoRisk; reason := None |}.

Definition empty_css : css_media :=
  {| total_features := VInt 0; pointer_type := "none";
     hover_capable := VBool false; color_gamut := "unknown";
     prefers_dark_mode := VBool false; reduced_motion := VBool false;
     features := VDict ∅ |}.

(** [detect_proxy_vpn] when the payload has nothing to add. *)
Definition proxy_from_headers (hdrs : gmap string string) : proxy_detection :=
  let found := List.filter (has_key hdrs) proxy_header_names in
  let chain := contains "," (default "" (hdrs !! "X-Forwarded-For")) in
  let via := has_key hdrs "Via" in
  let indicators :=
    map (Indicator "Proxy header present") found ++
    when chain (Indicator "Multiple IPs in proxy chain" "X-Forwarded-For") ++
    when via (Indicator "Via header indicates explicit proxy" "Via") in
  {| proxy_indicators := indicators;
     proxy_headers_found := found;
     proxy_risk_level := proxy_grade (Z.of_nat (length indicators)) (chain || via);
     is_proxy_likely := chain || via |}.

(** A decoded body that carries no fingerprint: nothing at all ([None]
    or another empty value), or an object whose ['fingerprint'] entry is
    absent or empty. *)
Definition no_fingerprint (data : value) : Prop :=
  truthy data = false \/
  exists m, data = VDict m /\ truthy (default (VDict ∅) (m !! "fingerprint")) = false.

(** The ['canvas'] entry is absent, falsy, or the text ['blocked']. *)
Definition canvas_unusable (m : gmap string value) : Prop :=
  m !! "canvas" = None \/
  (exists v, m !! "canvas" = Some v /\ truthy v = false) \/
  m !! "canvas" = Some (VStr "blocked").

Definition canvas_indicator : indicator :=
  Indicator "Canvas fingerprinting blocked or unavailable" "canvas".

(** Shapes of payload entries. *)
Definition is_number (v : value) : bool :=
  match v with VInt _ | VBool _ | VFloat _ => true | _ => false end.
Definition is_list (v : value) : bool :=
  match v with VList _ => true | _ => false end.
Definition is_dict (v : value) : bool :=
  match v with VDict _ => true | _ => false end.
Definition is_bool (v : value) : bool :=
  match v with VBool _ => true | _ => false end.
Definition is_string_list (v : value) : bool :=
  match v with VList l => forallb is_str l | _ => false end.
Definition is_number_or_null (v : value) : bool :=
  is_number v || is_none v.

(** A number that [float] accepts: any [float] or [bool], and an [int]
    within the range of binary64. *)
Definition is_real (v : value) : bool :=
  match v with
  | VInt z => match float_of_Z z with S754_infinity _ => false | _ => true end
  | VBool _ | VFloat _ => true
  | _ => false
  end.

(** An entry, if present, has the given shape. *)
Definition entry (m : gmap string value) (k : string) (shape : value -> bool) : bool :=
  match m !! k with
  | Some v => shape v
  | None => true
  end.

(** A nested block, if present, is a dict whose listed entries, if
    present, have the given shape. *)
Definition block (m : gmap string value) (k : string)
    (fields : list string) (shape : value -> bool) : bool :=
  match m !! k with
  | Some (VDict d) => forallb (fun f => entry d f shape) fields
  | Some _ => false
  | None => true
  end.

(** What [analyze_browser_fingerprint] needs of the entries it measures. *)
Definition integrity_fields_typed (m : gmap string value) : bool :=
  entry m "languages" is_list
  && entry m "screen_width" is_number
  && entry m "screen_height" is_number.

(** The payload the client script is expected to send: every entry that
    is present has the type its analyzer works with. *)
Definition well_typed (m : gmap string value) : bool :=
  integrity_fields_typed m
  && entry m "ip_info" is_dict
  && entry m "webrtc_ips" is_string_list
  && entry m "platform" is_str
  && entry m "language" is_str
  && entry m "timezone_offset" is_number_or_null
  && entry m "hardware_concurrency" is_number
  && entry m "has_mouse_movement" is_bool
  && entry m "has_keyboard_input" is_bool
  && entry m "has_page_focus" is_bool
  && entry m "has_scroll" is_bool
  && block m "mouse_behavior"
       ["average_velocity"; "max_velocity"; "average_acceleration"] is_real
  && block m "click_behavior" ["average_click_interval"; "click_rhythm_variance"] is_real
  && block m "scroll_behavior" ["average_scroll_velocity"] is_real
  && block m "keyboard_behavior"
       ["average_dwell_time"; "average_flight_time"; "typing_rhythm"] is_real
  && entry m "vm_detection" is_dict
  && entry m "browser_extensions" is_dict
  && block m "advanced_timing"
       ["time_to_first_click"; "time_to_first_interaction"] is_number_or_null
  && entry m "css_media_queries" is_dict
  && entry m "speech_voices_count" is_number
  && entry m "client_hints" is_dict
  && entry m "client_hints_high_entropy" is_dict.

(** The top-level payload keys the analyzers read with [dict.get], each
    with the default the source passes ([None] where it passes none). *)
Definition top_level_defaults : list (string * value) :=
  [("webdriver", VNone); ("headless", VNone); ("plugins", VInt 0);
   ("languages", VList []); ("canvas", VNone);
   ("webgl_vendor", VNone); ("webgl_renderer", VNone);
   ("screen_width", VInt 0); ("screen_height", VInt 0); ("timezone", VNone);
   ("__nightmare", VNone); ("__phantomas", VNone); ("callPhantom", VNone);
   ("_phantom", VNone); ("__selenium", VNone); ("__webdriver", VNone);
   ("__driver", VNone);
   ("ip_info", VNone); ("webrtc_ips", VList []);
   ("domAutomation", VNone); ("domAutomationController", VNone);
   ("chrome", VNone); ("chrome_runtime", VNone);
   ("permissions_query_unavailable", VNone); ("notification_permission", VNone);
   ("platform", VNone); ("language", VStr ""); ("timezone_offset", VNone);
   ("hardware_concurrency", VInt 0);
   ("tls_fingerprint", VNone);
   ("has_mouse_movement", VBool false); ("has_keyboard_input", VBool false);
   ("touch_support", VBool false); ("has_page_focus", VBool true);
   ("has_scroll", VBool false);
   ("mouse_behavior", VDict ∅); ("click_behavior", VDict ∅);
   ("scroll_behavior", VDict ∅); ("keyboard_behavior", VDict ∅);
   ("vm_detection", VDict ∅); ("browser_extensions", VDict ∅);
   ("advanced_timing", VDict ∅); ("css_media_queries", VDict ∅);
   ("speech_synthesis_support", VBool false); ("speech_voices_count", VInt 0);
   ("speech_voice_hash", VStr "");
   ("client_hints", VDict ∅); ("client_hints_high_entropy", VDict ∅)].

(** Two payloads the analyzers cannot tell apart: both empty or both
    not, the same answer to the one membership test, and the same value
    for every defaulted read. *)
Definition same_reads (m m' : gmap string value) : Prop :=
  (truthy (VDict m) = truthy (VDict m')) /\
  (has_key m "css_media_queries_count" = has_key m' "css_media_queries_count") /\
  Forall (fun kd => default kd.2 (m !! kd.1) = default kd.2 (m' !! kd.1)) top_level_defaults.

(** The analyzer with another payload in place. *)
Definition with_payload (self : analyzer) (fp : value) : analyzer :=
  {| self_request := self_request self;
     ip := ip self;
     headers := headers self;
     user_agent := user_agent self;
     fingerprint := fp |}.

(** The findings without the echo of the raw payload. *)
Definition forget_echo (a : fp_analysis) : fp_analysis :=
  {| fingerprint_data := VNone;
     inconsistencies := inconsistencies a;
     manipulation_indicators := manipulation_indicators a;
     fp_quality := fp_quality a |}.

Definition forget_payload (res : findings) : findings :=
  {| ip_address := ip_address res;
     basic_info_of := basic_info_of res;
     header_analysis_of := header_analysis_of res;
     user_agent_analysis := user_agent_analysis res;
     browser_fingerprint := forget_echo (browser_fingerprint res);
     proxy_vpn_detection := proxy_vpn_detection res;
     automation_detection_of := automation_detection_of res;
     consistency_checks := consistency_checks res;
     threat_indicators := threat_indicators res;
     tls_analysis_of := tls_analysis_of res;
     behavioral_signals_of := behavioral_signals_of res;
     advanced_behavioral_of := advanced_behavioral_of res;
     vm_detection_of := vm_detection_of res;
     browser_extensions := browser_extensions res;
     timing_analysis_of := timing_analysis_of res;
     css_media_queries := css_media_queries res;
     speech_synthesis := speech_synthesis res;
     client_hints_of := client_hints_of res |}.

(** A payload as the client script sends it, with no ['canvas'] entry. *)
Definition typical_payload : gmap string value :=
  <["plugins" := VInt 3]>
  (<["languages" := VList [VStr "en-US"; VStr "en"]]>
  (<["screen_width" := VInt 1920]>
  (<["screen_height" := VInt 1080]>
  (<["platform" := VStr "Win32"]>
  (<["language" := VStr "en-US"]>
  (<["timezone_offset" := VInt (-60)]>
  (<["hardware_concurrency" := VInt 8]>
  (<["has_mouse_movement" := VBool true]>
  (<["mouse_behavior" :=
       VDict (<["average_velocity" := VFloat (float_of_Z 120)]>
              (<["has_human_curves" := VBool true]> ∅))]> ∅))))))))).

(** Payloads with an entry of an unexpected type. *)
Definition numeric_platform_payload : gmap string value :=
  {[ "platform" := VInt 123 ]}.
Definition textual_scroll_payload : gmap string value :=
  {[ "has_scroll" := VStr "yes" ]}.

(** The findings whose graded parts come from [res] and whose
    descriptive parts (address, basic info, transport, baseline
    behavioral signals, media queries, speech, client hints) come from
    [other]. *)
Definition with_descriptive_of (res other : findings) : findings :=
  {| ip_address := ip_address other;
     basic_info_of := basic_info_of other;
     header_analysis_of := header_analysis_of res;
     user_agent_analysis := user_agent_analysis res;
     browser_fingerprint := browser_fingerprint res;
     proxy_vpn_detection := proxy_vpn_detection res;
     automation_detection_of := automation_detection_of res;
     consistency_checks := consistency_checks res;
     threat_indicators := threat_indicators res;
     tls_analysis_of := tls_analysis_of other;
     behavioral_signals_of := behavioral_signals_of other;
     advanced_behavioral_of := advanced_behavioral_of res;
     vm_detection_of := vm_detection_of res;
     browser_extensions := browser_extensions res;
     timing_analysis_of := timing_analysis_of res;
     css_media_queries := css_media_queries other;
     speech_synthesis := speech_synthesis other;
     client_hints_of := client_hints_of other |}.

(** The scoring blocks that can raise a red flag: all but the last. *)
Definition flagging_steps : list (findings -> risk -> risk) :=
  [score_headers; score_user_agent; score_fingerprint; score_proxy;
   score_automation; score_consistency; score_threat; score_behavior;
   score_mouse; score_click; score_vm; score_timing].

(** The request of a command-line client. *)
Definition curl_headers : gmap string string :=
  <["Host" := "example.org"]>
  (<["User-Agent" := "curl/7.68.0"]>
  (<["Accept" := "*/*"]> ∅)).

(** The number of recorded checks with a given status. *)
Definition count_status (st : label) (c : consistency) : Z :=
  Z.of_nat (length (List.filter (fun k => label_eqb (status k) st) (checks c))).

(** What one of the four checks does to the record: nothing, or one
    more entry under [name] with one of the statuses [sts]. *)
Definition records (name : string) (sts : list label) (c c' : consistency) : Prop :=
  exists st, In st sts /\ c' = record_check c name st.

(** A browser's request that reached the application through a content
    delivery network and a reverse proxy: four forwarding fields, one
    client address, no [Via]. *)
Definition cdn_headers : gmap string string :=
  <["X-Forwarded-For" := "198.51.100.23"]>
  (<["X-Real-IP" := "198.51.100.23"]>
  (<["CF-Connecting-IP" := "198.51.100.23"]>
  (<["X-Forwarded-Proto" := "https"]> browser_headers))).

(** The headers a reverse proxy in front of the application adds to a
    browser's request: one client address, no [Via]. *)
Definition reverse_proxy_headers : gmap string string :=
  <["X-Forwarded-For" := "198.51.100.23"]>
  (<["X-Real-IP" := "198.51.100.23"]>
  (<["X-Forwarded-Proto" := "https"]> browser_headers)).

(** A page on which a script clicked at fixed intervals: the click block
    reports a rhythm variance of 3. *)
Definition scripted_click_payload : gmap string value :=
  {[ "click_behavior" :=
       VDict (<["total_clicks" := VInt 12]> (<["click_rhythm_variance" := VInt 3]> ∅)) ]}.

(** A page left alone: the client script reports its mouse and click
    blocks with zero counts and no measurements. *)
Definition idle_payload : gmap string value :=
  <["mouse_behavior" := VDict {[ "total_movements" := VInt 0 ]}]>
  (<["click_behavior" := VDict {[ "total_clicks" := VInt 0 ]}]> ∅).

(** The findings [res] with the extension findings replaced by [ext]. *)
Definition with_extensions (res : findings) (ext : extensions) : findings :=
  {| ip_address := ip_address res;
     basic_info_of := basic_info_of res;
     header_analysis_of := header_analysis_of res;
     user_agent_analysis := user_agent_analysis res;
     browser_fingerprint := browser_fingerprint res;
     proxy_vpn_detection := proxy_vpn_detection res;
     automation_detection_of := automation_detection_of res;
     consistency_checks := consistency_checks res;
     threat_indicators := threat_indicators res;
     tls_analysis_of := tls_analysis_of res;
     behavioral_signals_of := behavioral_signals_of res;
     advanced_behavioral_of := advanced_behavioral_of res;
     vm_detection_of := vm_detection_of res;
     browser_extensions := ext;
     timing_analysis_of := timing_analysis_of res;
     css_media_queries := css_media_queries res;
     speech_synthesis := speech_synthesis res;
     client_hints_of := client_hints_of res |}.

(** The red flags the scoring blocks raise on [res], block by block. *)
Definition raised (res : findings) (steps : list (findings -> risk -> risk)) : list string :=
  flat_map (fun step => red_flags (step res initial_risk)) steps.

(** A payload whose timing block reports a first click 40 ms after load. *)
Definition fast_click_payload : gmap string value :=
  {[ "advanced_timing" := VDict {[ "time_to_first_click" := VInt 40 ]} ]}.

(** What a browser driven through WebDriver reports, and nothing else. *)
Definition webdriver_payload : gmap string value :=
  {[ "webdriver" := VBool true ]}.


(** Two payloads with the same answer to the one membership test and
    the same value for every defaulted read; one of them may be empty. *)
Definition same_defaults (m m' : gmap string value) : Prop :=
  (has_key m "css_media_queries_count" = has_key m' "css_media_queries_count") /\
  Forall (fun kd => default kd.2 (m !! kd.1) = default kd.2 (m' !! kd.1)) top_level_defaults.

(** The integrity analysis reduced to its grade. *)
Definition forget_checks (a : fp_analysis) : fp_analysis :=
  {| fingerprint_data := VNone;
     inconsistencies := [];
     manipulation_indicators := [];
     fp_quality := fp_quality a |}.

Definition forget_integrity (res : findings) : findings :=
  {| ip_address := ip_address res;
     basic_info_of := basic_info_of res;
     header_analysis_of := header_analysis_of res;
     user_agent_analysis := user_agent_analysis res;
     browser_fingerprint := forget_checks (browser_fingerprint res);
     proxy_vpn_detection := proxy_vpn_detection res;
     automation_detection_of := automation_detection_of res;
     consistency_checks := consistency_checks res;
     threat_indicators := threat_indicators res;
     tls_analysis_of := tls_analysis_of res;
     behavioral_signals_of := behavioral_signals_of res;
     advanced_behavioral_of := advanced_behavioral_of res;
     vm_detection_of := vm_detection_of res;
     browser_extensions := browser_extensions res;
     timing_analysis_of := timing_analysis_of res;
     css_media_queries := css_media_queries res;
     speech_synthesis := speech_synthesis res;
     client_hints_of := client_hints_of res |}.

(* ===================================================================== *)
(** * Properties                                                          *)
(* ===================================================================== *)

(** ** The aggregator *)

Lemma label_eqb_eq (a b : label) : label_eqb a b = true <-> a = b.
Proof. unfold label_eqb. apply bool_decide_eq_true. Qed.

Lemma label_eqb_neq (a b : label) : label_eqb a b = false <-> a <> b.
Proof. unfold label_eqb. apply bool_decide_eq_false. Qed.

(** Run the monadic steps whose outcome is known. *)
Ltac run := cbn [get bind lift default from_option id lt_int gt_int ge_int cmp_int len].

Ltac step_cases :=
  repeat match goal with
         | |- context [if ?c then _ else _] => destruct c eqn:?
         end.

Lemma step_adds (step : findings -> risk -> risk) (res : findings) (r : risk) :
  In step scoring_steps ->
  total_score (step res r) = total_score r + step_weight step res.
Proof.
  unfold scoring_steps, step_weight. cbn [In].
  intros H; repeat (destruct H as [<- | H]); try contradiction;
    unfold score_headers, score_user_agent, score_fingerprint, score_proxy,
      score_automation, score_consistency, score_threat, score_behavior,
      score_mouse, score_click, score_vm, score_timing, score_extensions;
    step_cases; cbn; lia.
Qed.

Lemma run_steps_total (res : findings) (steps : list (findings -> risk -> risk)) :
  (forall s, In s steps -> In s scoring_steps) ->
  forall r, total_score (run_steps res steps r)
            = total_score r + fold_right (fun s acc => step_weight s res + acc) 0 steps.
Proof.
  unfold run_steps. induction steps as [|s steps IH]; intros Hin r; cbn.
  - lia.
  - rewrite IH by (intros; apply Hin; now right).
    rewrite step_adds by (apply Hin; now left). lia.
Qed.

Ltac by_label l := destruct l; cbn; reflexivity.

Lemma weight_headers res :
  step_weight score_headers res = WeightTable.header (header_quality (header_analysis_of res)).
Proof. unfold step_weight, score_headers. by_label (header_quality (header_analysis_of res)). Qed.

Lemma weight_user_agent res :
  step_weight score_user_agent res = WeightTable.user_agent (ua_quality (user_agent_analysis res)).
Proof. unfold step_weight, score_user_agent. by_label (ua_quality (user_agent_analysis res)). Qed.

Lemma weight_fingerprint res :
  step_weight score_fingerprint res = WeightTable.fingerprint (fp_quality (browser_fingerprint res)).
Proof. unfold step_weight, score_fingerprint. by_label (fp_quality (browser_fingerprint res)). Qed.

Lemma weight_proxy res :
  step_weight score_proxy res = WeightTable.proxy (proxy_risk_level (proxy_vpn_detection res)).
Proof. unfold step_weight, score_proxy. by_label (proxy_risk_level (proxy_vpn_detection res)). Qed.

Lemma weight_automation res :
  step_weight score_automation res
  = WeightTable.automation (automation_confidence (automation_detection_of res)).
Proof.
  unfold step_weight, score_automation.
  by_label (automation_confidence (automation_detection_of res)).
Qed.

Lemma weight_consistency res :
  step_weight score_consistency res
  = WeightTable.consistency_failures (failed (consistency_checks res)).
Proof.
  unfold step_weight, score_consistency, WeightTable.consistency_failures.
  rewrite !Z.gtb_ltb. step_cases; reflexivity.
Qed.

Lemma weight_threat res :
  step_weight score_threat res = WeightTable.threat (threat_level (threat_indicators res)).
Proof. unfold step_weight, score_threat. by_label (threat_level (threat_indicators res)). Qed.

Lemma weight_behavior res :
  step_weight score_behavior res
  = WeightTable.behavior (human_likelihood (advanced_behavioral_of res)).
Proof.
  unfold step_weight, score_behavior.
  by_label (human_likelihood (advanced_behavioral_of res)).
Qed.

Lemma weight_mouse res :
  step_weight score_mouse res
  = WeightTable.present
      (truthy_str (mouse_indicator (mouse_behavior (advanced_behavioral_of res)))) 10.
Proof. unfold step_weight, score_mouse, WeightTable.present. step_cases; reflexivity. Qed.

Lemma weight_click res :
  step_weight score_click res
  = WeightTable.present
      (truthy_str (click_indicator (click_behavior (advanced_behavioral_of res)))) 10.
Proof. unfold step_weight, score_click, WeightTable.present. step_cases; reflexivity. Qed.

Lemma weight_vm res :
  step_weight score_vm res = WeightTable.present (is_likely_vm (vm_detection_of res)) 15.
Proof. unfold step_weight, score_vm, WeightTable.present. step_cases; reflexivity. Qed.

Lemma weight_timing res :
  step_weight score_timing res
  = WeightTable.present (label_eqb (suspicion_level (timing_analysis_of res)) High) 15.
Proof. unfold step_weight, score_timing, WeightTable.present. step_cases; reflexivity. Qed.

Lemma weight_extensions res : step_weight score_extensions res = 0.
Proof. unfold step_weight, score_extensions. step_cases; reflexivity. Qed.

Lemma weights_match_table (res : findings) :
  fold_right (fun s acc => step_weight s res + acc) 0 scoring_steps = WeightTable.sum res.
Proof.
  unfold scoring_steps, WeightTable.sum. cbn [fold_right].
  rewrite weight_headers, weight_user_agent, weight_fingerprint, weight_proxy,
    weight_automation, weight_consistency, weight_threat, weight_behavior,
    weight_mouse, weight_click, weight_vm, weight_timing, weight_extensions.
  lia.
Qed.

Lemma weights_nonneg :
  (forall q, 0 <= WeightTable.header q) /\
  (forall q, 0 <= WeightTable.user_agent q) /\
  (forall q, 0 <= WeightTable.fingerprint q) /\
  (forall q, 0 <= WeightTable.proxy q) /\
  (forall q, 0 <= WeightTable.automation q) /\
  (forall n, 0 <= WeightTable.consistency_failures n) /\
  (forall q, 0 <= WeightTable.threat q) /\
  (forall q, 0 <= WeightTable.behavior q) /\
  (forall b w, 0 <= w -> 0 <= WeightTable.present b w).
Proof.
  repeat split; try (intros []; cbn; lia).
  intros n. unfold WeightTable.consistency_failures. step_cases; lia.
Qed.

(** Bring the sign of every term of the table into the context. *)
Ltac table_terms res :=
  destruct weights_nonneg as (Wh & Wu & Wf & Wp & Wa & Wc & Wt & Wb & Wq);
  pose proof (Wh (header_quality (header_analysis_of res)));
  pose proof (Wu (ua_quality (user_agent_analysis res)));
  pose proof (Wf (fp_quality (browser_fingerprint res)));
  pose proof (Wp (proxy_risk_level (proxy_vpn_detection res)));
  pose proof (Wa (automation_confidence (automation_detection_of res)));
  pose proof (Wc (failed (consistency_checks res)));
  pose proof (Wt (threat_level (threat_indicators res)));
  pose proof (Wb (human_likelihood (advanced_behavioral_of res)));
  pose proof (Wq (truthy_str (mouse_indicator (mouse_behavior (advanced_behavioral_of res))))
                 10 ltac:(lia));
  pose proof (Wq (truthy_str (click_indicator (click_behavior (advanced_behavioral_of res))))
                 10 ltac:(lia));
  pose proof (Wq (is_likely_vm (vm_detection_of res)) 15 ltac:(lia));
  pose proof (Wq (label_eqb (suspicion_level (timing_analysis_of res)) High) 15 ltac:(lia)).

Lemma table_sum_nonneg (res : findings) : 0 <= WeightTable.sum res.
Proof. unfold WeightTable.sum. table_terms res. lia. Qed.

Lemma uncapped_total (res : findings) :
  total_score (run_steps res scoring_steps initial_risk) = WeightTable.sum res.
Proof.
  rewrite run_steps_total by auto. rewrite weights_match_table. cbn. lia.
Qed.

Lemma level_keeps_total r : total_score (determine_level r) = total_score r.
Proof. unfold determine_level. step_cases; reflexivity. Qed.

Lemma final_total (res : findings) :
  total_score (calculate_risk_score res) = Z.min 100 (WeightTable.sum res).
Proof.
  unfold calculate_risk_score. cbn [set_confidence total_score].
  rewrite level_keeps_total. cbn [cap_score total_score].
  rewrite uncapped_total. apply Z.min_comm.
Qed.

Lemma final_level (res : findings) :
  let r := calculate_risk_score res in
  (70 <= total_score r -> risk_level r = Critical /\ visitor_quality r = Bad) /\
  (50 <= total_score r < 70 -> risk_level r = High /\ visitor_quality r = Bad) /\
  (30 <= total_score r < 50 -> risk_level r = Medium /\ visitor_quality r = Suspicious) /\
  (15 <= total_score r < 30 -> risk_level r = Low /\ visitor_quality r = Acceptable) /\
  (total_score r < 15 -> risk_level r = Minimal /\ visitor_quality r = Good).
Proof.
  unfold calculate_risk_score.
  generalize (cap_score (run_steps res scoring_steps initial_risk)). intros c.
  cbn [set_confidence total_score risk_level visitor_quality].
  rewrite level_keeps_total. unfold determine_level.
  repeat match goal with
         | |- context [?a >=? ?b] => destruct (Z.geb_spec a b)
         end;
    cbn [set_level risk_level visitor_quality];
    repeat split; intros; try reflexivity; lia.
Qed.

(** C1.  For every set of findings, the assessment's total score is the
    sum of the weight-table contributions capped at 100, hence an integer
    between 0 and 100; the risk level and the visitor quality paired with
    it follow from the score by the thresholds 70, 50, 30 and 15, each
    boundary value belonging to the higher tier. *)
Theorem score_bounded_and_tiered (res : findings) :
  let r := calculate_risk_score res in
  total_score r = Z.min 100 (WeightTable.sum res) /\
  0 <= total_score r <= 100 /\
  (70 <= total_score r -> risk_level r = Critical /\ visitor_quality r = Bad) /\
  (50 <= total_score r < 70 -> risk_level r = High /\ visitor_quality r = Bad) /\
  (30 <= total_score r < 50 -> risk_level r = Medium /\ visitor_quality r = Suspicious) /\
  (15 <= total_score r < 30 -> risk_level r = Low /\ visitor_quality r = Acceptable) /\
  (total_score r < 15 -> risk_level r = Minimal /\ visitor_quality r = Good).
Proof.
  intros r. split; [apply final_total|]. split.
  - subst r. rewrite final_total. pose proof (table_sum_nonneg res). lia.
  - apply final_level.
Qed.

(** Whether a scoring block clears [is_genuine]. *)
Lemma step_genuine (step : findings -> risk -> risk) (res : findings) (r : risk) :
  In step scoring_steps ->
  is_genuine (step res r) = is_genuine r && is_genuine (step res initial_risk).
Proof.
  unfold scoring_steps. cbn [In].
  intros H; repeat (destruct H as [<- | H]); try contradiction;
    unfold score_headers, score_user_agent, score_fingerprint, score_proxy,
      score_automation, score_consistency, score_threat, score_behavior,
      score_mouse, score_click, score_vm, score_timing, score_extensions;
    step_cases; cbn; now rewrite ?andb_true_r, ?andb_false_r.
Qed.

Lemma step_never_resets (step : findings -> risk -> risk) (res : findings) (r : risk) :
  In step scoring_steps -> is_genuine r = false -> is_genuine (step res r) = false.
Proof. intros Hin Hr. rewrite step_genuine by assumption. now rewrite Hr. Qed.

Lemma run_steps_genuine (res : findings) (steps : list (findings -> risk -> risk)) :
  (forall s, In s steps -> In s scoring_steps) ->
  forall r, is_genuine (run_steps res steps r)
            = is_genuine r && forallb (fun s => is_genuine (s res initial_risk)) steps.
Proof.
  unfold run_steps. induction steps as [|s steps IH]; intros Hin r; cbn.
  - now rewrite andb_true_r.
  - rewrite IH by (intros; apply Hin; now right).
    rewrite step_genuine by (apply Hin; now left).
    now rewrite andb_assoc.
Qed.

Lemma closing_keeps_genuine (r : risk) :
  is_genuine (set_confidence (determine_level (cap_score r))) = is_genuine r.
Proof.
  cbn [set_confidence is_genuine]. unfold determine_level.
  step_cases; reflexivity.
Qed.

Lemma genuine_fingerprint res :
  is_genuine (score_fingerprint res initial_risk)
  = negb (label_eqb (fp_quality (browser_fingerprint res)) Bad).
Proof. unfold score_fingerprint. by_label (fp_quality (browser_fingerprint res)). Qed.

Lemma genuine_automation res :
  is_genuine (score_automation res initial_risk)
  = negb (label_eqb (automation_confidence (automation_detection_of res)) VeryHigh
          || label_eqb (automation_confidence (automation_detection_of res)) High).
Proof.
  unfold score_automation.
  by_label (automation_confidence (automation_detection_of res)).
Qed.

Lemma genuine_threat res :
  is_genuine (score_threat res initial_risk)
  = negb (label_eqb (threat_level (threat_indicators res)) Critical).
Proof. unfold score_threat. by_label (threat_level (threat_indicators res)). Qed.

Lemma genuine_others (step : findings -> risk -> risk) (res : findings) :
  In step [score_headers; score_user_agent; score_proxy; score_consistency;
           score_behavior; score_mouse; score_click; score_vm; score_timing;
           score_extensions] ->
  is_genuine (step res initial_risk) = true.
Proof.
  cbn [In].
  intros H; repeat (destruct H as [<- | H]); try contradiction;
    unfold score_headers, score_user_agent, score_proxy, score_consistency,
      score_behavior, score_mouse, score_click, score_vm, score_timing,
      score_extensions;
    step_cases; reflexivity.
Qed.

Lemma final_genuine (res : findings) :
  is_genuine (calculate_risk_score res)
  = negb (label_eqb (fp_quality (browser_fingerprint res)) Bad)
    && negb (label_eqb (automation_confidence (automation_detection_of res)) VeryHigh
             || label_eqb (automation_confidence (automation_detection_of res)) High)
    && negb (label_eqb (threat_level (threat_indicators res)) Critical).
Proof.
  unfold calculate_risk_score. rewrite closing_keeps_genuine.
  rewrite run_steps_genuine by auto.
  unfold scoring_steps. cbn [forallb initial_risk is_genuine].
  rewrite genuine_fingerprint, genuine_automation, genuine_threat.
  rewrite !genuine_others by (cbn; tauto).
  cbn [andb]. now rewrite andb_true_r, andb_assoc.
Qed.

(** C2.  [is_genuine] starts true and ends false exactly when the
    fingerprint quality is bad, the automation confidence is high or
    very high, or the threat level is critical; no scoring block and no
    closing step of the aggregation sets it back to true. *)
Theorem genuine_iff_not_flagged (res : findings) :
  (is_genuine (calculate_risk_score res) = false <-> flagged res) /\
  is_genuine initial_risk = true /\
  (forall step r, In step scoring_steps ->
     is_genuine r = false -> is_genuine (step res r) = false) /\
  (forall r, is_genuine (set_confidence (determine_level (cap_score r))) = is_genuine r).
Proof.
  split; [|split; [reflexivity|split]].
  - rewrite final_genuine. unfold flagged.
    rewrite !andb_false_iff, !negb_false_iff, orb_true_iff, !label_eqb_eq. tauto.
  - intros step r Hin Hr. now apply step_never_resets.
  - apply closing_keeps_genuine.
Qed.

(** C3.  The stored confidence is min(100, total_score + 5 * number of
    red flags), computed from the capped total and the red-flag list the
    assessment itself carries. *)
Theorem confidence_recomputed (res : findings) :
  let r := calculate_risk_score res in
  confidence r = Z.min 100 (total_score r + 5 * Z.of_nat (length (red_flags r))) /\
  total_score r <= 100.
Proof.
  intros r. split.
  - subst r. unfold calculate_risk_score.
    cbn [set_confidence confidence total_score red_flags]. f_equal. lia.
  - subst r. rewrite final_total. lia.
Qed.

(** ** Header quality *)

Lemma header_quality_is_grade (self : analyzer) :
  header_quality (analyze_headers self)
  = header_grade (suspicious_count (analyze_headers self))
                 (missing_count (analyze_headers self)).
Proof. reflexivity. Qed.

(** C7, as stated, fails: with two standard headers missing and no
    suspicious pattern the code grades 'suspicious', where the stated
    rule gives 'good'. *)
Lemma header_grade_two_missing :
  let h := analyze_headers (init (request_with fetch_headers)) in
  suspicious_patterns h = [] /\
  missing_standard_headers h = ["Connection"; "Upgrade-Insecure-Requests"] /\
  header_quality h = Suspicious /\
  header_quality h <> header_grade_as_specified (suspicious_count h) (missing_count h).
Proof. vm_compute. repeat split; congruence. Qed.

(** C7, amended.  The header grade is 'bad' exactly when more than 2
    suspicious patterns or more than 3 missing standard headers were
    recorded; 'suspicious' exactly when that does not hold and a
    suspicious pattern is present or more than 1 standard header is
    missing; 'good' exactly when there is no suspicious pattern and at
    most 1 standard header is missing. *)
Theorem header_quality_grades (self : analyzer) :
  let h := analyze_headers self in
  (header_quality h = Bad <-> suspicious_count h > 2 \/ missing_count h > 3) /\
  (header_quality h = Suspicious <->
     ~ (suspicious_count h > 2 \/ missing_count h > 3) /\
     (suspicious_count h > 0 \/ missing_count h > 1)) /\
  (header_quality h = Good <-> suspicious_count h = 0 /\ missing_count h <= 1).
Proof.
  intros h. subst h. rewrite header_quality_is_grade.
  assert (Hs : 0 <= suspicious_count (analyze_headers self))
    by apply Nat2Z.is_nonneg.
  assert (Hm : 0 <= missing_count (analyze_headers self))
    by apply Nat2Z.is_nonneg.
  revert Hs Hm.
  generalize (suspicious_count (analyze_headers self)) (missing_count (analyze_headers self)).
  intros s m Hs Hm. unfold header_grade.
  destruct (Z.gtb_spec s 2), (Z.gtb_spec m 3), (Z.gtb_spec s 0), (Z.gtb_spec m 1);
    cbn; repeat split; intros; try discriminate; try reflexivity; lia.
Qed.

(** ** Client address *)

(** C8, as stated, fails on a forwarding header that is present with an
    empty value: the code falls through to [X-Real-IP]. *)
Lemma client_ip_empty_forwarded :
  get_client_ip (request_with empty_forwarded_headers) = Some "9.9.9.9" /\
  client_ip_as_specified (request_with empty_forwarded_headers) = Some "" /\
  get_client_ip (request_with empty_forwarded_headers)
    <> client_ip_as_specified (request_with empty_forwarded_headers).
Proof. vm_compute. repeat split; congruence. Qed.

Lemma truthy_str_Some (s : string) : s <> "" -> truthy_str (Some s) = true.
Proof.
  intros Hs. cbn. apply negb_true_iff, String.eqb_neq. exact Hs.
Qed.

Lemma truthy_str_unset (o : option string) :
  o = None \/ o = Some "" -> truthy_str o = false.
Proof. intros [-> | ->]; reflexivity. Qed.

(** C8, amended.  The resolved address is the first comma-separated value
    (trimmed) of [X-Forwarded-For] when that header is present and not
    empty; otherwise the value of [X-Real-IP] when present and not empty;
    otherwise the peer address.  With [X-Forwarded-For: 1.2.3.4, 5.6.7.8]
    and [X-Real-IP: 9.9.9.9] it is [1.2.3.4]. *)
Theorem client_ip_precedence (req : request) :
  let forwarded := header req "X-Forwarded-For" in
  let real_ip := header req "X-Real-IP" in
  (forall xff, forwarded = Some xff -> xff <> "" ->
     get_client_ip req = Some (strip (split_first "," xff))) /\
  (forall v, forwarded = None \/ forwarded = Some "" ->
     real_ip = Some v -> v <> "" ->
     get_client_ip req = Some v) /\
  (forwarded = None \/ forwarded = Some "" ->
   real_ip = None \/ real_ip = Some "" ->
     get_client_ip req = remote_addr req) /\
  get_client_ip (request_with forwarded_headers) = Some "1.2.3.4".
Proof.
  intros forwarded real_ip. subst forwarded real_ip. unfold get_client_ip.
  repeat split.
  - intros xff Hx Hne. rewrite Hx, truthy_str_Some by assumption. reflexivity.
  - intros v Hf Hr Hne. rewrite (truthy_str_unset _ Hf).
    rewrite Hr, truthy_str_Some by assumption. reflexivity.
  - intros Hf Hr. now rewrite (truthy_str_unset _ Hf), (truthy_str_unset _ Hr).
Qed.

(** ** Timing *)

(** Where the check does fire: a first-click time that is a number other
    than zero and below 100 ms is flagged. *)
Lemma timing_fast_click_flagged (self : analyzer) (m td : gmap string value) (c : value) :
  fingerprint self = VDict m ->
  m !! "advanced_timing" = Some (VDict td) ->
  td !! "time_to_first_click" = Some c ->
  truthy c = true ->
  lt_int c 100 = Ok true ->
  exists a, analyze_timing self = Ok a /\
            suspicion_level a = High /\
            reason a = Some "Clicked too fast (< 100ms)".
Proof.
  intros Hfp Hm Hc Ht Hlt. unfold analyze_timing, present_and_below.
  rewrite Hfp. run. rewrite Hm. run.
  rewrite Hc. run. rewrite Ht, Hlt. run.
  eexists. split; [reflexivity|]. split; reflexivity.
Qed.

(** Likewise for the first interaction, when the first click is absent,
    zero, or a number of 100 ms or more. *)
Lemma timing_fast_interaction_flagged (self : analyzer) (m td : gmap string value)
    (v : value) :
  fingerprint self = VDict m ->
  m !! "advanced_timing" = Some (VDict td) ->
  present_and_below (VDict td) "time_to_first_click" 100 = Ok false ->
  td !! "time_to_first_interaction" = Some v ->
  truthy v = true ->
  lt_int v 50 = Ok true ->
  exists a, analyze_timing self = Ok a /\
            suspicion_level a = High /\
            reason a = Some "Interacted too fast".
Proof.
  intros Hfp Hm Hclick Hv Ht Hlt. unfold analyze_timing.
  rewrite Hfp. run. rewrite Hm. run. rewrite Hclick. run.
  unfold present_and_below. run. rewrite Hv. run. rewrite Ht, Hlt. run.
  eexists. split; [reflexivity|]. split; reflexivity.
Qed.

(** C9.  The claim fails at a first-click time of exactly 0 ms: it is
    reported and below 100 ms, yet the truthiness test that guards the
    comparison skips it; the suspicion level stays 'none' and the
    aggregator adds nothing for timing. *)
Theorem timing_zero_click_not_flagged :
  let self := with_fingerprint (request_with browser_headers) (timing_payload (VInt 0)) in
  reported_below {[ "time_to_first_click" := VInt 0 ]} "time_to_first_click" 100 /\
  (exists a, analyze_timing self = Ok a /\
             time_to_first_click a = VInt 0 /\
             suspicion_level a = NoRisk /\ reason a = None) /\
  (forall res, analyze_timing self = Ok (timing_analysis_of res) ->
     step_weight score_timing res = 0).
Proof.
  cbv zeta. split; [|split].
  - exists (VInt 0). split; reflexivity.
  - eexists. split; [vm_compute; reflexivity|]. repeat split.
  - intros res H.
    match type of H with
    | ?lhs = _ => let v := eval vm_compute in lhs in change lhs with v in H
    end.
    injection H as H.
    unfold step_weight, score_timing. rewrite <- H. reflexivity.
Qed.

(** ** The empty payload *)

Section EmptyPayload.
Context `{rt : Runtime}.
Variable self : analyzer.
Hypothesis no_payload : fingerprint self = VDict ∅.

Ltac on_empty :=
  rewrite ?no_payload; repeat (progress (run; rewrite ?lookup_empty)).

Lemma fingerprint_empty : analyze_browser_fingerprint self = Ok empty_fp_analysis.
Proof. unfold analyze_browser_fingerprint. rewrite no_payload. reflexivity. Qed.

Lemma automation_empty : detect_automation self = Ok empty_automation.
Proof. unfold detect_automation. rewrite no_payload. reflexivity. Qed.

Lemma consistency_empty : check_consistency self = Ok empty_consistency.
Proof.
  unfold check_consistency, check_os, check_language, check_timezone, check_hardware.
  on_empty. cbn [truthy andb negb is_none eq_int Z.eqb]. on_empty. reflexivity.
Qed.

Lemma proxy_empty : detect_proxy_vpn self = Ok (proxy_from_headers (headers self)).
Proof.
  unfold detect_proxy_vpn, proxy_from_headers. on_empty.
  cbn [truthy]. on_empty. now rewrite !app_nil_r.
Qed.

Lemma tls_empty : exists t, analyze_tls self = Ok t.
Proof. unfold analyze_tls. on_empty. eexists; reflexivity. Qed.

Lemma behavioral_empty : analyze_behavioral_signals self = Ok empty_behavioral.
Proof. unfold analyze_behavioral_signals. rewrite no_payload. reflexivity. Qed.

Lemma advanced_empty : analyze_advanced_behavioral self = Ok empty_advanced.
Proof. unfold analyze_advanced_behavioral. rewrite no_payload. reflexivity. Qed.

Lemma vm_empty : analyze_vm_detection self = Ok empty_vm.
Proof. unfold analyze_vm_detection. rewrite no_payload. reflexivity. Qed.

Lemma extensions_empty : analyze_extensions self = Ok empty_extensions.
Proof. unfold analyze_extensions. rewrite no_payload. reflexivity. Qed.

Lemma timing_empty : analyze_timing self = Ok empty_timing.
Proof. unfold analyze_timing. rewrite no_payload. reflexivity. Qed.

Lemma css_empty : analyze_css_media self = Ok empty_css.
Proof. unfold analyze_css_media. rewrite no_payload. reflexivity. Qed.

Lemma speech_empty : analyze_speech self = Ok None.
Proof. unfold analyze_speech. rewrite no_payload. reflexivity. Qed.

Lemma hints_empty : analyze_client_hints self = Ok None.
Proof. unfold analyze_client_hints. rewrite no_payload. reflexivity. Qed.

(** On the empty payload the run of the analyzers always completes. *)
Lemma collect_empty :
  exists res, collect self = Ok res /\
    header_analysis_of res = analyze_headers self /\
    user_agent_analysis res = analyze_user_agent self /\
    browser_fingerprint res = empty_fp_analysis /\
    proxy_vpn_detection res = proxy_from_headers (headers self) /\
    automation_detection_of res = empty_automation /\
    consistency_checks res = empty_consistency /\
    threat_indicators res = detect_threats self /\
    advanced_behavioral_of res = empty_advanced /\
    vm_detection_of res = empty_vm /\
    browser_extensions res = empty_extensions /\
    timing_analysis_of res = empty_timing.
Proof.
  destruct tls_empty as [t Ht].
  unfold collect.
  rewrite fingerprint_empty, proxy_empty, automation_empty, consistency_empty, Ht,
    behavioral_empty, advanced_empty, vm_empty, extensions_empty, timing_empty,
    css_empty, speech_empty, hints_empty.
  cbn [bind]. eexists. split; [reflexivity|]. cbn. repeat split.
Qed.

End EmptyPayload.

(** ** The scenario: empty payload, compliant headers, browser user agent *)

Lemma has_key_spec {A} (m : gmap string A) (k : string) :
  has_key m k = true <-> is_Some (m !! k).
Proof. unfold has_key. apply bool_decide_eq_true. Qed.

Lemma has_key_false {A} (m : gmap string A) (k : string) :
  has_key m k = false <-> m !! k = None.
Proof.
  unfold has_key. rewrite bool_decide_eq_false. rewrite eq_None_not_Some. tauto.
Qed.

Lemma keys_bound_size {A} (m : gmap string A) (ks : list string) :
  NoDup ks -> forallb (has_key m) ks = true -> (length ks <= size m)%nat.
Proof.
  intros Hnd Hall.
  rewrite <- (size_dom (D := gset string) m).
  rewrite <- (size_list_to_set (C := gset string) ks) by exact Hnd.
  apply subseteq_size. intros k Hk.
  apply elem_of_list_to_set in Hk. apply elem_of_dom.
  apply has_key_spec. rewrite forallb_forall in Hall.
  apply Hall. now apply list_elem_of_In.
Qed.

Lemma standard_headers_NoDup : NoDup standard_headers.
Proof. apply (bool_decide_unpack _). vm_compute. exact I. Qed.

Lemma compliant_headers_good (self : analyzer) :
  standard_compliant (headers self) = true ->
  suspicious_patterns (analyze_headers self) = [] /\
  missing_standard_headers (analyze_headers self) = [] /\
  header_quality (analyze_headers self) = Good.
Proof.
  unfold standard_compliant. rewrite !andb_true_iff.
  intros [[[Hstd Hgeneric] Hblank] Hauto].
  pose proof (keys_bound_size _ _ standard_headers_NoDup Hstd) as Hsize.
  cbn [standard_headers length] in Hsize.
  assert (Hlang : has_key (headers self) "Accept-Language" = true).
  { rewrite forallb_forall in Hstd. apply Hstd. cbn. tauto. }
  assert (Hmissing : List.filter (fun h => negb (has_key (headers self) h)) standard_headers = []).
  { clear -Hstd. induction standard_headers as [|k ks IH]; [reflexivity|].
    cbn in Hstd |- *. apply andb_true_iff in Hstd as [-> Hks]. cbn. now apply IH. }
  assert (Hpatterns : suspicious_patterns (analyze_headers self) = []).
  { unfold analyze_headers. cbn [suspicious_patterns].
    destruct (Z.ltb_spec (Z.of_nat (size (headers self))) 5); [lia|].
    apply negb_true_iff in Hgeneric, Hblank. rewrite Hgeneric, Hblank, Hlang.
    cbn [negb app]. destruct (automation_signatures (headers self)); [reflexivity|discriminate]. }
  split; [exact Hpatterns|]. split; [exact Hmissing|].
  rewrite header_quality_is_grade. unfold suspicious_count, missing_count.
  rewrite Hpatterns. unfold analyze_headers at 1. cbn [missing_standard_headers].
  rewrite Hmissing. reflexivity.
Qed.

Lemma no_match_no_pattern (ks : list string) (s : string) (f : string -> string) :
  contains_any ks s = false ->
  flat_map (fun k => if contains k s then [f k] else []) ks = [].
Proof.
  unfold contains_any. induction ks as [|k ks IH]; cbn; [reflexivity|].
  intros H. apply orb_false_iff in H as [-> Hks]. cbn. now apply IH.
Qed.

Section Scenario.
Context `{rt : Runtime}.

Lemma realistic_user_agent_good (self : analyzer) :
  realistic_user_agent (user_agent self) = true ->
  is_bot (parse (user_agent self)) = false ->
  ua_suspicious_patterns (analyze_user_agent self) = [] /\
  ua_quality (analyze_user_agent self) = Good.
Proof.
  unfold realistic_user_agent. rewrite !andb_true_iff, !negb_true_iff.
  intros [[[[[Hmin Hmax] Hbrowser] Hbot] _] Hslash] Hparsed.
  unfold analyze_user_agent.
  destruct (String.eqb_spec (user_agent self) "") as [E|_].
  { rewrite E in Hmin. discriminate. }
  cbn [ua_suspicious_patterns ua_quality].
  rewrite (no_match_no_pattern _ _ _ Hbot), Hbrowser, Hparsed.
  destruct (Z.ltb_spec (str_len (user_agent self)) 50); [lia|].
  destruct (Z.gtb_spec (str_len (user_agent self)) 500); [lia|].
  destruct (Z.gtb_spec (count_char "/" (user_agent self)) 10); [lia|].
  split; reflexivity.
Qed.

Lemma plain_route_no_threat (self : analyzer) :
  realistic_user_agent (user_agent self) = true ->
  plain_route (self_request self) = true ->
  detect_threats self = {| threat_level := NoRisk; threats_detected := []; risk_factors := [] |}.
Proof.
  unfold realistic_user_agent, plain_route. rewrite !andb_true_iff, !negb_true_iff.
  intros [[_ Hscan] _] [Hpath Hmethod].
  unfold contains_any in Hscan. cbn [existsb] in Hscan.
  rewrite orb_false_r in Hscan. apply orb_false_iff in Hscan as [Hsql Hnikto].
  unfold detect_threats. rewrite Hsql, Hnikto, Hpath, Hmethod. reflexivity.
Qed.

Lemma direct_connection_no_proxy (hdrs : gmap string string) :
  direct_connection hdrs = true ->
  proxy_from_headers hdrs
  = {| proxy_indicators := []; proxy_headers_found := [];
       proxy_risk_level := NoRisk; is_proxy_likely := false |}.
Proof.
  unfold direct_connection, proxy_header_names. cbn [forallb].
  rewrite !andb_true_iff, !negb_true_iff.
  intros (Hxff & Hreal & Hvia & Hfwd & Hid & Hcf & Hproto & _).
  unfold proxy_from_headers, proxy_header_names. cbn [List.filter].
  rewrite Hxff, Hreal, Hvia, Hfwd, Hid, Hcf, Hproto.
  apply has_key_false in Hxff. rewrite Hxff. reflexivity.
Qed.

(** C5.  For a request with an empty fingerprint payload, standard-
    compliant headers including Accept-Language (arriving without
    forwarding headers, on a route such as the endpoint's own) and a
    realistic browser user agent of at least 50 characters that the
    parser does not read as a bot: header quality good (+0), user-agent quality good (+0),
    fingerprint quality bad (+30, red flag "Manipulated fingerprint",
    is_genuine false), proxy risk none, automation confidence low, only
    the hardware-concurrency check fires (failed = 1, +5, no flag),
    threat none, behavioral likelihood medium; so total_score = 35,
    risk_level = medium, visitor_quality = suspicious, confidence = 40. *)
Theorem empty_payload_scenario (req : request) :
  standard_compliant (req_headers req) = true ->
  direct_connection (req_headers req) = true ->
  realistic_user_agent (default "" (req_headers req !! "User-Agent")) = true ->
  is_bot (parse (default "" (req_headers req !! "User-Agent"))) = false ->
  plain_route req = true ->
  exists r, analyze (init req) (VDict ∅) = Ok r /\
    let res := findings_of r in
    let assessment := risk_assessment r in
    (header_quality (header_analysis_of res) = Good /\ step_weight score_headers res = 0) /\
    (ua_quality (user_agent_analysis res) = Good /\ step_weight score_user_agent res = 0) /\
    (fp_quality (browser_fingerprint res) = Bad /\ step_weight score_fingerprint res = 30) /\
    proxy_risk_level (proxy_vpn_detection res) = NoRisk /\
    automation_confidence (automation_detection_of res) = Low /\
    (checks (consistency_checks res) = [Check "Hardware Concurrency" Failed] /\
     failed (consistency_checks res) = 1 /\ step_weight score_consistency res = 5) /\
    threat_level (threat_indicators res) = NoRisk /\
    human_likelihood (advanced_behavioral_of res) = Medium /\
    total_score assessment = 35 /\
    risk_level assessment = Medium /\
    visitor_quality assessment = Suspicious /\
    is_genuine assessment = false /\
    red_flags assessment = ["Manipulated fingerprint"] /\
    confidence assessment = 40.
Proof.
  intros Hstd Hdirect Hua Hparsed Hroute.
  set (self := set_fingerprint (init req) (VDict ∅)).
  assert (Hfp : fingerprint self = VDict ∅) by reflexivity.
  destruct (collect_empty self Hfp)
    as (res & Hres & Hh & Hu & Hf & Hp & Ha & Hc & Ht & Hb & Hv & He & Hti).
  pose proof (compliant_headers_good self Hstd) as (_ & _ & Hhq).
  pose proof (realistic_user_agent_good self Hua Hparsed) as (_ & Huq).
  pose proof (plain_route_no_threat self Hua Hroute) as Hthreat.
  pose proof (direct_connection_no_proxy (headers self) Hdirect) as Hproxy.
  rewrite <- Hh in Hhq. rewrite <- Hu in Huq. rewrite <- Ht in Hthreat.
  rewrite <- Hp in Hproxy.
  exists {| findings_of := res; risk_assessment := calculate_risk_score res |}.
  split.
  { unfold analyze. fold self. rewrite Hres. reflexivity. }
  cbn [findings_of risk_assessment].
  assert (Hrisk : calculate_risk_score res
                  = {| total_score := 35; max_score := 100;
                       risk_level := Medium; visitor_quality := Suspicious;
                       is_genuine := false; confidence := 40;
                       red_flags := ["Manipulated fingerprint"];
                       green_flags := ["Good header quality"; "Valid User-Agent"] |}).
  { assert (E1 : forall r, score_headers res r = green_flag "Good header quality" r)
      by (intros; unfold score_headers; now rewrite Hhq).
    assert (E2 : forall r, score_user_agent res r = green_flag "Valid User-Agent" r)
      by (intros; unfold score_user_agent; now rewrite Huq).
    assert (E3 : forall r, score_fingerprint res r
                           = not_genuine (red_flag "Manipulated fingerprint" (add_score 30 r)))
      by (intros; unfold score_fingerprint; now rewrite Hf).
    assert (E4 : forall r, score_proxy res r = r)
      by (intros; unfold score_proxy; now rewrite Hproxy).
    assert (E5 : forall r, score_automation res r = r)
      by (intros; unfold score_automation; now rewrite Ha).
    assert (E6 : forall r, score_consistency res r = add_score 5 r)
      by (intros; unfold score_consistency; now rewrite Hc).
    assert (E7 : forall r, score_threat res r = r)
      by (intros; unfold score_threat; now rewrite Hthreat).
    assert (E8 : forall r, score_behavior res r = r)
      by (intros; unfold score_behavior; now rewrite Hb).
    assert (E9 : forall r, score_mouse res r = r)
      by (intros; unfold score_mouse; now rewrite Hb).
    assert (E10 : forall r, score_click res r = r)
      by (intros; unfold score_click; now rewrite Hb).
    assert (E11 : forall r, score_vm res r = r)
      by (intros; unfold score_vm; now rewrite Hv).
    assert (E12 : forall r, score_timing res r = r)
      by (intros; unfold score_timing; now rewrite Hti).
    assert (E13 : forall r, score_extensions res r = r)
      by (intros; unfold score_extensions; now rewrite He).
    unfold calculate_risk_score, scoring_steps, run_steps. cbn [fold_left].
    rewrite E1, E2, E3, E4, E5, E6, E7, E8, E9, E10, E11, E12, E13. reflexivity. }
  rewrite Hrisk. cbn [total_score risk_level visitor_quality is_genuine red_flags confidence].
  rewrite weight_headers, weight_user_agent, weight_fingerprint, weight_consistency.
  rewrite Hhq, Huq, Hf, Hproxy, Ha, Hc, Hthreat, Hb.
  repeat split.
Qed.

End Scenario.

(** ** The endpoint *)

Section Endpoint.
Context `{rt : Runtime}.

Lemma analyze_empty (req : request) (client_fingerprint : value) :
  truthy client_fingerprint = false ->
  exists r, analyze (init req) client_fingerprint = Ok r /\
    browser_fingerprint (findings_of r) = empty_fp_analysis /\
    is_genuine (risk_assessment r) = false.
Proof.
  intros Hfalsy.
  set (self := set_fingerprint (init req) client_fingerprint).
  assert (Hfp : fingerprint self = VDict ∅).
  { subst self. unfold set_fingerprint. cbn [fingerprint]. now rewrite Hfalsy. }
  destruct (collect_empty self Hfp) as (res & Hres & _ & _ & Hf & _).
  exists {| findings_of := res; risk_assessment := calculate_risk_score res |}.
  split; [|split].
  - unfold analyze. fold self. now rewrite Hres.
  - exact Hf.
  - cbn [risk_assessment]. rewrite final_genuine, Hf. reflexivity.
Qed.

(** C6, amended.  When the decoded body carries no fingerprint (no data
    at all, or an object without a non-empty 'fingerprint' entry) the
    pipeline substitutes the empty map and returns a completed, successful
    assessment that grades the fingerprint integrity as bad; when decoding
    the body raises, the handler's catch-all answers with the failure
    response and status 500. *)
Theorem endpoint_body_handling (req : request) :
  (forall data, no_fingerprint data ->
     exists r, analyze_visitor req (Ok data) = Success r /\
       fingerprint_data (browser_fingerprint (findings_of r)) = VDict ∅ /\
       fp_quality (browser_fingerprint (findings_of r)) = Bad /\
       is_genuine (risk_assessment r) = false) /\
  (forall e, analyze_visitor req (Raise e) = Failure e 500).
Proof.
  split; [|reflexivity].
  intros data Hdata. unfold analyze_visitor. run.
  assert (exists fp, (if truthy data then get data "fingerprint" (VDict ∅) else Ok (VDict ∅))
                     = Ok fp /\ truthy fp = false) as (fp & -> & Hfp).
  { destruct Hdata as [-> | (m & -> & Hm)].
    - exists (VDict ∅). split; reflexivity.
    - destruct (truthy (VDict m)); eexists; (split; [reflexivity|]); [exact Hm|reflexivity]. }
  run. destruct (analyze_empty req fp Hfp) as (r & -> & Hf & Hg).
  exists r. rewrite Hf. repeat split. exact Hg.
Qed.

End Endpoint.

(** C6, as stated, fails when the body is not valid JSON: the framework's
    decoder raises, the handler catches the exception, and the answer is
    the failure response, not an assessment. *)
Lemma malformed_body_is_rejected :
  analyze_visitor (rt := sample_runtime) (request_with browser_headers) (Raise (HTTPError 400))
    = Failure (HTTPError 400) 500 /\
  ~ exists r, analyze_visitor (rt := sample_runtime) (request_with browser_headers)
                (Raise (HTTPError 400)) = Success r.
Proof. split; [reflexivity|]. intros [r H]. discriminate H. Qed.

(** ** Fingerprint integrity and the canvas entry *)

Lemma truthy_dict (m : gmap string value) : m <> ∅ -> truthy (VDict m) = true.
Proof. intros H. cbn. apply negb_true_iff, bool_decide_eq_false. exact H. Qed.

Lemma automation_artifacts_dict (m : gmap string value) (props : list string) :
  exists l, automation_artifacts (VDict m) props = Ok l.
Proof.
  induction props as [|p props [l IH]]; cbn [automation_artifacts].
  - eexists; reflexivity.
  - run. rewrite IH. run. eexists; reflexivity.
Qed.

Lemma canvas_condition (m : gmap string value) :
  canvas_unusable m ->
  eq_str (default VNone (m !! "canvas")) "blocked"
  || negb (truthy (default VNone (m !! "canvas"))) = true.
Proof.
  intros [-> | [(v & -> & Hv) | ->]]; cbn [default from_option id].
  - reflexivity.
  - rewrite Hv. apply orb_true_r.
  - reflexivity.
Qed.

Lemma fp_grade_manipulated (manipulation : list indicator) (n : Z) :
  manipulation <> [] -> fp_grade (Z.of_nat (length manipulation)) n = Bad.
Proof.
  intros H. unfold fp_grade. destruct manipulation; [contradiction|].
  cbn [length]. destruct (Z.gtb_spec (Z.of_nat (S (length manipulation))) 0); [reflexivity|lia].
Qed.

Section Canvas.
Context `{rt : Runtime}.

(** Every completed run on such a payload has recorded the canvas
    indicator and graded the fingerprint bad. *)
Lemma canvas_unusable_graded_bad (self : analyzer) (m : gmap string value) (a : fp_analysis) :
  fingerprint self = VDict m -> m <> ∅ -> canvas_unusable m ->
  analyze_browser_fingerprint self = Ok a ->
  In canvas_indicator (manipulation_indicators a) /\ fp_quality a = Bad.
Proof.
  intros Hfp Hne Hcanvas. unfold analyze_browser_fingerprint.
  rewrite Hfp, (truthy_dict m Hne). cbn [negb]. run.
  destruct (if negb (truthy (default (VList []) (m !! "languages"))) then Ok true
            else n <- len (default (VList []) (m !! "languages")) ;; Ok (n =? 0))
    as [no_languages|]; [|discriminate]. run.
  match goal with
  | |- (screen <- ?s ;; _) = _ -> _ => destruct s as [screen|]; [|discriminate]
  end. run.
  destruct (automation_artifacts_dict m automation_props) as [artifacts ->]. run.
  rewrite (canvas_condition m Hcanvas).
  intros [= <-]. cbn [manipulation_indicators fp_quality]. split.
  - apply in_or_app. right. apply in_or_app. right. now left.
  - apply fp_grade_manipulated.
    destruct (when (truthy _) _), (when (truthy _) _); discriminate.
Qed.

(** The run does complete when the entries the analyzer measures have
    their expected shape. *)
Lemma fingerprint_returns (self : analyzer) (m : gmap string value) :
  fingerprint self = VDict m -> integrity_fields_typed m = true ->
  exists a, analyze_browser_fingerprint self = Ok a.
Proof.
  intros Hfp. unfold integrity_fields_typed, entry. rewrite !andb_true_iff.
  intros [[Hl Hw] Hh]. unfold analyze_browser_fingerprint. rewrite Hfp.
  destruct (negb (truthy (VDict m))); [eexists; reflexivity|]. run.
  destruct (automation_artifacts_dict m automation_props) as [artifacts ->].
  destruct (m !! "languages") as [[]|]; try discriminate;
  destruct (m !! "screen_width") as [[]|]; try discriminate;
  destruct (m !! "screen_height") as [[]|]; try discriminate; run;
  repeat match goal with
         | |- context [if ?c then _ else _] => destruct c; run
         end;
  eexists; reflexivity.
Qed.

End Canvas.

(** ** The run of the analyzers *)

Section Pipeline.
Context `{rt : Runtime}.

(** A completed run holds the result of each analyzer. *)
Lemma collect_inv (self : analyzer) (res : findings) :
  collect self = Ok res ->
  analyze_browser_fingerprint self = Ok (browser_fingerprint res) /\
  detect_proxy_vpn self = Ok (proxy_vpn_detection res) /\
  detect_automation self = Ok (automation_detection_of res) /\
  check_consistency self = Ok (consistency_checks res) /\
  analyze_tls self = Ok (tls_analysis_of res) /\
  analyze_behavioral_signals self = Ok (behavioral_signals_of res) /\
  analyze_advanced_behavioral self = Ok (advanced_behavioral_of res) /\
  analyze_vm_detection self = Ok (vm_detection_of res) /\
  analyze_extensions self = Ok (browser_extensions res) /\
  analyze_timing self = Ok (timing_analysis_of res) /\
  analyze_css_media self = Ok (css_media_queries res) /\
  analyze_speech self = Ok (speech_synthesis res) /\
  analyze_client_hints self = Ok (client_hints_of res).
Proof.
  unfold collect.
  destruct (analyze_browser_fingerprint self); [|discriminate].
  destruct (detect_proxy_vpn self); [|discriminate].
  destruct (detect_automation self); [|discriminate].
  destruct (check_consistency self); [|discriminate].
  destruct (analyze_tls self); [|discriminate].
  destruct (analyze_behavioral_signals self); [|discriminate].
  destruct (analyze_advanced_behavioral self); [|discriminate].
  destruct (analyze_vm_detection self); [|discriminate].
  destruct (analyze_extensions self); [|discriminate].
  destruct (analyze_timing self); [|discriminate].
  destruct (analyze_css_media self); [|discriminate].
  destruct (analyze_speech self); [|discriminate].
  destruct (analyze_client_hints self); [|discriminate].
  cbn [bind]. intros [= <-]. cbn. repeat split.
Qed.

(** And a run completes as soon as each analyzer does. *)
Lemma collect_returns (self : analyzer) :
  returns (analyze_browser_fingerprint self) = true ->
  returns (detect_proxy_vpn self) = true ->
  returns (detect_automation self) = true ->
  returns (check_consistency self) = true ->
  returns (analyze_tls self) = true ->
  returns (analyze_behavioral_signals self) = true ->
  returns (analyze_advanced_behavioral self) = true ->
  returns (analyze_vm_detection self) = true ->
  returns (analyze_extensions self) = true ->
  returns (analyze_timing self) = true ->
  returns (analyze_css_media self) = true ->
  returns (analyze_speech self) = true ->
  returns (analyze_client_hints self) = true ->
  returns (collect self) = true.
Proof.
  unfold collect.
  destruct (analyze_browser_fingerprint self); [|discriminate].
  destruct (detect_proxy_vpn self); [|discriminate].
  destruct (detect_automation self); [|discriminate].
  destruct (check_consistency self); [|discriminate].
  destruct (analyze_tls self); [|discriminate].
  destruct (analyze_behavioral_signals self); [|discriminate].
  destruct (analyze_advanced_behavioral self); [|discriminate].
  destruct (analyze_vm_detection self); [|discriminate].
  destruct (analyze_extensions self); [|discriminate].
  destruct (analyze_timing self); [|discriminate].
  destruct (analyze_css_media self); [|discriminate].
  destruct (analyze_speech self); [|discriminate].
  destruct (analyze_client_hints self); [|discriminate].
  reflexivity.
Qed.

Lemma analyze_inv (self : analyzer) (client_fingerprint : value) (r : results) :
  analyze self client_fingerprint = Ok r ->
  collect (set_fingerprint self client_fingerprint) = Ok (findings_of r) /\
  risk_assessment r = calculate_risk_score (findings_of r).
Proof.
  unfold analyze. destruct (collect _); [|discriminate].
  cbn [bind]. intros [= <-]. split; reflexivity.
Qed.

End Pipeline.

(** Red flags are only ever appended. *)
Lemma step_appends (step : findings -> risk -> risk) (res : findings) (r : risk) :
  In step scoring_steps -> exists l, red_flags (step res r) = red_flags r ++ l.
Proof.
  unfold scoring_steps. cbn [In].
  intros H; repeat (destruct H as [<- | H]); try contradiction;
    unfold score_headers, score_user_agent, score_fingerprint, score_proxy,
      score_automation, score_consistency, score_threat, score_behavior,
      score_mouse, score_click, score_vm, score_timing, score_extensions;
    step_cases; cbn [red_flag green_flag add_score not_genuine red_flags];
    first [now eexists | exists []; now rewrite app_nil_r].
Qed.

Lemma run_steps_appends (res : findings) (steps : list (findings -> risk -> risk)) :
  (forall s, In s steps -> In s scoring_steps) ->
  forall r, exists l, red_flags (run_steps res steps r) = red_flags r ++ l.
Proof.
  unfold run_steps. induction steps as [|s steps IH]; intros Hin r; cbn [fold_left].
  - exists []. now rewrite app_nil_r.
  - destruct (IH (fun s' H => Hin s' (or_intror H)) (s res r)) as [l ->].
    destruct (step_appends s res r (Hin s (or_introl eq_refl))) as [l' ->].
    exists (l' ++ l). now rewrite app_assoc.
Qed.

(** A flag raised by one block is still there at the end. *)
Lemma flag_stays (res : findings) (flag : string) (step : findings -> risk -> risk)
    (steps : list (findings -> risk -> risk)) :
  (forall s, In s steps -> In s scoring_steps) ->
  In step steps ->
  (forall r, In flag (red_flags (step res r))) ->
  forall r, In flag (red_flags (run_steps res steps r)).
Proof.
  intros Hsub Hin Hflag. induction steps as [|s steps IH]; [contradiction|].
  intros r. destruct Hin as [-> | Hin].
  - change (run_steps res (step :: steps) r) with (run_steps res steps (step res r)).
    destruct (run_steps_appends res steps (fun s' H => Hsub s' (or_intror H)) (step res r))
      as [l ->].
    apply in_or_app. left. apply Hflag.
  - change (run_steps res (s :: steps) r) with (run_steps res steps (s res r)).
    apply IH; [intros; apply Hsub; now right | exact Hin].
Qed.

Lemma closing_keeps_flags (r : risk) :
  red_flags (set_confidence (determine_level (cap_score r))) = red_flags r.
Proof.
  cbn [set_confidence red_flags]. unfold determine_level. step_cases; reflexivity.
Qed.

Lemma bad_fingerprint_assessed (res : findings) :
  fp_quality (browser_fingerprint res) = Bad ->
  step_weight score_fingerprint res = 30 /\
  In "Manipulated fingerprint" (red_flags (calculate_risk_score res)) /\
  is_genuine (calculate_risk_score res) = false /\
  30 <= total_score (calculate_risk_score res).
Proof.
  intros Hbad. repeat split.
  - rewrite weight_fingerprint, Hbad. reflexivity.
  - unfold calculate_risk_score. rewrite closing_keeps_flags.
    apply (flag_stays res "Manipulated fingerprint" score_fingerprint); auto.
    + cbn; tauto.
    + intros r. unfold score_fingerprint. rewrite Hbad.
      replace (label_eqb Bad Bad) with true by reflexivity.
      cbn [not_genuine red_flag red_flags]. apply in_or_app. right. now left.
  - rewrite final_genuine, Hbad. reflexivity.
  - rewrite final_total.
    assert (30 <= WeightTable.sum res); [|lia].
    unfold WeightTable.sum. table_terms res.
    rewrite Hbad in *. cbn [WeightTable.fingerprint] in *. lia.
Qed.

(** ** Payloads of the expected shape *)

Lemma entry_default (m : gmap string value) (k : string) (shape : value -> bool) (d : value) :
  entry m k shape = true -> shape d = true -> shape (default d (m !! k)) = true.
Proof. unfold entry. destruct (m !! k); cbn; auto. Qed.

Lemma number_compares (v : value) (n : Z) :
  is_number v = true -> exists c, cmp_int v n = Ok c.
Proof. destruct v; try discriminate; intros _; eexists; reflexivity. Qed.

Lemma truthy_number (v : value) :
  is_number_or_null v = true -> truthy v = true -> is_number v = true.
Proof. destruct v; try discriminate; auto. Qed.

Lemma present_number (v : value) :
  is_number_or_null v = true -> is_none v = false -> is_number v = true.
Proof. destruct v; try discriminate; auto. Qed.

Lemma dict_get (v : value) (k : string) (d : value) :
  is_dict v = true -> exists x, get v k d = Ok x.
Proof. destruct v; try discriminate; intros _; eexists; reflexivity. Qed.

Lemma returns_Ok {A} (m : result A) : (exists a, m = Ok a) -> returns m = true.
Proof. intros [a ->]. reflexivity. Qed.

Lemma returns_inv {A} (m : result A) : returns m = true -> exists a, m = Ok a.
Proof. destruct m; [eauto|discriminate]. Qed.

(** As [run], leaving the defaulted reads folded. *)
Ltac go := unfold lt_int, gt_int, ge_int, lift; cbn [get bind cmp_int len].

Section WellTyped.
Context `{rt : Runtime}.
Variable self : analyzer.
Variable m : gmap string value.
Hypothesis payload : fingerprint self = VDict m.

Lemma real_floats (v : value) : is_real v = true -> exists f, float v = Ok f.
Proof.
  destruct v; try discriminate; cbn [is_real float]; intros H;
    try (eexists; reflexivity).
  destruct (float_of_Z z); try discriminate; eexists; reflexivity.
Qed.

Lemma proxy_returns :
  entry m "ip_info" is_dict = true ->
  entry m "webrtc_ips" is_string_list = true ->
  returns (detect_proxy_vpn self) = true.
Proof.
  intros Hinfo Hips. unfold detect_proxy_vpn. rewrite payload. go.
  pose proof (entry_default m "webrtc_ips" is_string_list (VList []) Hips eq_refl) as Hl.
  assert (Hi : truthy (default VNone (m !! "ip_info")) = true ->
               is_dict (default VNone (m !! "ip_info")) = true).
  { unfold entry in Hinfo. destruct (m !! "ip_info"); cbn; [auto|discriminate]. }
  revert Hl Hi.
  generalize (default (VList []) (m !! "webrtc_ips")) (default VNone (m !! "ip_info")).
  intros ips ip_info Hl Hi.
  destruct (truthy ip_info).
  - specialize (Hi eq_refl). destruct ip_info; try discriminate Hi. go.
    destruct ips as [| | | | |l|]; try discriminate Hl. cbn [is_string_list] in Hl.
    destruct (truthy (VList l)); [|reflexivity]. go.
    destruct (_ >? 0); [|reflexivity]. cbn [contains_atom]. go.
    destruct (negb _); [|reflexivity]. cbn [join_check]. rewrite Hl. reflexivity.
  - go.
    destruct ips as [| | | | |l|]; try discriminate Hl. cbn [is_string_list] in Hl.
    destruct (truthy (VList l)); [|reflexivity]. go.
    destruct (_ >? 0); [|reflexivity]. cbn [contains_atom]. go.
    destruct (negb _); [|reflexivity]. cbn [join_check]. rewrite Hl. reflexivity.
Qed.

Lemma automation_properties_dict (checks : list (string * string))
    (acc : list indicator * list string) :
  exists out, automation_properties (VDict m) checks acc = Ok out.
Proof.
  revert acc. induction checks as [|[prop tool] checks IH]; intros acc;
    cbn [automation_properties].
  - eexists; reflexivity.
  - go. apply IH.
Qed.

Lemma automation_returns : returns (detect_automation self) = true.
Proof.
  unfold detect_automation. rewrite payload. go.
  destruct (automation_properties_dict automation_checks
              (when (truthy (default VNone (m !! "webdriver")))
                    (Indicator "Navigator.webdriver = true" "navigator.webdriver"),
               when (truthy (default VNone (m !! "webdriver"))) "Selenium/WebDriver"))
    as [out ->].
  go. destruct (truthy (default VNone (m !! "chrome"))); reflexivity.
Qed.

Lemma os_check_returns (c : consistency) :
  entry m "platform" is_str = true -> exists c', check_os self c = Ok c'.
Proof.
  intros Hp. unfold check_os. rewrite payload. go. unfold entry in Hp.
  destruct (m !! "platform") as [[| | | |s| |]|]; try discriminate Hp;
    cbn [default from_option id truthy str_lower]; [|eexists; reflexivity].
  destruct (negb _); [|eexists; reflexivity]. go. cbv zeta.
  repeat match goal with
         | |- context [if ?c then _ else _] => destruct c
         end; eexists; reflexivity.
Qed.

Lemma language_check_returns (c : consistency) :
  entry m "language" is_str = true -> exists c', check_language self c = Ok c'.
Proof.
  intros Hl. unfold check_language. rewrite payload. go.
  pose proof (entry_default m "language" is_str (VStr "") Hl eq_refl) as Hlanguage.
  destruct (default (VStr "") (m !! "language")) as [| | | |s| |];
    try discriminate Hlanguage.
  destruct (_ && _); [|eexists; reflexivity].
  cbn [str_split_first]. go. cbv zeta.
  destruct (negb _); eexists; reflexivity.
Qed.

Lemma timezone_check_returns (c : consistency) :
  entry m "timezone_offset" is_number_or_null = true ->
  exists c', check_timezone self c = Ok c'.
Proof.
  intros Ht. unfold check_timezone. rewrite payload. go.
  pose proof (entry_default m "timezone_offset" is_number_or_null VNone Ht eq_refl) as Hzone.
  destruct (is_none _) eqn:Hnone; [eexists; reflexivity|]. cbn [negb]. go.
  pose proof (present_number _ Hzone Hnone) as Hnum.
  destruct (number_compares _ (-720) Hnum) as [lo ->].
  destruct (number_compares _ 840 Hnum) as [hi ->]. go.
  destruct (is_lt lo), (is_gt hi); go; eexists; reflexivity.
Qed.

Lemma hardware_check_returns (c : consistency) :
  entry m "hardware_concurrency" is_number = true ->
  exists c', check_hardware self c = Ok c'.
Proof.
  intros Hh. unfold check_hardware. rewrite payload. go.
  pose proof (entry_default m "hardware_concurrency" is_number (VInt 0) Hh eq_refl) as Hcores.
  destruct (eq_int _ 0); [eexists; reflexivity|]. go.
  destruct (number_compares _ 32 Hcores) as [hi ->]. go.
  destruct (is_gt hi); eexists; reflexivity.
Qed.

Lemma consistency_returns :
  entry m "platform" is_str = true ->
  entry m "language" is_str = true ->
  entry m "timezone_offset" is_number_or_null = true ->
  entry m "hardware_concurrency" is_number = true ->
  returns (check_consistency self) = true.
Proof.
  intros Hp Hl Ht Hh. unfold check_consistency.
  destruct (os_check_returns {| checks := []; passed := 0; failed := 0; warnings := 0 |} Hp)
    as [c1 ->]. go.
  destruct (language_check_returns c1 Hl) as [c2 ->]. go.
  destruct (timezone_check_returns c2 Ht) as [c3 ->]. go.
  destruct (hardware_check_returns c3 Hh) as [c4 ->]. reflexivity.
Qed.

Lemma tls_returns : returns (analyze_tls self) = true.
Proof. unfold analyze_tls. rewrite payload. reflexivity. Qed.

Lemma behavioral_returns :
  entry m "has_mouse_movement" is_bool = true ->
  entry m "has_keyboard_input" is_bool = true ->
  entry m "has_page_focus" is_bool = true ->
  entry m "has_scroll" is_bool = true ->
  returns (analyze_behavioral_signals self) = true.
Proof.
  intros Hmouse Hkeys Hfocus Hscroll.
  unfold analyze_behavioral_signals. rewrite payload. go.
  pose proof (entry_default m _ _ (VBool false) Hmouse eq_refl) as H1.
  pose proof (entry_default m _ _ (VBool false) Hkeys eq_refl) as H2.
  pose proof (entry_default m _ _ (VBool true) Hfocus eq_refl) as H3.
  pose proof (entry_default m _ _ (VBool false) Hscroll eq_refl) as H4.
  destruct (default (VBool false) (m !! "has_mouse_movement")); try discriminate H1.
  destruct (default (VBool false) (m !! "has_keyboard_input")); try discriminate H2.
  destruct (default (VBool true) (m !! "has_page_focus")); try discriminate H3.
  destruct (default (VBool false) (m !! "has_scroll")); try discriminate H4.
  cbn [sum foldl add bind]. go.
  destruct (is_ge _); reflexivity.
Qed.

(** A nested block of the expected shape is read without raising. *)
Lemma block_cases (k : string) (fields : list string) (shape : value -> bool) :
  block m k fields shape = true ->
  default (VDict ∅) (m !! k) = VDict ∅ \/
  exists d, default (VDict ∅) (m !! k) = VDict d /\
            forallb (fun f => entry d f shape) fields = true.
Proof.
  unfold block. destruct (m !! k) as [[]|]; try discriminate; cbn; eauto.
Qed.

Lemma truthy_empty : truthy (VDict ∅) = false.
Proof. reflexivity. Qed.

Lemma mouse_returns :
  block m "mouse_behavior"
    ["average_velocity"; "max_velocity"; "average_acceleration"] is_real = true ->
  exists a, analyze_mouse (VDict m) = Ok a.
Proof.
  intros Hb. unfold analyze_mouse. go.
  destruct (block_cases _ _ _ Hb) as [-> | (d & -> & Hd)].
  - rewrite truthy_empty. eexists; reflexivity.
  - destruct (truthy (VDict d)); [|eexists; reflexivity]. go.
    cbn [forallb] in Hd. rewrite !andb_true_iff in Hd. destruct Hd as (H1 & H2 & H3 & _).
    destruct (real_floats _ (entry_default d _ _ (VInt 0) H1 eq_refl)) as [f1 ->].
    destruct (real_floats _ (entry_default d _ _ (VInt 0) H2 eq_refl)) as [f2 ->].
    destruct (real_floats _ (entry_default d _ _ (VInt 0) H3 eq_refl)) as [f3 ->].
    go. eexists; reflexivity.
Qed.

Lemma click_returns :
  block m "click_behavior" ["average_click_interval"; "click_rhythm_variance"] is_real = true ->
  exists a, analyze_click (VDict m) = Ok a.
Proof.
  intros Hb. unfold analyze_click. go.
  destruct (block_cases _ _ _ Hb) as [-> | (d & -> & Hd)].
  - rewrite truthy_empty. eexists; reflexivity.
  - destruct (truthy (VDict d)); [|eexists; reflexivity]. go.
    cbn [forallb] in Hd. rewrite !andb_true_iff in Hd. destruct Hd as (H1 & H2 & _).
    destruct (real_floats _ (entry_default d _ _ (VInt 0) H1 eq_refl)) as [f1 ->].
    destruct (real_floats _ (entry_default d _ _ (VInt 0) H2 eq_refl)) as [f2 ->].
    go. eexists; reflexivity.
Qed.

Lemma scroll_returns :
  block m "scroll_behavior" ["average_scroll_velocity"] is_real = true ->
  exists a, analyze_scroll (VDict m) = Ok a.
Proof.
  intros Hb. unfold analyze_scroll. go.
  destruct (block_cases _ _ _ Hb) as [-> | (d & -> & Hd)].
  - rewrite truthy_empty. eexists; reflexivity.
  - destruct (truthy (VDict d)); [|eexists; reflexivity]. go.
    cbn [forallb] in Hd. rewrite !andb_true_iff in Hd. destruct Hd as (H1 & _).
    destruct (real_floats _ (entry_default d _ _ (VInt 0) H1 eq_refl)) as [f1 ->].
    go. eexists; reflexivity.
Qed.

Lemma keyboard_returns :
  block m "keyboard_behavior"
    ["average_dwell_time"; "average_flight_time"; "typing_rhythm"] is_real = true ->
  exists a, analyze_keyboard (VDict m) = Ok a.
Proof.
  intros Hb. unfold analyze_keyboard. go.
  destruct (block_cases _ _ _ Hb) as [-> | (d & -> & Hd)].
  - rewrite truthy_empty. eexists; reflexivity.
  - destruct (truthy (VDict d)); [|eexists; reflexivity]. go.
    cbn [forallb] in Hd. rewrite !andb_true_iff in Hd. destruct Hd as (H1 & H2 & H3 & _).
    destruct (real_floats _ (entry_default d _ _ (VInt 0) H1 eq_refl)) as [f1 ->].
    destruct (real_floats _ (entry_default d _ _ (VInt 0) H2 eq_refl)) as [f2 ->].
    destruct (real_floats _ (entry_default d _ _ (VInt 0) H3 eq_refl)) as [f3 ->].
    go. eexists; reflexivity.
Qed.

Lemma advanced_returns :
  block m "mouse_behavior"
    ["average_velocity"; "max_velocity"; "average_acceleration"] is_real = true ->
  block m "click_behavior" ["average_click_interval"; "click_rhythm_variance"] is_real = true ->
  block m "scroll_behavior" ["average_scroll_velocity"] is_real = true ->
  block m "keyboard_behavior"
    ["average_dwell_time"; "average_flight_time"; "typing_rhythm"] is_real = true ->
  returns (analyze_advanced_behavioral self) = true.
Proof.
  intros Hm Hc Hs Hk. unfold analyze_advanced_behavioral. rewrite payload.
  destruct (mouse_returns Hm) as [a1 ->].
  destruct (click_returns Hc) as [a2 ->].
  destruct (scroll_returns Hs) as [a3 ->].
  destruct (keyboard_returns Hk) as [a4 ->].
  reflexivity.
Qed.

(** An entry that must be a dict, read with the default [{}]. *)
Lemma dict_entry (k : string) :
  entry m k is_dict = true -> exists d, default (VDict ∅) (m !! k) = VDict d.
Proof.
  unfold entry. destruct (m !! k) as [[]|]; try discriminate; cbn; eauto.
Qed.

Lemma vm_returns :
  entry m "vm_detection" is_dict = true -> returns (analyze_vm_detection self) = true.
Proof.
  intros Hd. unfold analyze_vm_detection. rewrite payload. go.
  destruct (dict_entry _ Hd) as [d ->]. go.
  destruct (truthy (VDict d)); reflexivity.
Qed.

Lemma extensions_returns :
  entry m "browser_extensions" is_dict = true -> returns (analyze_extensions self) = true.
Proof.
  intros Hd. unfold analyze_extensions. rewrite payload. go.
  destruct (dict_entry _ Hd) as [d ->]. reflexivity.
Qed.

Lemma below_returns (d : gmap string value) (k : string) (bound : Z) :
  entry d k is_number_or_null = true ->
  exists b, present_and_below (VDict d) k bound = Ok b.
Proof.
  intros H. unfold present_and_below. go.
  pose proof (entry_default d k _ VNone H eq_refl) as Hv.
  destruct (truthy _) eqn:Ht; [|eexists; reflexivity]. go.
  destruct (number_compares _ bound (truthy_number _ Hv Ht)) as [c ->].
  eexists; reflexivity.
Qed.

Lemma timing_returns :
  block m "advanced_timing"
    ["time_to_first_click"; "time_to_first_interaction"] is_number_or_null = true ->
  returns (analyze_timing self) = true.
Proof.
  intros Hb. unfold analyze_timing. rewrite payload. go.
  assert (exists d, default (VDict ∅) (m !! "advanced_timing") = VDict d /\
                    entry d "time_to_first_click" is_number_or_null = true /\
                    entry d "time_to_first_interaction" is_number_or_null = true)
    as (d & -> & Hclick & Hint).
  { destruct (block_cases _ _ _ Hb) as [-> | (d & -> & Hd)].
    - exists ∅. repeat split.
    - cbn [forallb] in Hd. rewrite !andb_true_iff in Hd. exists d. tauto. }
  go.
  destruct (below_returns d _ 100 Hclick) as [b1 ->]. go.
  destruct b1; [reflexivity|].
  destruct (below_returns d _ 50 Hint) as [b2 ->]. reflexivity.
Qed.

Lemma css_returns :
  entry m "css_media_queries" is_dict = true -> returns (analyze_css_media self) = true.
Proof.
  intros Hd. unfold analyze_css_media. rewrite payload. go.
  destruct (dict_entry _ Hd) as [d ->]. cbn [contains_atom]. go.
  destruct (bool_decide _); go;
    destruct (truthy (default VNone (d !! "pointer_fine"))); go;
    destruct (truthy (default VNone (d !! "color_gamut_p3"))); reflexivity.
Qed.

Lemma speech_returns :
  entry m "speech_voices_count" is_number = true -> returns (analyze_speech self) = true.
Proof.
  intros Hn. unfold analyze_speech. rewrite payload. go.
  destruct (negb _); [reflexivity|]. go.
  pose proof (entry_default m _ _ (VInt 0) Hn eq_refl) as Hv.
  destruct (number_compares _ 0 Hv) as [c0 ->].
  destruct (number_compares _ 10 Hv) as [c1 ->]. reflexivity.
Qed.

Lemma hints_returns :
  entry m "client_hints" is_dict = true ->
  entry m "client_hints_high_entropy" is_dict = true ->
  returns (analyze_client_hints self) = true.
Proof.
  intros Hh He. unfold analyze_client_hints. rewrite payload. go.
  destruct (dict_entry _ Hh) as [d ->].
  destruct (negb _); [reflexivity|]. go.
  destruct (dict_entry _ He) as [e ->]. reflexivity.
Qed.

End WellTyped.

(** ** Absent entries and their defaults *)

(** Replace every defaulted read of [m] by the same read of [m']. *)
Ltac same_reads_in H :=
  let He := fresh "He" in
  let Hc := fresh "Hc" in
  let Hr := fresh "Hr" in
  destruct H as (He & Hc & Hr);
  unfold top_level_defaults in Hr;
  repeat (apply Forall_cons in Hr as [? Hr]);
  clear Hr; cbn [fst snd] in *;
  rewrite ?He, ?Hc;
  repeat match goal with
         | E : default _ (_ !! _) = default _ (_ !! _) |- _ =>
             first [rewrite !E | idtac]; clear E
         end.

Section SameReads.
Context `{rt : Runtime}.
Variable self : analyzer.
Variables m m' : gmap string value.
Hypothesis same : same_reads m m'.

Local Abbreviation here := (with_payload self (VDict m)).
Local Abbreviation there := (with_payload self (VDict m')).

Lemma same_fingerprint :
  lift forget_echo (analyze_browser_fingerprint here)
  = lift forget_echo (analyze_browser_fingerprint there).
Proof.
  unfold analyze_browser_fingerprint. cbn [fingerprint with_payload].
  pose proof same as (He & _). rewrite <- He.
  destruct (negb (truthy (VDict m))); [reflexivity|].
  cbn [automation_props automation_artifacts]. cbn [get bind].
  same_reads_in same.
  repeat match goal with
         | |- lift _ (bind ?x _) = lift _ (bind ?x _) => destruct x; cbn [bind lift]; try reflexivity
         end.
Qed.

Ltac same_analyzer :=
  cbn [fingerprint with_payload headers user_agent ip self_request];
  cbn [get bind]; same_reads_in same; reflexivity.

Lemma same_proxy : detect_proxy_vpn here = detect_proxy_vpn there.
Proof. unfold detect_proxy_vpn. same_analyzer. Qed.

Lemma same_read (k : string) (d : value) :
  In (k, d) top_level_defaults -> default d (m !! k) = default d (m' !! k).
Proof.
  intros Hin. destruct same as (_ & _ & Hr).
  rewrite Forall_forall in Hr. apply (Hr (k, d)). now apply list_elem_of_In.
Qed.

Ltac listed := cbn; repeat (first [left; reflexivity | right]).

Lemma same_properties (checks : list (string * string)) :
  (forall p t, In (p, t) checks -> In (p, VNone) top_level_defaults) ->
  forall acc, automation_properties (VDict m) checks acc
              = automation_properties (VDict m') checks acc.
Proof.
  induction checks as [|[p t] checks IH]; intros Hin acc; [reflexivity|].
  cbn [automation_properties get bind].
  rewrite (same_read p VNone) by (apply (Hin p t); now left).
  apply IH. intros p' t' H. apply (Hin p' t'). now right.
Qed.

Lemma same_automation : detect_automation here = detect_automation there.
Proof.
  unfold detect_automation. cbn [fingerprint with_payload]. cbn [get bind].
  rewrite same_properties.
  - same_analyzer.
  - unfold automation_checks. cbn [In].
    intros p t H; repeat (destruct H as [[= <- <-] | H]); try contradiction; listed.
Qed.

Lemma same_consistency : check_consistency here = check_consistency there.
Proof.
  unfold check_consistency, check_os, check_language, check_timezone, check_hardware.
  same_analyzer.
Qed.

Lemma same_tls : analyze_tls here = analyze_tls there.
Proof. unfold analyze_tls. same_analyzer. Qed.

Lemma same_behavioral : analyze_behavioral_signals here = analyze_behavioral_signals there.
Proof. unfold analyze_behavioral_signals. same_analyzer. Qed.

Lemma same_advanced : analyze_advanced_behavioral here = analyze_advanced_behavioral there.
Proof.
  unfold analyze_advanced_behavioral, analyze_mouse, analyze_click, analyze_scroll,
    analyze_keyboard.
  same_analyzer.
Qed.

Lemma same_vm : analyze_vm_detection here = analyze_vm_detection there.
Proof. unfold analyze_vm_detection. same_analyzer. Qed.

Lemma same_extensions : analyze_extensions here = analyze_extensions there.
Proof. unfold analyze_extensions. same_analyzer. Qed.

Lemma same_timing : analyze_timing here = analyze_timing there.
Proof. unfold analyze_timing. same_analyzer. Qed.

Lemma same_css : analyze_css_media here = analyze_css_media there.
Proof.
  unfold analyze_css_media. cbn [fingerprint with_payload contains_atom].
  fold (has_key m "css_media_queries_count") (has_key m' "css_media_queries_count").
  cbn [get bind]. same_reads_in same. reflexivity.
Qed.

Lemma same_speech : analyze_speech here = analyze_speech there.
Proof. unfold analyze_speech. same_analyzer. Qed.

Lemma same_hints : analyze_client_hints here = analyze_client_hints there.
Proof. unfold analyze_client_hints. same_analyzer. Qed.

(** Payloads with the same reads give the same findings, the echo of
    the payload itself apart. *)
Lemma same_findings : lift forget_payload (collect here) = lift forget_payload (collect there).
Proof.
  unfold collect.
  rewrite <- same_proxy, <- same_automation, <- same_consistency, <- same_tls,
    <- same_behavioral, <- same_advanced, <- same_vm, <- same_extensions,
    <- same_timing, <- same_css, <- same_speech, <- same_hints.
  pose proof same_fingerprint as Hfp.
  destruct (analyze_browser_fingerprint here) as [x|e],
           (analyze_browser_fingerprint there) as [y|e']; cbn [lift bind] in Hfp |- *;
    try discriminate Hfp; [|now injection Hfp as ->].
  assert (Hxy : forget_echo x = forget_echo y) by congruence. clear Hfp.
  destruct (detect_proxy_vpn here); [|reflexivity].
  destruct (detect_automation here); [|reflexivity].
  destruct (check_consistency here); [|reflexivity].
  destruct (analyze_tls here); [|reflexivity].
  destruct (analyze_behavioral_signals here); [|reflexivity].
  destruct (analyze_advanced_behavioral here); [|reflexivity].
  destruct (analyze_vm_detection here); [|reflexivity].
  destruct (analyze_extensions here); [|reflexivity].
  destruct (analyze_timing here); [|reflexivity].
  destruct (analyze_css_media here); [|reflexivity].
  destruct (analyze_speech here); [|reflexivity].
  destruct (analyze_client_hints here); [|reflexivity].
  cbn [bind lift]. unfold forget_payload. cbn -[forget_echo]. now rewrite Hxy.
Qed.

End SameReads.

Lemma step_ignores_echo (step : findings -> risk -> risk) (res : findings) (r : risk) :
  In step scoring_steps -> step (forget_payload res) r = step res r.
Proof.
  unfold scoring_steps. cbn [In].
  intros H; repeat (destruct H as [<- | H]); try contradiction; reflexivity.
Qed.

Lemma run_steps_ext (res res' : findings) (steps : list (findings -> risk -> risk)) :
  (forall s r, In s steps -> s res r = s res' r) ->
  forall r, run_steps res steps r = run_steps res' steps r.
Proof.
  unfold run_steps. induction steps as [|s steps IH]; intros Hext r; [reflexivity|].
  cbn [fold_left]. rewrite (Hext s r) by now left.
  apply IH. intros s' r' H. apply Hext. now right.
Qed.

Lemma risk_ignores_echo (res : findings) :
  calculate_risk_score (forget_payload res) = calculate_risk_score res.
Proof.
  unfold calculate_risk_score.
  rewrite (run_steps_ext (forget_payload res) res); [reflexivity|].
  intros s r Hs. now apply step_ignores_echo.
Qed.

Lemma defaults_keys_NoDup : NoDup (map fst top_level_defaults).
Proof. apply (bool_decide_unpack _). vm_compute. exact I. Qed.

Lemma table_functional {B} (l : list (string * B)) (k : string) (d d' : B) :
  NoDup (map fst l) -> In (k, d) l -> In (k, d') l -> d = d'.
Proof.
  induction l as [|[k0 d0] l IH]; [contradiction|].
  cbn [map fst]. rewrite NoDup_cons. intros [Hk Hnd] [E | H] [E' | H'].
  - congruence.
  - injection E as -> ->. exfalso. apply Hk.
    apply list_elem_of_In, in_map_iff. now exists (k, d').
  - injection E' as -> ->. exfalso. apply Hk.
    apply list_elem_of_In, in_map_iff. now exists (k, d).
  - now apply IH.
Qed.

Lemma count_key_not_defaulted (d : value) :
  ~ In ("css_media_queries_count", d) top_level_defaults.
Proof.
  unfold top_level_defaults. cbn [In].
  intros H; repeat (destruct H as [[=] | H]); exact H.
Qed.

(** Adding an absent key with its default changes no read. *)
Lemma default_entry_same_reads (m : gmap string value) (k : string) (d : value) :
  In (k, d) top_level_defaults -> m !! k = None -> m <> ∅ ->
  same_reads m (<[k:=d]> m).
Proof.
  intros Hin Hk Hne. repeat split.
  - rewrite (truthy_dict m Hne). symmetry. apply truthy_dict, insert_non_empty.
  - unfold has_key. rewrite lookup_insert_ne; [reflexivity|].
    intros ->. now apply (count_key_not_defaulted d).
  - apply Forall_forall. intros [k' d'] Hin'. apply list_elem_of_In in Hin'. cbn [fst snd].
    destruct (decide (k = k')) as [<- | Hkk].
    + rewrite lookup_insert_eq, Hk. cbn.
      apply (table_functional top_level_defaults k); auto using defaults_keys_NoDup.
    + now rewrite lookup_insert_ne.
Qed.

(** *** The empty payload against a payload of defaults *)

(** Replace every defaulted read of [m] by the same read of [m']. *)
Ltac same_defaults_in H :=
  let Hc := fresh "Hc" in
  let Hr := fresh "Hr" in
  destruct H as (Hc & Hr);
  unfold top_level_defaults in Hr;
  repeat (apply Forall_cons in Hr as [? Hr]);
  clear Hr; cbn [fst snd] in *;
  rewrite ?Hc;
  repeat match goal with
         | E : default _ (_ !! _) = default _ (_ !! _) |- _ =>
             first [rewrite !E | idtac]; clear E
         end.

Section SameDefaults.
Context `{rt : Runtime}.
Variable self : analyzer.
Variables m m' : gmap string value.
Hypothesis same : same_defaults m m'.

Local Abbreviation here := (with_payload self (VDict m)).
Local Abbreviation there := (with_payload self (VDict m')).

Ltac same_analyzer :=
  cbn [fingerprint with_payload headers user_agent ip self_request];
  cbn [get bind]; same_defaults_in same; reflexivity.

Lemma defaults_proxy : detect_proxy_vpn here = detect_proxy_vpn there.
Proof. unfold detect_proxy_vpn. same_analyzer. Qed.

Lemma defaults_read (k : string) (d : value) :
  In (k, d) top_level_defaults -> default d (m !! k) = default d (m' !! k).
Proof.
  intros Hin. destruct same as (_ & Hr).
  rewrite Forall_forall in Hr. apply (Hr (k, d)). now apply list_elem_of_In.
Qed.

Lemma defaults_properties (checks : list (string * string)) :
  (forall p t, In (p, t) checks -> In (p, VNone) top_level_defaults) ->
  forall acc, automation_properties (VDict m) checks acc
              = automation_properties (VDict m') checks acc.
Proof.
  induction checks as [|[p t] checks IH]; intros Hin acc; [reflexivity|].
  cbn [automation_properties get bind].
  rewrite (defaults_read p VNone) by (apply (Hin p t); now left).
  apply IH. intros p' t' H. apply (Hin p' t'). now right.
Qed.

Lemma defaults_automation : detect_automation here = detect_automation there.
Proof.
  unfold detect_automation. cbn [fingerprint with_payload]. cbn [get bind].
  rewrite defaults_properties.
  - same_analyzer.
  - unfold automation_checks. cbn [In].
    intros p t H; repeat (destruct H as [[= <- <-] | H]); try contradiction;
      cbn; repeat (first [left; reflexivity | right]).
Qed.

Lemma defaults_consistency : check_consistency here = check_consistency there.
Proof.
  unfold check_consistency, check_os, check_language, check_timezone, check_hardware.
  same_analyzer.
Qed.

Lemma defaults_tls : analyze_tls here = analyze_tls there.
Proof. unfold analyze_tls. same_analyzer. Qed.

Lemma defaults_behavioral :
  analyze_behavioral_signals here = analyze_behavioral_signals there.
Proof. unfold analyze_behavioral_signals. same_analyzer. Qed.

Lemma defaults_advanced :
  analyze_advanced_behavioral here = analyze_advanced_behavioral there.
Proof.
  unfold analyze_advanced_behavioral, analyze_mouse, analyze_click, analyze_scroll,
    analyze_keyboard.
  same_analyzer.
Qed.

Lemma defaults_vm : analyze_vm_detection here = analyze_vm_detection there.
Proof. unfold analyze_vm_detection. same_analyzer. Qed.

Lemma defaults_extensions : analyze_extensions here = analyze_extensions there.
Proof. unfold analyze_extensions. same_analyzer. Qed.

Lemma defaults_timing : analyze_timing here = analyze_timing there.
Proof. unfold analyze_timing. same_analyzer. Qed.

Lemma defaults_css : analyze_css_media here = analyze_css_media there.
Proof.
  unfold analyze_css_media. cbn [fingerprint with_payload contains_atom].
  fold (has_key m "css_media_queries_count") (has_key m' "css_media_queries_count").
  cbn [get bind]. same_defaults_in same. reflexivity.
Qed.

Lemma defaults_speech : analyze_speech here = analyze_speech there.
Proof. unfold analyze_speech. same_analyzer. Qed.

Lemma defaults_hints : analyze_client_hints here = analyze_client_hints there.
Proof. unfold analyze_client_hints. same_analyzer. Qed.

(** With the same reads, and an integrity analysis that completes with
    the same grade on both, the findings agree up to the checks that
    analysis lists. *)
Lemma defaults_findings (a a' : fp_analysis) :
  analyze_browser_fingerprint here = Ok a ->
  analyze_browser_fingerprint there = Ok a' ->
  fp_quality a = fp_quality a' ->
  lift forget_integrity (collect here) = lift forget_integrity (collect there).
Proof.
  intros Ha Ha' Hq. unfold collect.
  rewrite <- defaults_proxy, <- defaults_automation, <- defaults_consistency, <- defaults_tls,
    <- defaults_behavioral, <- defaults_advanced, <- defaults_vm, <- defaults_extensions,
    <- defaults_timing, <- defaults_css, <- defaults_speech, <- defaults_hints.
  rewrite Ha, Ha'. cbn [bind].
  destruct (detect_proxy_vpn here); [|reflexivity].
  destruct (detect_automation here); [|reflexivity].
  destruct (check_consistency here); [|reflexivity].
  destruct (analyze_tls here); [|reflexivity].
  destruct (analyze_behavioral_signals here); [|reflexivity].
  destruct (analyze_advanced_behavioral here); [|reflexivity].
  destruct (analyze_vm_detection here); [|reflexivity].
  destruct (analyze_extensions here); [|reflexivity].
  destruct (analyze_timing here); [|reflexivity].
  destruct (analyze_css_media here); [|reflexivity].
  destruct (analyze_speech here); [|reflexivity].
  destruct (analyze_client_hints here); [|reflexivity].
  cbn [bind lift]. unfold forget_integrity, forget_checks. cbn. now rewrite Hq.
Qed.

End SameDefaults.

Lemma step_ignores_checks (step : findings -> risk -> risk) (res : findings) (r : risk) :
  In step scoring_steps -> step (forget_integrity res) r = step res r.
Proof.
  unfold scoring_steps. cbn [In].
  intros H; repeat (destruct H as [<- | H]); try contradiction; reflexivity.
Qed.

Lemma risk_ignores_checks (res : findings) :
  calculate_risk_score (forget_integrity res) = calculate_risk_score res.
Proof.
  unfold calculate_risk_score.
  rewrite (run_steps_ext (forget_integrity res) res); [reflexivity|].
  intros s r Hs. now apply step_ignores_checks.
Qed.

(** A payload that holds one key at its default. *)
Lemma default_entry_alone (k : string) (d : value) :
  In (k, d) top_level_defaults ->
  same_defaults ∅ {[ k := d ]} /\
  integrity_fields_typed {[ k := d ]} = true /\
  canvas_unusable {[ k := d ]}.
Proof.
  intros Hin. split; [|split].
  - split.
    + unfold has_key. rewrite lookup_empty, lookup_singleton_ne; [reflexivity|].
      intros ->. now apply (count_key_not_defaulted d).
    + apply Forall_forall. intros [k' d'] Hin'. apply list_elem_of_In in Hin'. cbn [fst snd].
      rewrite lookup_empty. destruct (decide (k = k')) as [<- | Hkk].
      * rewrite lookup_singleton_eq. cbn.
        apply (table_functional top_level_defaults k); auto using defaults_keys_NoDup.
      * now rewrite lookup_singleton_ne.
  - unfold top_level_defaults in Hin. cbn [In] in Hin.
    repeat (destruct Hin as [[= <- <-] | Hin]); try contradiction; vm_compute; reflexivity.
  - unfold top_level_defaults in Hin. cbn [In] in Hin. unfold canvas_unusable.
    repeat (destruct Hin as [[= <- <-] | Hin]); try contradiction;
      first [ left; reflexivity
            | right; left; eexists; split; reflexivity ].
Qed.

Section Payloads.
Context `{rt : Runtime}.

Lemma fingerprint_of_dict (req : request) (m : gmap string value) :
  fingerprint (with_fingerprint req (VDict m)) = VDict m.
Proof.
  unfold with_fingerprint, set_fingerprint. cbn [fingerprint truthy].
  destruct (bool_decide_reflect (m = ∅)) as [-> | _]; reflexivity.
Qed.

Lemma with_fingerprint_payload (req : request) (m : gmap string value) :
  m <> ∅ -> with_fingerprint req (VDict m) = with_payload (init req) (VDict m).
Proof.
  intros Hne. unfold with_fingerprint, set_fingerprint, with_payload.
  now rewrite (truthy_dict m Hne).
Qed.

(** On the empty payload the integrity analyzer answers 'No fingerprint
    data received'; on a payload that holds one key at its default it
    lists its checks instead.  The grade is 'bad' either way, and
    nothing else of the analysis differs. *)
Lemma empty_against_default (req : request) (k : string) (d : value) :
  In (k, d) top_level_defaults ->
  lift (fun r => (forget_integrity (findings_of r), risk_assessment r))
       (analyze (init req) (VDict {[ k := d ]}))
  = lift (fun r => (forget_integrity (findings_of r), risk_assessment r))
         (analyze (init req) (VDict ∅)).
Proof.
  intros Hin. destruct (default_entry_alone k d Hin) as (Hsame & Htyped & Hcanvas).
  assert (Hne : ({[ k := d ]} : gmap string value) <> ∅) by apply insert_non_empty.
  unfold analyze.
  fold (with_fingerprint req (VDict ({[ k := d ]} : gmap string value))).
  rewrite (with_fingerprint_payload req _ Hne).
  assert (Hempty : set_fingerprint (init req) (VDict ∅) = with_payload (init req) (VDict ∅))
    by reflexivity.
  rewrite Hempty.
  set (here := with_payload (init req) (VDict ∅)).
  set (there := with_payload (init req) (VDict {[ k := d ]})).
  assert (Ha : analyze_browser_fingerprint here = Ok empty_fp_analysis)
    by (apply fingerprint_empty; reflexivity).
  destruct (fingerprint_returns there {[ k := d ]} eq_refl Htyped) as [a' Ha'].
  destruct (canvas_unusable_graded_bad there {[ k := d ]} a' eq_refl Hne Hcanvas Ha')
    as [_ Hbad].
  pose proof (defaults_findings (init req) ∅ {[ k := d ]} Hsame empty_fp_analysis a'
                Ha Ha' (eq_sym Hbad)) as Hfind.
  fold here there in Hfind.
  destruct (collect here) as [x|e], (collect there) as [y|e'];
    cbn [lift bind] in Hfind |- *; try discriminate Hfind.
  - assert (Hxy : forget_integrity x = forget_integrity y) by congruence.
    cbn [findings_of risk_assessment].
    rewrite <- (risk_ignores_checks x), <- (risk_ignores_checks y).
    now rewrite Hxy.
  - now injection Hfind as ->.
Qed.

(** C4, amended.  For every fingerprint payload in which each entry that
    is present has the type its analyzer expects -- the empty map and
    payloads with any keys missing included -- every analyzer and the
    consistency checker complete without raising, and so does the whole
    analysis.  An absent top-level key is read as the default the code
    passes for it (0, an empty sequence or map, false or null; true for
    has_page_focus): adding the key with that default to a non-empty
    payload changes neither the findings nor the assessment.  The empty
    map is the one payload the code does not read as a map of defaults:
    on it the integrity analyzer answers 'No fingerprint data received'
    where it lists its checks once a key is there; adding a key with its
    default then changes that list only, not the grade 'bad', no other
    finding and not the assessment. *)
Theorem typed_payload_never_raises (req : request) (m : gmap string value) :
  well_typed m = true ->
  let self := with_fingerprint req (VDict m) in
  (returns (analyze_browser_fingerprint self) = true /\
   returns (detect_proxy_vpn self) = true /\
   returns (detect_automation self) = true /\
   returns (check_consistency self) = true /\
   returns (analyze_tls self) = true /\
   returns (analyze_behavioral_signals self) = true /\
   returns (analyze_advanced_behavioral self) = true /\
   returns (analyze_vm_detection self) = true /\
   returns (analyze_extensions self) = true /\
   returns (analyze_timing self) = true /\
   returns (analyze_css_media self) = true /\
   returns (analyze_speech self) = true /\
   returns (analyze_client_hints self) = true) /\
  returns (analyze (init req) (VDict m)) = true /\
  (forall k d, In (k, d) top_level_defaults -> m !! k = None -> m <> ∅ ->
     lift (fun r => (forget_payload (findings_of r), risk_assessment r))
          (analyze (init req) (VDict (<[k:=d]> m)))
     = lift (fun r => (forget_payload (findings_of r), risk_assessment r))
            (analyze (init req) (VDict m))) /\
  (forall k d, In (k, d) top_level_defaults -> m !! k = None ->
     lift (fun r => (forget_integrity (findings_of r), risk_assessment r))
          (analyze (init req) (VDict (<[k:=d]> m)))
     = lift (fun r => (forget_integrity (findings_of r), risk_assessment r))
            (analyze (init req) (VDict m))) /\
  (m = ∅ ->
     analyze_browser_fingerprint self
     = Ok {| fingerprint_data := VDict ∅;
             inconsistencies := [Indicator "No fingerprint data received" ""];
             manipulation_indicators := [];
             fp_quality := Bad |}).
Proof.
  intros Htyped self. unfold well_typed, integrity_fields_typed in Htyped.
  rewrite !andb_true_iff in Htyped.
  destruct Htyped as (((((((((((((((((((((((T0 & T1) & T2) & T3) & T4) & T5) & T6) & T7)
    & T8) & T9) & T10) & T11) & T12) & T13) & T14) & T15) & T16) & T17) & T18) & T19)
    & T20) & T21) & T22) & T23).
  assert (Tfp : integrity_fields_typed m = true)
    by (unfold integrity_fields_typed; now rewrite T0, T1, T2).
  pose proof (fingerprint_of_dict req m) as Hfp. fold self in Hfp.
  assert (Hall :
    returns (analyze_browser_fingerprint self) = true /\
    returns (detect_proxy_vpn self) = true /\
    returns (detect_automation self) = true /\
    returns (check_consistency self) = true /\
    returns (analyze_tls self) = true /\
    returns (analyze_behavioral_signals self) = true /\
    returns (analyze_advanced_behavioral self) = true /\
    returns (analyze_vm_detection self) = true /\
    returns (analyze_extensions self) = true /\
    returns (analyze_timing self) = true /\
    returns (analyze_css_media self) = true /\
    returns (analyze_speech self) = true /\
    returns (analyze_client_hints self) = true).
  { repeat split.
    - apply returns_Ok. now apply (fingerprint_returns self m).
    - now apply (proxy_returns self m).
    - now apply (automation_returns self m).
    - now apply (consistency_returns self m).
    - now apply (tls_returns self m).
    - now apply (behavioral_returns self m).
    - now apply (advanced_returns self m).
    - now apply (vm_returns self m).
    - now apply (extensions_returns self m).
    - now apply (timing_returns self m).
    - now apply (css_returns self m).
    - now apply (speech_returns self m).
    - now apply (hints_returns self m). }
  split; [exact Hall|]. split.
  - unfold analyze. fold (with_fingerprint req (VDict m)). fold self.
    destruct Hall as (H1 & H2 & H3 & H4 & H5 & H6 & H7 & H8 & H9 & H10 & H11 & H12 & H13).
    pose proof (collect_returns self H1 H2 H3 H4 H5 H6 H7 H8 H9 H10 H11 H12 H13) as Hc.
    destruct (collect self); [reflexivity|discriminate Hc].
  - assert (Hfull : forall k d, In (k, d) top_level_defaults -> m !! k = None -> m <> ∅ ->
              lift (fun r => (forget_payload (findings_of r), risk_assessment r))
                   (analyze (init req) (VDict (<[k:=d]> m)))
              = lift (fun r => (forget_payload (findings_of r), risk_assessment r))
                     (analyze (init req) (VDict m))).
    { intros k d Hin Hk Hne. unfold analyze.
      fold (with_fingerprint req (VDict m)) (with_fingerprint req (VDict (<[k:=d]> m))).
      rewrite (with_fingerprint_payload req m Hne).
      rewrite (with_fingerprint_payload req (<[k:=d]> m)) by apply insert_non_empty.
      pose proof (same_findings (init req) m (<[k:=d]> m)
                    (default_entry_same_reads m k d Hin Hk Hne)) as Hsame.
      destruct (collect (with_payload (init req) (VDict m))) as [x|e],
               (collect (with_payload (init req) (VDict (<[k:=d]> m)))) as [y|e'];
        cbn [lift bind] in Hsame |- *; try discriminate Hsame.
      - assert (Hxy : forget_payload x = forget_payload y) by congruence.
        cbn [findings_of risk_assessment].
        rewrite <- (risk_ignores_echo x), <- (risk_ignores_echo y).
        now rewrite Hxy.
      - now injection Hsame as ->. }
    split; [exact Hfull|]. split.
    + intros k d Hin Hk. destruct (decide (m = ∅)) as [-> | Hne].
      * rewrite insert_empty. now apply empty_against_default.
      * specialize (Hfull k d Hin Hk Hne).
        destruct (analyze (init req) (VDict (<[k:=d]> m))) as [x|e],
                 (analyze (init req) (VDict m)) as [y|e'];
          cbn [lift bind] in Hfull |- *; try discriminate Hfull.
        -- assert (Hxy : forget_payload (findings_of x) = forget_payload (findings_of y))
             by congruence.
           assert (Hr : risk_assessment x = risk_assessment y) by congruence.
           change (forget_integrity (findings_of x))
             with (forget_integrity (forget_payload (findings_of x))).
           change (forget_integrity (findings_of y))
             with (forget_integrity (forget_payload (findings_of y))).
           now rewrite Hxy, Hr.
        -- now injection Hfull as ->.
    + intros ->. reflexivity.
Qed.

(** C10.  For every non-empty payload whose 'canvas' entry is absent,
    falsy or 'blocked': every completed run of the fingerprint-integrity
    analyzer has recorded the canvas manipulation indicator and graded
    the quality 'bad' (and the run does complete when the entries it
    measures are of the expected type); every completed analysis then
    counts +30 for the fingerprint, carries the red flag
    "Manipulated fingerprint" and has is_genuine false. *)
Theorem canvas_unusable_is_manipulated (req : request) (m : gmap string value) :
  m <> ∅ ->
  canvas_unusable m ->
  let self := with_fingerprint req (VDict m) in
  (forall a, analyze_browser_fingerprint self = Ok a ->
     In canvas_indicator (manipulation_indicators a) /\ fp_quality a = Bad) /\
  (integrity_fields_typed m = true ->
     exists a, analyze_browser_fingerprint self = Ok a) /\
  (forall r, analyze (init req) (VDict m) = Ok r ->
     fp_quality (browser_fingerprint (findings_of r)) = Bad /\
     step_weight score_fingerprint (findings_of r) = 30 /\
     In "Manipulated fingerprint" (red_flags (risk_assessment r)) /\
     is_genuine (risk_assessment r) = false /\
     30 <= total_score (risk_assessment r)).
Proof.
  intros Hne Hcanvas self.
  pose proof (fingerprint_of_dict req m) as Hfp. fold self in Hfp.
  split; [|split].
  - intros a Ha. now apply (canvas_unusable_graded_bad self m a).
  - intros Htyped. now apply (fingerprint_returns self m).
  - intros r Hr. apply analyze_inv in Hr as [Hcollect Hrisk].
    fold (with_fingerprint req (VDict m)) in Hcollect. fold self in Hcollect.
    apply collect_inv in Hcollect as (Ha & _).
    destruct (canvas_unusable_graded_bad self m _ Hfp Hne Hcanvas Ha) as [_ Hbad].
    rewrite Hrisk. split; [exact Hbad|]. now apply bad_fingerprint_assessed.
Qed.

End Payloads.

(** C4, as stated, fails on entries of an unexpected type: a number
    under 'platform' makes the consistency checker call a string method
    on it, a text under 'has_scroll' cannot be summed, and the endpoint
    answers such a payload with its failure response.  Nor is every
    default one of 0, empty, false or null: an absent 'has_page_focus'
    reads as true. *)
Lemma unexpected_type_raises :
  check_consistency (rt := sample_runtime)
    (with_fingerprint (request_with browser_headers) (VDict numeric_platform_payload))
    = Raise AttributeError /\
  analyze_behavioral_signals
    (with_fingerprint (request_with browser_headers) (VDict textual_scroll_payload))
    = Raise TypeError /\
  analyze_visitor (rt := sample_runtime) (request_with browser_headers)
    (Ok (VDict {[ "fingerprint" := VDict numeric_platform_payload ]}))
    = Failure AttributeError 500 /\
  exists b, analyze_behavioral_signals (with_fingerprint (request_with browser_headers) (VDict ∅))
            = Ok b /\ page_focus b = VBool true.
Proof.
  split; [vm_compute; reflexivity|]. split; [vm_compute; reflexivity|].
  split; [vm_compute; reflexivity|].
  eexists. split; [vm_compute; reflexivity|reflexivity].
Qed.

(** ** Sample runs *)

Lemma typed_payload_sample :
  well_typed typical_payload = true /\
  returns (analyze (rt := sample_runtime) (init (request_with browser_headers))
             (VDict typical_payload)) = true /\
  well_typed ∅ = true /\
  lift (fun r => (forget_integrity (findings_of r), risk_assessment r))
       (analyze (rt := sample_runtime) (init (request_with browser_headers))
          (VDict (<["plugins" := VInt 0]> ∅)))
  = lift (fun r => (forget_integrity (findings_of r), risk_assessment r))
         (analyze (rt := sample_runtime) (init (request_with browser_headers)) (VDict ∅)).
Proof.
  split; [reflexivity|]. split.
  - apply (typed_payload_never_raises (rt := sample_runtime)
             (request_with browser_headers) typical_payload).
    reflexivity.
  - split; [reflexivity|].
    pose proof (typed_payload_never_raises (rt := sample_runtime)
                  (request_with browser_headers) ∅) as Hempty.
    destruct (Hempty ltac:(reflexivity)) as (_ & _ & _ & Hdefault & _).
    apply (Hdefault "plugins" (VInt 0)); [|reflexivity].
    unfold top_level_defaults. cbn [In]. tauto.
Defined.

Lemma typical_payload_nonempty : typical_payload <> ∅.
Proof.
  intros H. apply (f_equal (fun m : gmap string value => m !! "plugins")) in H.
  vm_compute in H. discriminate H.
Defined.

Lemma canvas_sample :
  typical_payload <> ∅ /\
  canvas_unusable typical_payload /\
  (exists a, analyze_browser_fingerprint
               (with_fingerprint (request_with browser_headers) (VDict typical_payload)) = Ok a /\
             fp_quality a = Bad) /\
  (exists r, analyze (rt := sample_runtime) (init (request_with browser_headers))
               (VDict typical_payload) = Ok r /\
             In "Manipulated fingerprint" (red_flags (risk_assessment r)) /\
             is_genuine (risk_assessment r) = false).
Proof.
  assert (Hcanvas : canvas_unusable typical_payload) by (left; reflexivity).
  split; [exact typical_payload_nonempty|]. split; [exact Hcanvas|].
  destruct (canvas_unusable_is_manipulated (rt := sample_runtime)
              (request_with browser_headers) typical_payload
              typical_payload_nonempty Hcanvas) as (Hbad & Hret & Hrisk).
  split.
  - destruct (Hret eq_refl) as [a Ha].
    exists a. split; [exact Ha|]. apply (Hbad a Ha).
  - destruct (analyze (rt := sample_runtime) (init (request_with browser_headers))
                (VDict typical_payload)) as [r|e] eqn:E.
    + exists r. split; [reflexivity|]. destruct (Hrisk r eq_refl) as (_ & _ & Hflag & Hg & _).
      split; assumption.
    + vm_compute in E. discriminate E.
Defined.

Lemma scenario_sample :
  standard_compliant browser_headers = true /\
  direct_connection browser_headers = true /\
  realistic_user_agent chrome_user_agent = true /\
  plain_route (request_with browser_headers) = true /\
  exists r, analyze (rt := sample_runtime) (init (request_with browser_headers)) (VDict ∅) = Ok r /\
            total_score (risk_assessment r) = 35 /\
            confidence (risk_assessment r) = 40.
Proof.
  split; [reflexivity|]. split; [reflexivity|]. split; [reflexivity|].
  split; [reflexivity|].
  destruct (empty_payload_scenario (rt := sample_runtime) (request_with browser_headers)
              eq_refl eq_refl eq_refl eq_refl eq_refl) as (r & Hr & H).
  exists r. split; [exact Hr|]. cbv zeta in H. tauto.
Defined.

(* ===================================================================== *)
(** * Further properties of the code                                      *)
(* ===================================================================== *)

(** ** Red flags and the score *)

(** A scoring block raises at most one red flag, and never for less than
    ten points. *)
Lemma step_flag_cost (step : findings -> risk -> risk) (res : findings) (r : risk) :
  In step flagging_steps ->
  exists l, red_flags (step res r) = red_flags r ++ l /\
            (length l <= 1)%nat /\
            10 * Z.of_nat (length l) <= total_score (step res r) - total_score r.
Proof.
  unfold flagging_steps. cbn [In].
  intros H; repeat (destruct H as [<- | H]); try contradiction;
    unfold score_headers, score_user_agent, score_fingerprint, score_proxy,
      score_automation, score_consistency, score_threat, score_behavior,
      score_mouse, score_click, score_vm, score_timing;
    step_cases;
    cbn [red_flag green_flag add_score not_genuine red_flags total_score];
    first [ eexists; split; [reflexivity|]; cbn [length]; split; lia
          | exists []; rewrite app_nil_r; cbn [length]; repeat split; lia ].
Qed.

Lemma run_flag_cost (res : findings) (steps : list (findings -> risk -> risk)) :
  (forall s, In s steps -> In s flagging_steps) ->
  forall r, exists l,
    red_flags (run_steps res steps r) = red_flags r ++ l /\
    (length l <= length steps)%nat /\
    10 * Z.of_nat (length l) <= total_score (run_steps res steps r) - total_score r.
Proof.
  unfold run_steps. induction steps as [|s steps IH]; intros Hin r; cbn [fold_left].
  - exists []. rewrite app_nil_r. cbn. repeat split; lia.
  - destruct (IH (fun s' H => Hin s' (or_intror H)) (s res r)) as (l & -> & Hn & Hc).
    destruct (step_flag_cost s res r (Hin s (or_introl eq_refl))) as (l' & -> & Hn' & Hc').
    exists (l' ++ l). rewrite app_assoc, length_app. cbn [length]. repeat split; lia.
Qed.

Lemma extensions_keep_flags (res : findings) (r : risk) :
  red_flags (score_extensions res r) = red_flags r /\
  total_score (score_extensions res r) = total_score r.
Proof. unfold score_extensions. step_cases; split; reflexivity. Qed.

(** X1.  Every red flag of an assessment stands for at least ten points
    of the uncapped sum and there are at most twelve of them; so an
    assessment below the cap has a score of at least ten times its red
    flags, a score of 0 has none, and the confidence is never below the
    score. *)
Theorem red_flags_cost_ten_points (res : findings) :
  let r := calculate_risk_score res in
  10 * Z.of_nat (length (red_flags r)) <= WeightTable.sum res /\
  (length (red_flags r) <= 12)%nat /\
  (total_score r < 100 -> 10 * Z.of_nat (length (red_flags r)) <= total_score r) /\
  (total_score r = 0 -> red_flags r = []) /\
  total_score r <= confidence r.
Proof.
  intros r.
  assert (Hflags : red_flags r = red_flags (run_steps res flagging_steps initial_risk) /\
                   WeightTable.sum res
                   = total_score (run_steps res flagging_steps initial_risk)).
  { subst r. unfold calculate_risk_score. rewrite closing_keeps_flags.
    rewrite <- uncapped_total.
    change (run_steps res scoring_steps initial_risk)
      with (score_extensions res (run_steps res flagging_steps initial_risk)).
    destruct (extensions_keep_flags res (run_steps res flagging_steps initial_risk))
      as [-> ->]. split; reflexivity. }
  destruct Hflags as [Hf Hs].
  destruct (run_flag_cost res flagging_steps (fun s H => H) initial_risk)
    as (l & Hl & Hn & Hc).
  cbn [initial_risk red_flags total_score app] in Hl, Hc.
  rewrite <- Hf in Hl. rewrite <- Hs in Hc. rewrite Hl.
  cbn [flagging_steps length] in Hn.
  pose proof (final_total res) as Ht. fold r in Ht.
  assert (Hconf : confidence r
                  = Z.min 100 (total_score r + Z.of_nat (length (red_flags r)) * 5))
    by reflexivity.
  repeat split; try lia.
  intros H0. destruct l as [|x l]; [reflexivity|]. cbn [length] in Hc. lia.
Qed.

(** X2.  An assessment that is not genuine scores at least 25, so its
    risk level is never 'minimal' and its visitor quality never 'good'. *)
Theorem not_genuine_is_never_minimal (res : findings) :
  is_genuine (calculate_risk_score res) = false ->
  25 <= total_score (calculate_risk_score res) /\
  risk_level (calculate_risk_score res) <> Minimal /\
  visitor_quality (calculate_risk_score res) <> Good.
Proof.
  intros Hg. rewrite final_genuine in Hg.
  assert (Hsum : 25 <= WeightTable.sum res).
  { unfold WeightTable.sum. table_terms res.
    rewrite !andb_false_iff, !negb_false_iff, orb_true_iff, !label_eqb_eq in Hg.
    destruct Hg as [[Hg | [Hg | Hg]] | Hg]; rewrite Hg in *;
      cbn [WeightTable.fingerprint WeightTable.automation WeightTable.threat] in *; lia. }
  assert (Htotal : 25 <= total_score (calculate_risk_score res))
    by (rewrite final_total; lia).
  split; [exact Htotal|].
  destruct (final_level res) as (H70 & H50 & H30 & H15 & _).
  destruct (Z_lt_le_dec (total_score (calculate_risk_score res)) 30) as [Hlt | Hge].
  - destruct H15 as [-> ->]; [lia|]. split; discriminate.
  - destruct (Z_lt_le_dec (total_score (calculate_risk_score res)) 50) as [Hlt | Hge'].
    + destruct H30 as [-> ->]; [lia|]. split; discriminate.
    + destruct (Z_lt_le_dec (total_score (calculate_risk_score res)) 70) as [Hlt | Hge''].
      * destruct H50 as [-> ->]; [lia|]. split; discriminate.
      * destruct H70 as [-> ->]; [lia|]. split; discriminate.
Qed.

Lemma step_ignores_descriptive (step : findings -> risk -> risk)
    (res other : findings) (r : risk) :
  In step scoring_steps -> step (with_descriptive_of res other) r = step res r.
Proof.
  unfold scoring_steps. cbn [In].
  intros H; repeat (destruct H as [<- | H]); try contradiction; reflexivity.
Qed.

(** X3.  The assessment reads the graded findings only: replacing the
    resolved address, the basic info, the transport analysis, the
    baseline behavioral signals (with their human/bot score), the media
    queries, the speech and the client-hints findings by any others
    leaves every field of the assessment unchanged. *)
Theorem descriptive_findings_are_not_scored (res other : findings) :
  calculate_risk_score (with_descriptive_of res other) = calculate_risk_score res.
Proof.
  unfold calculate_risk_score.
  rewrite (run_steps_ext (with_descriptive_of res other) res); [reflexivity|].
  intros s r Hs. now apply step_ignores_descriptive.
Qed.

(** ** Threat patterns *)

(** X4.  [detect_threats] records at most two risk factors (the path and
    the method), so its 'high' level, which asks for more than two, is
    never produced and the aggregator's +30 for it never applies: the
    level is 'critical' exactly when the lower-cased user agent names
    sqlmap or nikto, 'none' exactly when it does not and the request is a
    GET or POST on a path without sensitive substring, and 'medium'
    otherwise; the contribution to the score is 50 or 0. *)
Theorem threat_level_is_never_high (self : analyzer) :
  let t := detect_threats self in
  let scanner := contains "sqlmap" (lower (user_agent self))
                 || contains "nikto" (lower (user_agent self)) in
  (length (risk_factors t) <= 2)%nat /\
  threat_level t <> High /\
  (threat_level t = Critical <-> scanner = true) /\
  (threat_level t = NoRisk <-> scanner = false /\ plain_route (self_request self) = true) /\
  (threat_level t = Medium <-> scanner = false /\ plain_route (self_request self) = false) /\
  (forall res, threat_indicators res = t ->
     step_weight score_threat res = if scanner then 50 else 0).
Proof.
  cbv zeta. unfold detect_threats, plain_route.
  destruct (contains "sqlmap" (lower (user_agent self))),
           (contains "nikto" (lower (user_agent self))),
           (contains_any suspicious_paths (lower (path (self_request self)))),
           (String.eqb (method (self_request self)) "GET"
            || String.eqb (method (self_request self)) "POST");
    cbn; repeat split; intros; try discriminate; try lia; try tauto;
    try (destruct H; discriminate);
    try (rewrite weight_threat, H; reflexivity).
Qed.

(** ** User agent *)

Lemma match_gives_pattern (ks : list string) (s : string) (f : string -> string) :
  contains_any ks s = true ->
  (0 < length (flat_map (fun k => if contains k s then [f k] else []) ks))%nat.
Proof.
  unfold contains_any. induction ks as [|k ks IH]; cbn [existsb flat_map]; [discriminate|].
  destruct (contains k s); cbn [orb app length]; [lia|exact IH].
Qed.

Section UserAgent.
Context `{rt : Runtime}.

(** The number of suspicious patterns of a non-empty user agent, by the
    four checks that produce them. *)
Lemma user_agent_pattern_count (self : analyzer) :
  user_agent self <> "" ->
  let ua := user_agent self in
  let a := analyze_user_agent self in
  let odd_length := (str_len ua <? 50) || (str_len ua >? 500) in
  let many_slashes := count_char "/" ua >? 10 in
  exists keywords : nat,
    (contains_any bot_keywords (lower ua) = false -> keywords = 0%nat) /\
    (contains_any bot_keywords (lower ua) = true -> (0 < keywords)%nat) /\
    length (ua_suspicious_patterns a)
    = (keywords
       + (if odd_length then 1 else 0)
       + (if contains_any browser_tokens (lower ua) then 0 else 1)
       + (if many_slashes then 1 else 0))%nat /\
    ua_quality a = (if is_bot (parse ua) || (Z.of_nat (length (ua_suspicious_patterns a)) >? 2)
                    then Bad
                    else if Z.of_nat (length (ua_suspicious_patterns a)) >? 0 then Suspicious
                    else Good).
Proof.
  intros Hne ua a odd_length many_slashes. subst ua a odd_length many_slashes.
  unfold analyze_user_agent.
  destruct (String.eqb_spec (user_agent self) "") as [E|_]; [contradiction|].
  cbn [ua_suspicious_patterns ua_quality].
  exists (length (flat_map (fun keyword =>
            if contains keyword (lower (user_agent self))
            then ["Bot keyword detected: " +:+ keyword] else []) bot_keywords)).
  split; [|split; [|split; [|reflexivity]]].
  - intros H. now rewrite (no_match_no_pattern _ _ _ H).
  - intros H. now apply match_gives_pattern.
  - rewrite !length_app.
    destruct (str_len (user_agent self) <? 50) eqn:Hshort; cbn [orb length].
    + destruct (contains_any browser_tokens _), (count_char "/" _ >? 10); cbn; lia.
    + destruct (str_len (user_agent self) >? 500),
               (contains_any browser_tokens _), (count_char "/" _ >? 10); cbn; lia.
Qed.

(** X5.  An empty user agent is graded 'bad' at once, with the one
    pattern 'Missing User-Agent' and nothing parsed.  Otherwise the grade
    is 'good' exactly when the parser does not report a bot, the length
    is within 50..500, a browser token occurs, no bot keyword occurs and
    there are at most ten slashes. *)
Theorem user_agent_good_iff (self : analyzer) :
  let ua := user_agent self in
  let a := analyze_user_agent self in
  (ua = "" ->
     ua_quality a = Bad /\ parsed a = None /\
     ua_suspicious_patterns a = ["Missing User-Agent"]) /\
  (ua_quality a = Good <->
     is_bot (parse ua) = false /\
     50 <= str_len ua <= 500 /\
     contains_any browser_tokens (lower ua) = true /\
     contains_any bot_keywords (lower ua) = false /\
     count_char "/" ua <= 10).
Proof.
  cbv zeta. split.
  - intros E. unfold analyze_user_agent. rewrite E. cbn. repeat split.
  - destruct (String.eqb_spec (user_agent self) "") as [E|Hne].
    + unfold analyze_user_agent. rewrite E. cbn [String.eqb ua_quality].
      split; [discriminate|]. intros (_ & Hlen & _).
      unfold str_len in Hlen. cbn in Hlen. lia.
    + destruct (user_agent_pattern_count self Hne) as (k & Hk0 & Hk1 & Hlen & ->).
      rewrite Hlen. clear Hlen.
      destruct (is_bot (parse (user_agent self)));
      destruct (contains_any bot_keywords (lower (user_agent self)));
      [ specialize (Hk1 eq_refl) | specialize (Hk0 eq_refl) |
        specialize (Hk1 eq_refl) | specialize (Hk0 eq_refl) ];
      destruct (Z.ltb_spec (str_len (user_agent self)) 50);
      destruct (Z.gtb_spec (str_len (user_agent self)) 500);
      destruct (contains_any browser_tokens (lower (user_agent self)));
      destruct (Z.gtb_spec (count_char "/" (user_agent self)) 10);
      cbn [orb];
      repeat match goal with
             | |- context [Z.of_nat ?n >? ?b] => destruct (Z.gtb_spec (Z.of_nat n) b)
             end;
      cbn [orb]; split; try discriminate; try reflexivity; try lia;
      try (intros (? & ? & ? & ? & ?); try discriminate; lia).
Qed.

(** X6.  A user agent shorter than 50 characters that carries a bot
    keyword and no browser token (such as the default ones of curl or
    python-requests) collects at least three patterns and is graded
    'bad'. *)
Theorem short_tool_user_agent_is_bad (self : analyzer) :
  str_len (user_agent self) < 50 ->
  contains_any bot_keywords (lower (user_agent self)) = true ->
  contains_any browser_tokens (lower (user_agent self)) = false ->
  ua_quality (analyze_user_agent self) = Bad /\
  (3 <= length (ua_suspicious_patterns (analyze_user_agent self)))%nat.
Proof.
  intros Hshort Hkey Hbrowser.
  destruct (String.eqb_spec (user_agent self) "") as [E|Hne].
  { rewrite E in Hkey. vm_compute in Hkey. discriminate. }
  destruct (user_agent_pattern_count self Hne) as (k & _ & Hk1 & Hlen & ->).
  specialize (Hk1 Hkey). rewrite Hlen, Hbrowser.
  destruct (Z.ltb_spec (str_len (user_agent self)) 50); [|lia]. cbn [orb].
  split; [|lia].
  destruct (is_bot _); [reflexivity|]. cbn [orb].
  match goal with
  | |- (if ?n >? 2 then _ else _) = _ => destruct (Z.gtb_spec n 2); [reflexivity|]
  end.
  destruct (count_char "/" (user_agent self) >? 10); lia.
Qed.

End UserAgent.

(** ** Headers *)

Lemma flat_map_nil {A B} (f : A -> list B) (l : list A) :
  flat_map f l = [] <-> (forall x, In x l -> f x = []).
Proof.
  induction l as [|x l IH]; cbn [flat_map In].
  - split; [intros _ ? []|reflexivity].
  - split.
    + intros H. apply app_eq_nil in H as [Hx Hl]. intros y [<- | Hy]; [exact Hx|].
      now apply IH.
    + intros H. rewrite (H x) by now left. cbn. apply IH. intros y Hy. apply H. now right.
Qed.

(** No automation signature is recorded exactly when no header value
    contains, case-folded, one of the six tool names. *)
Lemma automation_signatures_nil (hdrs : gmap string string) :
  automation_signatures hdrs = [] <->
  (forall name value tool, hdrs !! name = Some value -> In tool automation_headers ->
     contains (lower tool) (lower value) = false).
Proof.
  unfold automation_signatures. rewrite flat_map_nil. split.
  - intros H name value tool Hv Ht. specialize (H tool Ht).
    rewrite flat_map_nil in H.
    specialize (H (name, value)).
    cbn in H. destruct (contains (lower tool) (lower value)); [|reflexivity].
    exfalso. assert (Hin : In (name, value) (map_to_list hdrs)).
    { apply list_elem_of_In, elem_of_map_to_list. exact Hv. }
    specialize (H Hin). discriminate H.
  - intros H tool Ht. apply flat_map_nil. intros [name value] Hin.
    apply list_elem_of_In, elem_of_map_to_list in Hin.
    now rewrite (H name value tool Hin Ht).
Qed.

(** X7.  The header grade is 'good' exactly when the request has at
    least five headers, an [Accept] header that is neither empty nor the
    generic [*/*], an [Accept-Language] header, no header value that
    contains (in any letter case) Selenium, PhantomJS, Headless, Python,
    curl or wget, and at most one of the six standard headers missing. *)
Theorem header_quality_good_iff (self : analyzer) :
  let hdrs := headers self in
  let accept := default "" (hdrs !! "Accept") in
  header_quality (analyze_headers self) = Good <->
  (5 <= size hdrs)%nat /\
  accept <> "*/*" /\ accept <> "" /\
  is_Some (hdrs !! "Accept-Language") /\
  (forall name value tool, hdrs !! name = Some value -> In tool automation_headers ->
     contains (lower tool) (lower value) = false) /\
  (length (missing_standard_headers (analyze_headers self)) <= 1)%nat.
Proof.
  cbv zeta. rewrite <- automation_signatures_nil, <- has_key_spec.
  rewrite header_quality_is_grade. unfold suspicious_count, missing_count.
  set (missing := length (missing_standard_headers (analyze_headers self))).
  unfold analyze_headers. cbn [suspicious_patterns]. rewrite !length_app.
  destruct (Z.ltb_spec (Z.of_nat (size (headers self))) 5);
  destruct (String.eqb_spec (default "" (headers self !! "Accept")) "*/*") as [Ea|Ea];
  destruct (String.eqb_spec (default "" (headers self !! "Accept")) "") as [Eb|Eb];
  destruct (has_key (headers self) "Accept-Language");
  destruct (automation_signatures (headers self)) as [|sig sigs];
  cbn [negb length]; unfold header_grade;
  repeat match goal with
         | |- context [?a >? ?b] => destruct (Z.gtb_spec a b)
         end;
  cbn [orb]; split; try discriminate; try reflexivity; try lia;
  try (intros (? & ? & ? & ? & ? & ?); try discriminate; try congruence; lia).
  intros _. repeat split; try assumption; lia.
Qed.

Lemma header_grade_values (s m : Z) :
  header_grade s m = Bad \/ header_grade s m = Suspicious \/ header_grade s m = Good.
Proof. unfold header_grade. step_cases; tauto. Qed.

Section ToolUserAgent.
Context `{rt : Runtime}.

(** The findings that do not depend on the payload. *)
Lemma collect_static (self : analyzer) (res : findings) :
  collect self = Ok res ->
  ip_address res = ip self /\
  header_analysis_of res = analyze_headers self /\
  user_agent_analysis res = analyze_user_agent self /\
  threat_indicators res = detect_threats self.
Proof.
  unfold collect.
  destruct (analyze_browser_fingerprint self); [|discriminate].
  destruct (detect_proxy_vpn self); [|discriminate].
  destruct (detect_automation self); [|discriminate].
  destruct (check_consistency self); [|discriminate].
  destruct (analyze_tls self); [|discriminate].
  destruct (analyze_behavioral_signals self); [|discriminate].
  destruct (analyze_advanced_behavioral self); [|discriminate].
  destruct (analyze_vm_detection self); [|discriminate].
  destruct (analyze_extensions self); [|discriminate].
  destruct (analyze_timing self); [|discriminate].
  destruct (analyze_css_media self); [|discriminate].
  destruct (analyze_speech self); [|discriminate].
  destruct (analyze_client_hints self); [|discriminate].
  cbn [bind]. intros [= <-]. cbn. repeat split.
Qed.

Lemma user_agent_quality_values (self : analyzer) :
  ua_quality (analyze_user_agent self) = Bad \/
  ua_quality (analyze_user_agent self) = Suspicious \/
  ua_quality (analyze_user_agent self) = Good.
Proof. unfold analyze_user_agent. step_cases; cbn; tauto. Qed.

(** X8.  A user agent that names python, curl or wget (in any letter
    case) is counted twice: as an automation signature among the header
    values and as a bot keyword of the user agent.  Neither grade is
    'good', and every completed analysis of such a request scores at
    least 25, whatever the payload. *)
Theorem tool_user_agent_counts_twice (req : request) (ua : string) :
  req_headers req !! "User-Agent" = Some ua ->
  contains_any ["python"; "curl"; "wget"] (lower ua) = true ->
  header_quality (analyze_headers (init req)) <> Good /\
  ua_quality (analyze_user_agent (init req)) <> Good /\
  (forall fp r, analyze (init req) fp = Ok r -> 25 <= total_score (risk_assessment r)).
Proof.
  intros Hua Htool.
  assert (Hheaders : header_quality (analyze_headers (init req)) <> Good).
  { intros Hgood.
    assert (Hsig : automation_signatures (req_headers req) = []).
    { rewrite header_quality_is_grade in Hgood. unfold header_grade in Hgood.
      revert Hgood. unfold suspicious_count, analyze_headers.
      cbn [suspicious_patterns headers init]. rewrite !length_app.
      destruct (automation_signatures (req_headers req)); [reflexivity|].
      cbn [length]. intros Hgood.
      repeat match type of Hgood with
             | context [?a >? ?b] => destruct (Z.gtb_spec a b)
             end; cbn [orb] in Hgood; try discriminate Hgood; lia. }
    rewrite automation_signatures_nil in Hsig.
    unfold contains_any in Htool. cbn [existsb] in Htool.
    rewrite orb_false_r in Htool.
    apply orb_true_iff in Htool as [Hp | Htool];
      [|apply orb_true_iff in Htool as [Hc | Hw]].
    - assert (Hn : contains "python" (lower ua) = false)
        by (apply (Hsig "User-Agent" ua "Python" Hua); cbn; tauto).
      congruence.
    - assert (Hn : contains "curl" (lower ua) = false)
        by (apply (Hsig "User-Agent" ua "curl" Hua); cbn; tauto).
      congruence.
    - assert (Hn : contains "wget" (lower ua) = false)
        by (apply (Hsig "User-Agent" ua "wget" Hua); cbn; tauto).
      congruence. }
  assert (Hagent : ua_quality (analyze_user_agent (init req)) <> Good).
  { assert (Hne : user_agent (init req) <> "").
    { cbn [user_agent init].
      change (header req "User-Agent") with (req_headers req !! "User-Agent"). rewrite Hua. cbn. intros ->. vm_compute in Htool. discriminate. }
    destruct (user_agent_pattern_count (init req) Hne) as (k & _ & Hk & Hlen & ->).
    assert (Hkey : contains_any bot_keywords (lower (user_agent (init req))) = true).
    { cbn [user_agent init].
      change (header req "User-Agent") with (req_headers req !! "User-Agent"). rewrite Hua. cbn [default from_option id].
      unfold contains_any in Htool |- *. cbn [existsb bot_keywords] in Htool |- *.
      rewrite orb_false_r in Htool.
      apply orb_true_iff in Htool as [-> | Htool];
        [|apply orb_true_iff in Htool as [-> | ->]];
        rewrite ?orb_true_r; reflexivity. }
    specialize (Hk Hkey). rewrite Hlen.
    destruct (is_bot _); [discriminate|]. cbn [orb].
    repeat match goal with
           | |- context [?a >? ?b] => destruct (Z.gtb_spec a b)
           end; try discriminate. lia. }
  split; [exact Hheaders|]. split; [exact Hagent|].
  intros fp r Hr. apply analyze_inv in Hr as [Hc ->].
  apply collect_static in Hc as (_ & Hh & Hu & _).
  rewrite final_total.
  assert (25 <= WeightTable.sum (findings_of r)); [|lia].
  unfold WeightTable.sum. table_terms (findings_of r).
  rewrite Hh, Hu in *. change (analyze_headers (set_fingerprint (init req) fp))
    with (analyze_headers (init req)) in *.
  change (analyze_user_agent (set_fingerprint (init req) fp))
    with (analyze_user_agent (init req)) in *.
  destruct (header_grade_values (suspicious_count (analyze_headers (init req)))
              (missing_count (analyze_headers (init req)))) as [Hq | [Hq | Hq]];
    rewrite <- header_quality_is_grade in Hq; [| |contradiction];
  destruct (user_agent_quality_values (init req)) as [Hq' | [Hq' | Hq']];
    try contradiction;
    rewrite Hq, Hq' in *; cbn [WeightTable.header WeightTable.user_agent] in *; lia.
Qed.

End ToolUserAgent.

(** ** Automation *)

Lemma mem_str_spec (s : string) (l : list string) : mem_str s l = true <-> In s l.
Proof.
  unfold mem_str. rewrite existsb_exists. split.
  - intros (x & Hx & E). apply String.eqb_eq in E. now subst.
  - intros H. exists s. split; [exact H|apply String.eqb_refl].
Qed.

Lemma automation_grade_low (n : nat) :
  automation_grade (Z.of_nat n) = Low <-> n = 0%nat.
Proof.
  unfold automation_grade.
  destruct (Z.gtb_spec (Z.of_nat n) 3), (Z.gtb_spec (Z.of_nat n) 1),
    (Z.gtb_spec (Z.of_nat n) 0); split; intros; try discriminate; try reflexivity; lia.
Qed.

(** What the loop over [automation_checks] keeps: the tools stay
    distinct, every new tool comes with a new indicator, and each check
    adds at most one indicator. *)
Lemma automation_properties_invariant (m : gmap string value)
    (checks : list (string * string)) :
  forall acc out,
    automation_properties (VDict m) checks acc = Ok out ->
    NoDup acc.2 ->
    NoDup out.2 /\
    (forall t, In t acc.2 -> In t out.2) /\
    (length acc.1 <= length out.1)%nat /\
    (length out.1 <= length acc.1 + length checks)%nat /\
    (length out.2 + length acc.1 <= length acc.2 + length out.1)%nat.
Proof.
  induction checks as [|[prop tool] checks IH]; intros acc out; cbn [automation_properties].
  - intros [= <-] Hnd. repeat split; auto; cbn [length]; lia.
  - cbn [get bind]. intros Hout Hnd. apply IH in Hout.
    + destruct (truthy (default VNone (m !! prop))); cbn [fst snd length] in *.
      * destruct (mem_str tool acc.2) eqn:Hmem; cbn [fst snd] in Hout;
          rewrite ?length_app in Hout; cbn [length] in Hout;
          destruct Hout as (H1 & H2 & H3 & H4 & H5); repeat split; auto; try lia.
        intros t Ht. apply H2, in_or_app. now left.
      * destruct Hout as (H1 & H2 & H3 & H4 & H5). repeat split; auto; lia.
    + destruct (truthy (default VNone (m !! prop))); cbn [fst snd]; [|exact Hnd].
      destruct (mem_str tool acc.2) eqn:Hmem; [exact Hnd|].
      apply NoDup_app. split; [exact Hnd|]. split; [|apply NoDup_singleton].
      intros x Hx Hx'. apply list_elem_of_In in Hx. apply list_elem_of_In in Hx'.
      destruct Hx' as [<- | []].
      apply mem_str_spec in Hx. congruence.
Qed.

(** X9.  On every payload that is a dict, whatever the types of its
    values, [detect_automation] completes; the tools it names are
    pairwise distinct and never more than the indicators, there are at
    most thirteen indicators, the confidence is 'low' exactly when there
    is none, and a truthy webdriver entry names 'Selenium/WebDriver' and
    excludes 'low'. *)
Theorem detect_automation_invariants (self : analyzer) (m : gmap string value) :
  exists d, detect_automation (with_payload self (VDict m)) = Ok d /\
    NoDup (automation_type d) /\
    (length (automation_type d) <= length (automation_indicators d))%nat /\
    (length (automation_indicators d) <= 13)%nat /\
    (automation_confidence d = Low <-> automation_indicators d = []) /\
    (truthy (default VNone (m !! "webdriver")) = true ->
       In "Selenium/WebDriver" (automation_type d) /\ automation_confidence d <> Low).
Proof.
  unfold detect_automation. cbn [fingerprint with_payload]. cbn [get bind].
  set (acc := (when (truthy (default VNone (m !! "webdriver")))
                    (Indicator "Navigator.webdriver = true" "navigator.webdriver"),
               when (truthy (default VNone (m !! "webdriver"))) "Selenium/WebDriver")).
  destruct (automation_properties_dict m automation_checks acc) as [out Hout].
  rewrite Hout. cbn [bind].
  assert (Hnd : NoDup acc.2).
  { subst acc. cbn [snd]. destruct (truthy _); cbn [when];
      [apply NoDup_singleton|apply NoDup_nil_2]. }
  destruct (automation_properties_invariant m automation_checks acc out Hout Hnd)
    as (H1 & H2 & H3 & H4 & H5).
  assert (Hacc : length acc.1 = length acc.2 /\ (length acc.1 <= 1)%nat).
  { subst acc. cbn [fst snd]. destruct (truthy _); cbn; lia. }
  cbn [automation_checks length] in H4.
  set (runtime := match truthy (default VNone (m !! "chrome")) with
                  | true => _ | false => _ end).
  assert (Hrt : exists b, runtime = Ok b).
  { subst runtime. destruct (truthy (default VNone (m !! "chrome"))); eexists; reflexivity. }
  destruct Hrt as [b ->]. cbn [bind].
  eexists. split; [reflexivity|].
  cbn [automation_type automation_indicators automation_confidence].
  repeat split.
  - exact H1.
  - rewrite !length_app. lia.
  - rewrite !length_app.
    destruct b, (truthy (default VNone (m !! "permissions_query_unavailable"))),
      (eq_str (default VNone (m !! "notification_permission")) "denied");
      cbn [when length]; lia.
  - intros Hlow. apply automation_grade_low in Hlow. now apply length_zero_iff_nil.
  - intros E. apply automation_grade_low. now rewrite E.
  - apply H2. subst acc. cbn [snd]. rewrite H. cbn. now left.
  - intros Hlow. apply automation_grade_low in Hlow. rewrite !length_app in Hlow.
    subst acc. cbn [fst] in H3. rewrite H in H3. cbn in H3. lia.
Qed.

(** ** Consistency checks *)

Section Consistency.
Context `{rt : Runtime}.

Lemma os_check_records (self : analyzer) (c c' : consistency) :
  check_os self c = Ok c' ->
  c' = c \/ records "OS Consistency" [Passed; Failed] c c'.
Proof.
  unfold check_os, records. destruct (get _ _ _) as [platform|]; [|discriminate].
  cbn [bind]. destruct (truthy platform); [|intros [= <-]; now left].
  destruct (str_lower platform) as [p|]; [|discriminate]. cbn [bind].
  repeat match goal with |- context [if ?b then _ else _] => destruct b end;
    intros [= <-]; right; eexists; (split; [|reflexivity]); cbn; tauto.
Qed.

Lemma language_check_records (self : analyzer) (c c' : consistency) :
  check_language self c = Ok c' ->
  c' = c \/ records "Language Consistency" [Passed; Warning] c c'.
Proof.
  unfold check_language, records. destruct (get _ _ _) as [language|]; [|discriminate].
  cbn [bind]. destruct (_ && _); [|intros [= <-]; now left].
  destruct (str_split_first _ language) as [p|]; [|discriminate]. cbn [bind].
  repeat match goal with |- context [if ?b then _ else _] => destruct b end;
    intros [= <-]; right; eexists; (split; [|reflexivity]); cbn; tauto.
Qed.

Lemma timezone_check_records (self : analyzer) (c c' : consistency) :
  check_timezone self c = Ok c' ->
  c' = c \/ records "Timezone Validation" [Passed; Failed] c c'.
Proof.
  unfold check_timezone, records. destruct (get _ _ _) as [offset|]; [|discriminate].
  cbn [bind]. destruct (negb _); [|intros [= <-]; now left].
  destruct (lt_int offset (-720)) as [[]|]; [| |discriminate]; cbn [bind].
  - intros [= <-]; right; eexists; (split; [|reflexivity]); cbn; tauto.
  - destruct (gt_int offset 840) as [[]|]; [| |discriminate]; cbn [bind];
      intros [= <-]; right; eexists; (split; [|reflexivity]); cbn; tauto.
Qed.

Lemma hardware_check_records (self : analyzer) (c c' : consistency) :
  check_hardware self c = Ok c' ->
  records "Hardware Concurrency" [Passed; Failed; Warning] c c'.
Proof.
  unfold check_hardware, records. destruct (get _ _ _) as [cores|]; [|discriminate].
  cbn [bind]. destruct (eq_int cores 0).
  - intros [= <-]; eexists; (split; [|reflexivity]); cbn; tauto.
  - destruct (gt_int cores 32) as [[]|]; [| |discriminate]; cbn [bind];
      intros [= <-]; eexists; (split; [|reflexivity]); cbn; tauto.
Qed.

(** X10.  The tally of [check_consistency]: each of the three counters
    is the number of recorded checks with that status, so they add up to
    the number of checks; between one and four checks are recorded, under
    distinct names, the hardware check always among them; at most three
    fail and at most two warn, so the aggregator's 'more than two
    failures' means that the OS, timezone and hardware checks all
    failed. *)
Theorem consistency_tally (self : analyzer) (c : consistency) :
  check_consistency self = Ok c ->
  passed c = count_status Passed c /\
  failed c = count_status Failed c /\
  warnings c = count_status Warning c /\
  passed c + failed c + warnings c = Z.of_nat (length (checks c)) /\
  (1 <= length (checks c) <= 4)%nat /\
  NoDup (map check_name (checks c)) /\
  In "Hardware Concurrency" (map check_name (checks c)) /\
  failed c <= 3 /\ warnings c <= 2 /\
  (failed c > 2 ->
     In (Check "OS Consistency" Failed) (checks c) /\
     In (Check "Timezone Validation" Failed) (checks c) /\
     In (Check "Hardware Concurrency" Failed) (checks c)).
Proof.
  unfold check_consistency.
  destruct (check_os self _) as [c1|] eqn:H1; [|discriminate]. cbn [bind].
  destruct (check_language self c1) as [c2|] eqn:H2; [|discriminate]. cbn [bind].
  destruct (check_timezone self c2) as [c3|] eqn:H3; [|discriminate]. cbn [bind].
  intros H4.
  apply os_check_records in H1. apply language_check_records in H2.
  apply timezone_check_records in H3. apply hardware_check_records in H4.
  unfold records in *.
  destruct H4 as (s4 & Hs4 & ->).
  destruct H3 as [-> | (s3 & Hs3 & ->)];
  destruct H2 as [-> | (s2 & Hs2 & ->)];
  destruct H1 as [-> | (s1 & Hs1 & ->)];
  cbn [In] in *;
  repeat match goal with
         | H : _ \/ _ |- _ => destruct H as [<- | H]
         | H : False |- _ => destruct H
         end;
  (split; [reflexivity|]); (split; [reflexivity|]); (split; [reflexivity|]);
  (split; [reflexivity|]); (split; [cbn; lia|]);
  (split; [apply (bool_decide_unpack _); vm_compute; exact I|]);
  (split; [cbn; tauto|]);
  (split; [vm_compute; discriminate|]); (split; [vm_compute; discriminate|]);
  intros Hf; vm_compute in Hf; try discriminate Hf;
  repeat split; cbn; repeat (first [left; reflexivity | right]).
Qed.

Lemma consistency_steps (self : analyzer) (c : consistency) :
  check_consistency self = Ok c ->
  exists c1 c2 c3,
    (c1 = {| checks := []; passed := 0; failed := 0; warnings := 0 |} \/
     records "OS Consistency" [Passed; Failed]
       {| checks := []; passed := 0; failed := 0; warnings := 0 |} c1) /\
    (c2 = c1 \/ records "Language Consistency" [Passed; Warning] c1 c2) /\
    check_timezone self c2 = Ok c3 /\
    check_hardware self c3 = Ok c.
Proof.
  unfold check_consistency.
  destruct (check_os self _) as [c1|] eqn:H1; [|discriminate]. cbn [bind].
  destruct (check_language self c1) as [c2|] eqn:H2; [|discriminate]. cbn [bind].
  destruct (check_timezone self c2) as [c3|] eqn:H3; [|discriminate]. cbn [bind].
  intros H4. exists c1, c2, c3.
  apply os_check_records in H1. apply language_check_records in H2. tauto.
Qed.

(** X11.  The timezone check of a completed run: an absent or null
    offset records nothing; an integer offset passes exactly between
    -720 and 840 minutes, zero included; and the entry was a number or
    null, since any other type raises. *)
Theorem timezone_offset_validation (self : analyzer) (m : gmap string value)
    (c : consistency) :
  check_consistency (with_payload self (VDict m)) = Ok c ->
  is_number_or_null (default VNone (m !! "timezone_offset")) = true /\
  (default VNone (m !! "timezone_offset") = VNone ->
     ~ In "Timezone Validation" (map check_name (checks c))) /\
  (forall z, m !! "timezone_offset" = Some (VInt z) ->
     In (Check "Timezone Validation"
           (if (-720 <=? z) && (z <=? 840) then Passed else Failed)) (checks c)).
Proof.
  intros H. destruct (consistency_steps _ _ H) as (c1 & c2 & c3 & H1 & H2 & H3 & H4).
  apply hardware_check_records in H4. destruct H4 as (s4 & Hs4 & ->).
  unfold check_timezone in H3. cbn [fingerprint with_payload get bind] in H3.
  destruct (default VNone (m !! "timezone_offset")) as [|b|z|f|s|l|d] eqn:E;
    cbn [is_none negb] in H3; unfold lt_int, gt_int, lift in H3; cbn [cmp_int bind] in H3;
    try discriminate H3.
  - (* null *)
    injection H3 as <-. split; [reflexivity|]. split.
    + intros _. unfold records in *.
      destruct H2 as [-> | (s2 & Hs2 & ->)]; destruct H1 as [-> | (s1 & Hs1 & ->)];
        cbn; intros Hin; repeat destruct Hin as [Hin | Hin]; try discriminate Hin; exact Hin.
    + intros z Hz. rewrite Hz in E. discriminate E.
  - (* a boolean *)
    split; [reflexivity|]. split; [discriminate|].
    intros z Hz. rewrite Hz in E. discriminate E.
  - (* an integer *)
    split; [reflexivity|]. split; [discriminate|].
    intros z' Hz. rewrite Hz in E. cbn in E. injection E as ->.
    cbn [checks record_check]. apply in_or_app. left.
    assert (Hc3 : exists l, checks c3 = l ++ [Check "Timezone Validation"
              (if (-720 <=? z) && (z <=? 840) then Passed else Failed)]).
    { destruct (Z.compare_spec z (-720)), (Z.compare_spec z 840);
        cbn [is_lt is_gt] in H3; injection H3 as <-; cbn [checks record_check];
        eexists; f_equal; f_equal; f_equal;
        destruct (Z.leb_spec (-720) z), (Z.leb_spec z 840); try reflexivity; lia. }
    destruct Hc3 as [l ->]. apply in_or_app. right. now left.
  - (* a float *)
    split; [reflexivity|]. split; [discriminate|].
    intros z Hz. rewrite Hz in E. discriminate E.
Qed.

(** X12.  The hardware check is always recorded, last.  It fails
    exactly when the reported core count equals zero, which includes a
    payload without the entry; every such run has a failed check and
    gets at least 5 points for it.  An integer count warns above 32 and
    passes otherwise, negative counts included. *)
Theorem hardware_concurrency_validation (self : analyzer) (m : gmap string value)
    (c : consistency) :
  check_consistency (with_payload self (VDict m)) = Ok c ->
  let cores := default (VInt 0) (m !! "hardware_concurrency") in
  exists st, last (checks c) = Some (Check "Hardware Concurrency" st) /\
    (st = Failed <-> eq_int cores 0 = true) /\
    (forall z, cores = VInt z ->
       st = if z =? 0 then Failed else if z >? 32 then Warning else Passed) /\
    (eq_int cores 0 = true ->
       1 <= failed c /\ 5 <= WeightTable.consistency_failures (failed c)).
Proof.
  intros H cores. destruct (consistency_steps _ _ H) as (c1 & c2 & c3 & H1 & H2 & H3 & H4).
  apply timezone_check_records in H3.
  assert (Hf : 0 <= failed c3).
  { unfold records in *.
    destruct H3 as [-> | (s3 & Hs3 & ->)]; destruct H2 as [-> | (s2 & Hs2 & ->)];
      destruct H1 as [-> | (s1 & Hs1 & ->)]; cbn [In] in *;
      repeat match goal with
             | H : _ \/ _ |- _ => destruct H as [<- | H]
             | H : False |- _ => destruct H
             end; vm_compute; discriminate. }
  unfold check_hardware in H4. cbn [fingerprint with_payload get bind] in H4.
  fold cores in H4.
  destruct (eq_int cores 0) eqn:E0.
  - injection H4 as <-. exists Failed. cbn [checks record_check failed].
    rewrite last_snoc. split; [reflexivity|]. split; [tauto|]. split.
    + intros z Hz. rewrite Hz in E0. cbn in E0. now rewrite E0.
    + intros _. change (label_eqb Failed Failed) with true.
      unfold WeightTable.consistency_failures.
      destruct (Z.ltb_spec 2 (failed c3 + 1)), (Z.ltb_spec 0 (failed c3 + 1)); lia.
  - destruct (gt_int cores 32) as [many|] eqn:E32; [|discriminate H4]. cbn [bind] in H4.
    exists (if many then Warning else Passed).
    destruct many; injection H4 as <-; cbn [checks record_check]; rewrite last_snoc;
      (split; [reflexivity|]); (split; [split; discriminate|]);
      (split; [|discriminate]);
      intros z Hz; rewrite Hz in E0, E32; cbn in E0, E32; rewrite E0;
      injection E32 as E32; revert E32; unfold is_gt, Z.gtb;
      destruct (z ?= 32); congruence.
Qed.

End Consistency.

(** ** Proxy detection *)

Lemma listed_header_found (hdrs : gmap string string) (k : string) :
  In k proxy_header_names -> has_key hdrs k = true ->
  (1 <= length (List.filter (has_key hdrs) proxy_header_names))%nat.
Proof.
  intros Hin Hk.
  assert (H : In k (List.filter (has_key hdrs) proxy_header_names))
    by (apply filter_In; split; assumption).
  destruct (List.filter _ _); [destruct H|cbn; lia].
Qed.

Lemma chain_has_header (hdrs : gmap string string) :
  contains "," (default "" (hdrs !! "X-Forwarded-For")) = true ->
  has_key hdrs "X-Forwarded-For" = true.
Proof.
  unfold has_key. destruct (hdrs !! "X-Forwarded-For") eqn:E; cbn.
  - intros _. first [reflexivity | apply bool_decide_eq_true; eauto].
  - discriminate.
Qed.

(** The shape of every completed run of [detect_proxy_vpn]. *)
Lemma proxy_shape (self : analyzer) (d : proxy_detection) :
  detect_proxy_vpn self = Ok d ->
  exists payload : list indicator,
    (length payload <= 5)%nat /\
    d = let found := List.filter (has_key (headers self)) proxy_header_names in
        let chain := contains "," (default "" (headers self !! "X-Forwarded-For")) in
        let via := has_key (headers self) "Via" in
        let indicators :=
          map (Indicator "Proxy header present") found ++
          when chain (Indicator "Multiple IPs in proxy chain" "X-Forwarded-For") ++
          when via (Indicator "Via header indicates explicit proxy" "Via") ++
          payload in
        {| proxy_indicators := indicators;
           proxy_headers_found := found;
           proxy_risk_level := proxy_grade (Z.of_nat (length indicators)) (chain || via);
           is_proxy_likely := chain || via |}.
Proof.
  unfold detect_proxy_vpn.
  destruct (get (fingerprint self) "ip_info" VNone) as [ip_info|]; [|discriminate].
  cbn [bind].
  match goal with
  | |- bind ?m _ = _ -> _ => destruct m as [reputation|] eqn:Hrep; [|discriminate]
  end.
  cbn [bind].
  destruct (get (fingerprint self) "webrtc_ips" (VList [])) as [webrtc_ips|]; [|discriminate].
  cbn [bind].
  match goal with
  | |- bind ?m _ = _ -> _ => destruct m as [leak|] eqn:Hleak; [|discriminate]
  end.
  cbn [bind]. intros [= <-].
  assert (H4 : (length reputation <= 4)%nat).
  { destruct (truthy ip_info); [|injection Hrep as <-; cbn; lia].
    destruct (get ip_info "is_datacenter" VNone) as [a|]; [|discriminate].
    destruct (get ip_info "is_vpn" VNone) as [b|]; [|discriminate].
    destruct (get ip_info "is_proxy" VNone) as [c|]; [|discriminate].
    destruct (get ip_info "is_tor" VNone) as [e|]; [|discriminate].
    cbn [bind] in Hrep. injection Hrep as <-.
    destruct (truthy a), (truthy b), (truthy c), (truthy e); cbn; lia. }
  assert (H1 : (length leak <= 1)%nat).
  { destruct (truthy webrtc_ips); [|injection Hleak as <-; cbn; lia].
    destruct (len webrtc_ips) as [n|]; [|discriminate]. cbn [bind] in Hleak.
    destruct (n >? 0); [|injection Hleak as <-; cbn; lia].
    destruct (contains_atom _ _) as [listed|]; [|discriminate]. cbn [bind] in Hleak.
    destruct listed; cbn [negb] in Hleak; [injection Hleak as <-; cbn; lia|].
    destruct (join_check webrtc_ips); [|discriminate]. cbn [bind] in Hleak.
    injection Hleak as <-. cbn; lia. }
  exists (reputation ++ leak). split; [rewrite length_app; lia|]. reflexivity.
Qed.

(** X13.  In every completed run of [detect_proxy_vpn] a proxy is
    'likely' exactly when X-Forwarded-For holds a comma or a Via header
    is present; then at least two indicators are listed and the risk is
    'high'.  The risk is 'none' exactly when nothing is listed; there
    are at least as many indicators as forwarding headers found, and at
    most fourteen. *)
Theorem proxy_likely_is_high (self : analyzer) (d : proxy_detection) :
  detect_proxy_vpn self = Ok d ->
  (is_proxy_likely d = true <->
     contains "," (default "" (headers self !! "X-Forwarded-For")) = true \/
     is_Some (headers self !! "Via")) /\
  (is_proxy_likely d = true ->
     proxy_risk_level d = High /\ (2 <= length (proxy_indicators d))%nat) /\
  (proxy_risk_level d = NoRisk <-> proxy_indicators d = []) /\
  (length (proxy_headers_found d) <= length (proxy_indicators d) <= 14)%nat.
Proof.
  intros H. destruct (proxy_shape self d H) as (payload & Hp & ->). cbv zeta.
  cbn [is_proxy_likely proxy_risk_level proxy_indicators proxy_headers_found].
  set (hdrs := headers self) in *.
  set (found := List.filter (has_key hdrs) proxy_header_names).
  set (chain := contains "," (default "" (hdrs !! "X-Forwarded-For"))).
  assert (Hfound : (length found <= 7)%nat) by apply (filter_length_le _ proxy_header_names).
  assert (Hchain : chain = true -> (1 <= length found)%nat).
  { intros Hc. apply (listed_header_found hdrs "X-Forwarded-For");
      [cbn; tauto|now apply chain_has_header]. }
  assert (Hvia : has_key hdrs "Via" = true -> (1 <= length found)%nat).
  { intros Hv. apply (listed_header_found hdrs "Via"); [cbn; tauto|exact Hv]. }
  rewrite !length_app, length_map.
  split; [|split; [|split]].
  - rewrite orb_true_iff. unfold has_key. rewrite bool_decide_eq_true. tauto.
  - intros Hl. unfold proxy_grade. rewrite Hl, orb_true_r. split; [reflexivity|].
    apply orb_true_iff in Hl.
    destruct chain, (has_key hdrs "Via"); cbn [when length];
      destruct Hl as [Hl|Hl]; try discriminate Hl;
      try specialize (Hchain eq_refl); try specialize (Hvia eq_refl); lia.
  - unfold proxy_grade. split.
    + intros Hn.
      destruct (Z.gtb_spec (Z.of_nat (length found + (length (when chain
                  (Indicator "Multiple IPs in proxy chain" "X-Forwarded-For")) +
                  (length (when (has_key hdrs "Via")
                     (Indicator "Via header indicates explicit proxy" "Via")) +
                   length payload)))) 3); cbn [orb] in Hn; [discriminate|].
      destruct chain, (has_key hdrs "Via"); cbn [orb] in Hn; try discriminate Hn.
      cbn [when length app] in *.
      repeat match type of Hn with
             | context [?a >? ?b] => destruct (Z.gtb_spec a b)
             end; try discriminate Hn.
      destruct found, payload; cbn [length] in *; try lia. reflexivity.
    + intros E. apply (f_equal (@length indicator)) in E.
      rewrite !length_app, length_map in E. cbn [length] in E.
      destruct chain; [specialize (Hchain eq_refl); cbn in E; lia|].
      destruct (has_key hdrs "Via"); [specialize (Hvia eq_refl); cbn in E; lia|].
      cbn [orb when length] in *.
      repeat match goal with
             | |- context [?a >? ?b] => destruct (Z.gtb_spec a b)
             end; try reflexivity; lia.
  - destruct chain, (has_key hdrs "Via"); cbn [when length]; lia.
Qed.

(** *** The names of the copied headers *)

Lemma title_char_letter (inside : bool) (c : ascii) :
  is_letter (title_char inside c) = is_letter c.
Proof.
  destruct inside; destruct c as [[] [] [] [] [] [] [] []]; reflexivity.
Qed.

Lemma title_char_idempotent (inside : bool) (c : ascii) :
  title_char inside (title_char inside c) = title_char inside c.
Proof.
  destruct inside; destruct c as [[] [] [] [] [] [] [] []]; reflexivity.
Qed.

Lemma title_from_idempotent (s : string) :
  forall inside, title_from inside (title_from inside s) = title_from inside s.
Proof.
  induction s as [|c s IH]; intros inside; cbn [title_from]; [reflexivity|].
  now rewrite title_char_idempotent, title_char_letter, IH.
Qed.

Lemma title_idempotent (s : string) : title (title s) = title s.
Proof. apply title_from_idempotent. Qed.

(** Every key of [request.headers], and so of the copy [self.headers],
    is a title-cased name. *)
Lemma copied_names_titled (req : request) (k : string) :
  is_Some (req_headers req !! k) -> title k = k.
Proof.
  intros [v Hv]. unfold req_headers in Hv.
  apply elem_of_list_to_map_2, list_elem_of_fmap in Hv.
  destruct Hv as ([k' v'] & [= -> ->] & _). cbn [fst]. apply title_idempotent.
Qed.

(** A name the source spells otherwise is never among them. *)
Lemma recased_name_not_copied (req : request) (k : string) :
  title k <> k -> has_key (req_headers req) k = false.
Proof.
  intros Hk. apply has_key_false. destruct (req_headers req !! k) eqn:E; [|reflexivity].
  exfalso. apply Hk, (copied_names_titled req). eauto.
Qed.

(** The forwarding names [detect_proxy_vpn] can find in the copy. *)
Lemma forwarding_names_found (req : request) :
  List.filter (has_key (req_headers req)) proxy_header_names =
  List.filter (has_key (req_headers req))
    ["X-Forwarded-For"; "Via"; "Forwarded"; "X-Forwarded-Proto"].
Proof.
  unfold proxy_header_names. cbn [List.filter].
  rewrite (recased_name_not_copied req "X-Real-IP") by discriminate.
  rewrite (recased_name_not_copied req "X-Proxy-ID") by discriminate.
  rewrite (recased_name_not_copied req "CF-Connecting-IP") by discriminate.
  reflexivity.
Qed.

(** X14.  [self.headers] is the copy [dict(request.headers)], whose keys
    are title-cased: a field sent as X-Real-IP, X-Proxy-ID or
    CF-Connecting-IP is there under another spelling and the proxy
    detector never finds it.  So when the payload adds nothing (no
    address reputation, no WebRTC addresses), X-Forwarded-For holds a
    single address and no Via header is sent, only X-Forwarded-For,
    Forwarded and X-Forwarded-Proto can be found, and their number
    decides: none or one adds nothing to the score, two or three add
    10, and the risk is never 'high'. *)
Theorem forwarding_headers_alone (req : request) (m : gmap string value) :
  truthy (default VNone (m !! "ip_info")) = false ->
  truthy (default (VList []) (m !! "webrtc_ips")) = false ->
  contains "," (default "" (header req "X-Forwarded-For")) = false ->
  header req "Via" = None ->
  exists d, detect_proxy_vpn (with_payload (init req) (VDict m)) = Ok d /\
    let n := length (proxy_headers_found d) in
    proxy_indicators d = map (Indicator "Proxy header present") (proxy_headers_found d) /\
    is_proxy_likely d = false /\
    (forall k, In k (proxy_headers_found d) ->
       In k ["X-Forwarded-For"; "Forwarded"; "X-Forwarded-Proto"]) /\
    (forall k, In k ["X-Real-IP"; "X-Proxy-ID"; "CF-Connecting-IP"] ->
       ~ In k (proxy_headers_found d)) /\
    (n <= 3)%nat /\
    proxy_risk_level d <> High /\
    (WeightTable.proxy (proxy_risk_level d) = 0 <-> (n <= 1)%nat) /\
    (WeightTable.proxy (proxy_risk_level d) = 10 <-> (2 <= n)%nat).
Proof.
  intros Hinfo Hrtc Hchain Hvia.
  change (header req "X-Forwarded-For") with (req_headers req !! "X-Forwarded-For") in Hchain.
  change (header req "Via") with (req_headers req !! "Via") in Hvia.
  unfold detect_proxy_vpn. cbn [fingerprint headers with_payload init].
  cbn [get bind]. rewrite Hinfo, Hrtc. cbn [bind].
  rewrite Hchain.
  assert (Hv : has_key (req_headers req) "Via" = false).
  { unfold has_key. rewrite Hvia. reflexivity. }
  rewrite Hv. cbn [when orb app]. rewrite !app_nil_r.
  eexists. split; [reflexivity|]. cbv zeta.
  cbn [proxy_indicators proxy_headers_found proxy_risk_level is_proxy_likely].
  rewrite length_map, forwarding_names_found. cbn [List.filter]. rewrite Hv.
  set (found := (if has_key (req_headers req) "X-Forwarded-For" then _ else _)).
  assert (Hsub : forall k, In k found ->
                   In k ["X-Forwarded-For"; "Forwarded"; "X-Forwarded-Proto"]).
  { subst found. intros k.
    destruct (has_key (req_headers req) "X-Forwarded-For"),
      (has_key (req_headers req) "Forwarded"),
      (has_key (req_headers req) "X-Forwarded-Proto"); cbn [In]; tauto. }
  assert (Hn : (length found <= 3)%nat).
  { subst found.
    destruct (has_key (req_headers req) "X-Forwarded-For"),
      (has_key (req_headers req) "Forwarded"),
      (has_key (req_headers req) "X-Forwarded-Proto"); cbn [length]; lia. }
  split; [reflexivity|]. split; [reflexivity|]. split; [exact Hsub|].
  split.
  { intros k Hk Hin. apply Hsub in Hin. cbn [In] in Hk, Hin.
    destruct Hk as [<- | [<- | [<- | []]]];
      destruct Hin as [Hin | [Hin | [Hin | []]]]; discriminate Hin. }
  split; [exact Hn|].
  unfold proxy_grade. cbn [orb].
  destruct (Z.gtb_spec (Z.of_nat (length found)) 3); [lia|].
  destruct (Z.gtb_spec (Z.of_nat (length found)) 1),
    (Z.gtb_spec (Z.of_nat (length found)) 0);
    cbn [WeightTable.proxy]; repeat split; intros; try discriminate; lia.
Qed.

(** ** Behavior *)

(** The order of a float against two integer bounds. *)
Lemma cmp_float_Z_mono (f : spec_float) (a b : Z) :
  a <= b ->
  (cmp_float_Z f b = Some Gt -> cmp_float_Z f a = Some Gt) /\
  (cmp_float_Z f a = Some Lt -> cmp_float_Z f b = Some Lt) /\
  (cmp_float_Z f a = Some Eq -> a < b -> cmp_float_Z f b = Some Lt).
Proof.
  intros Hab. destruct f as [s|s| |s m e]; cbn [cmp_float_Z].
  - destruct (Z.compare_spec 0 a), (Z.compare_spec 0 b);
      repeat split; intros; try discriminate; try reflexivity; lia.
  - destruct s; repeat split; intros; try discriminate; reflexivity.
  - repeat split; discriminate.
  - set (sm := if s then Z.neg m else Z.pos m).
    destruct (Z.leb_spec 0 e).
    + destruct (Z.compare_spec (sm * 2 ^ e) a), (Z.compare_spec (sm * 2 ^ e) b);
        repeat split; intros; try discriminate; try reflexivity; lia.
    + assert (0 < 2 ^ (- e)) by (apply Z.pow_pos_nonneg; lia).
      destruct (Z.compare_spec sm (a * 2 ^ (- e))), (Z.compare_spec sm (b * 2 ^ (- e)));
        repeat split; intros; try discriminate; try reflexivity; nia.
Qed.

Lemma float_gt_not_lt (f : spec_float) (a b : Z) :
  a <= b -> float_gt f b = true -> float_lt f a = false.
Proof.
  intros Hab. unfold float_gt, float_lt, is_gt, is_lt.
  destruct (cmp_float_Z_mono f a b Hab) as (Hgt & _ & _).
  destruct (cmp_float_Z f b) as [[]|]; try discriminate. intros _.
  now rewrite (Hgt eq_refl).
Qed.

Lemma low_likelihood_has_indicator (mouse : option mouse_analysis)
    (click : option click_analysis) :
  likelihood mouse click = Low ->
  truthy_str (mouse_indicator mouse) = true \/ truthy_str (click_indicator click) = true.
Proof.
  unfold likelihood.
  destruct (truthy_str (mouse_indicator mouse)); [now left|].
  destruct (truthy_str (click_indicator click)); [now right|].
  destruct (mouse_curves mouse);
    destruct (match click with Some a => float_gt (rhythm_variance a) 100 | None => false end);
    cbn; discriminate.
Qed.

Section Behavior.
Context `{rt : Runtime}.

(** A number equal to zero converts to a float that is below every
    positive bound. *)
Lemma zero_as_float (v : value) :
  eq_int v 0 = true ->
  exists f, float v = Ok f /\ float_eq f 0 = true /\
            float_lt f 50 = true /\ float_gt f 100 = false /\ float_gt f 3000 = false.
Proof.
  destruct v as [|b|z|f|s|l|d]; cbn [eq_int]; try discriminate.
  - destruct b; [discriminate|]. intros _. eexists. split; [reflexivity|].
    repeat split; reflexivity.
  - intros Hz. apply Z.eqb_eq in Hz. subst z. eexists. split; [reflexivity|].
    repeat split; reflexivity.
  - intros Hf. exists f. split; [reflexivity|].
    assert (Heq : cmp_float_Z f 0 = Some Eq).
    { destruct (cmp_float_Z f 0) as [[]|]; try discriminate; reflexivity. }
    unfold float_eq, float_lt, float_gt. rewrite Heq.
    destruct (cmp_float_Z_mono f 0 50 ltac:(lia)) as (_ & _ & H50).
    destruct (cmp_float_Z_mono f 0 100 ltac:(lia)) as (_ & _ & H100).
    destruct (cmp_float_Z_mono f 0 3000 ltac:(lia)) as (_ & _ & H3000).
    rewrite (H50 Heq), (H100 Heq), (H3000 Heq) by lia. repeat split; reflexivity.
Qed.

Lemma advanced_shape (self : analyzer) (a : advanced_behavioral) :
  analyze_advanced_behavioral self = Ok a ->
  analyze_mouse (fingerprint self) = Ok (mouse_behavior a) /\
  analyze_click (fingerprint self) = Ok (click_behavior a) /\
  human_likelihood a = likelihood (mouse_behavior a) (click_behavior a).
Proof.
  unfold analyze_advanced_behavioral.
  destruct (analyze_mouse _) as [mouse|]; [|discriminate].
  destruct (analyze_click _) as [click|]; [|discriminate].
  destruct (analyze_scroll _) as [scroll|]; [|discriminate].
  destruct (analyze_keyboard _) as [keyboard|]; [|discriminate].
  cbn [bind]. intros [= <-]. repeat split.
Qed.

(** X15.  A completed analysis whose behavior is graded 'low' human
    likelihood always carries a mouse or a click bot indicator as well:
    the 20 points of 'Bot-like behavior patterns' never come alone, the
    total is at least 30 and the risk level at least 'medium'. *)
Theorem bot_like_behavior_scores_thirty (self : analyzer) (fp : value) (r : results) :
  analyze self fp = Ok r ->
  human_likelihood (advanced_behavioral_of (findings_of r)) = Low ->
  (mouse_indicator (mouse_behavior (advanced_behavioral_of (findings_of r))) <> None \/
   click_indicator (click_behavior (advanced_behavioral_of (findings_of r))) <> None) /\
  30 <= total_score (risk_assessment r) /\
  In "Bot-like behavior patterns" (red_flags (risk_assessment r)) /\
  (2 <= length (red_flags (risk_assessment r)))%nat /\
  risk_level (risk_assessment r) <> Minimal /\
  risk_level (risk_assessment r) <> Low.
Proof.
  intros Hr Hq. destruct (analyze_inv _ _ _ Hr) as [Hc ->].
  set (res := findings_of r) in *.
  destruct (collect_inv _ _ Hc) as (_ & _ & _ & _ & _ & _ & Hadv & _).
  destruct (advanced_shape _ _ Hadv) as (_ & _ & Hl).
  pose proof Hq as Hlow. rewrite Hl in Hlow. apply low_likelihood_has_indicator in Hlow.
  assert (Hind : mouse_indicator (mouse_behavior (advanced_behavioral_of res)) <> None \/
                 click_indicator (click_behavior (advanced_behavioral_of res)) <> None).
  { destruct Hlow as [HL|HL]; [left|right]; intros E; rewrite E in HL; discriminate HL. }
  split; [exact Hind|].
  assert (Hsum : 30 <= WeightTable.sum res).
  { unfold WeightTable.sum. table_terms res. rewrite Hq in *.
    cbn [WeightTable.behavior] in *.
    destruct Hlow as [HL|HL]; rewrite HL in *; cbn [WeightTable.present] in *; lia. }
  assert (Htotal : 30 <= total_score (calculate_risk_score res)) by (rewrite final_total; lia).
  assert (Hflag : In "Bot-like behavior patterns" (red_flags (calculate_risk_score res))).
  { unfold calculate_risk_score. rewrite closing_keeps_flags.
    apply (flag_stays res "Bot-like behavior patterns" score_behavior); auto.
    - cbn; tauto.
    - intros r0. unfold score_behavior. rewrite Hq.
      replace (label_eqb Low Low) with true by reflexivity.
      cbn [red_flag red_flags]. apply in_or_app. right. now left. }
  assert (Hother : exists flag, flag <> "Bot-like behavior patterns" /\
                     In flag (red_flags (calculate_risk_score res))).
  { unfold calculate_risk_score. rewrite closing_keeps_flags.
    destruct Hlow as [HL|HL].
    - exists ("Mouse: " +:+ default "" (mouse_indicator (mouse_behavior
                                                          (advanced_behavioral_of res)))).
      split; [discriminate|].
      apply (flag_stays res _ score_mouse); auto; [cbn; tauto|].
      intros r0. unfold score_mouse. rewrite HL.
      cbn [red_flag red_flags]. apply in_or_app. right. now left.
    - exists ("Click: " +:+ default "" (click_indicator (click_behavior
                                                          (advanced_behavioral_of res)))).
      split; [discriminate|].
      apply (flag_stays res _ score_click); auto; [cbn; tauto|].
      intros r0. unfold score_click. rewrite HL.
      cbn [red_flag red_flags]. apply in_or_app. right. now left. }
  split; [exact Htotal|]. split; [exact Hflag|].
  split.
  - destruct Hother as (flag & Hne & Hin).
    destruct (red_flags (calculate_risk_score res)) as [|x [|y l]]; cbn [length]; [| |lia].
    + destruct Hflag.
    + destruct Hflag as [E|[]]. destruct Hin as [E'|[]]. congruence.
  - destruct (final_level res) as (H70 & H50 & H30 & _).
    destruct (Z_lt_le_dec (total_score (calculate_risk_score res)) 50);
      [destruct H30 as [-> _]; [lia|split; discriminate]|].
    destruct (Z_lt_le_dec (total_score (calculate_risk_score res)) 70);
      [destruct H50 as [-> _]; [lia|split; discriminate]|].
    destruct H70 as [-> _]; [lia|split; discriminate].
Qed.

(** X16.  What an idle block reads as.  In a completed run, a non-empty
    mouse block whose average velocity is zero or missing yields the
    indicator 'No mouse movement'; a non-empty click block whose rhythm
    variance is zero or missing yields 'Too consistent (bot-like)', and
    the likelihood is then never 'high'.  A click block never counts
    both for and against the visitor: its quality is 'good' only without
    a bot indicator. *)
Theorem idle_blocks_read_as_bot (self : analyzer) (m : gmap string value)
    (a : advanced_behavioral) :
  analyze_advanced_behavioral (with_payload self (VDict m)) = Ok a ->
  (forall mb, m !! "mouse_behavior" = Some (VDict mb) -> mb <> ∅ ->
     eq_int (default (VInt 0) (mb !! "average_velocity")) 0 = true ->
     mouse_indicator (mouse_behavior a) = Some "No mouse movement") /\
  (forall cb, m !! "click_behavior" = Some (VDict cb) -> cb <> ∅ ->
     eq_int (default (VInt 0) (cb !! "click_rhythm_variance")) 0 = true ->
     click_indicator (click_behavior a) = Some "Too consistent (bot-like)" /\
     human_likelihood a <> High) /\
  (forall c, click_behavior a = Some c ->
     click_quality c = Good -> click_bot_indicator c = None).
Proof.
  intros Ha. destruct (advanced_shape _ _ Ha) as (Hm & Hc & Hl).
  cbn [fingerprint with_payload] in Hm, Hc.
  split; [|split].
  - intros mb Hmb Hne Hzero. unfold analyze_mouse in Hm. cbn [get bind] in Hm.
    rewrite Hmb in Hm. cbn [default from_option id] in Hm.
    rewrite truthy_dict in Hm by exact Hne. cbn [get bind] in Hm.
    destruct (zero_as_float _ Hzero) as (f & Hf & Heq & _ & _ & Hgt).
    rewrite Hf in Hm. cbn [bind] in Hm.
    destruct (float (default (VInt 0) (mb !! "max_velocity"))); [|discriminate Hm].
    destruct (float (default (VInt 0) (mb !! "average_acceleration"))); [|discriminate Hm].
    cbn [bind] in Hm. injection Hm as <-. cbn [mouse_indicator mouse_bot_indicator].
    now rewrite Hgt, Heq.
  - intros cb Hcb Hne Hzero. unfold analyze_click in Hc. cbn [get bind] in Hc.
    rewrite Hcb in Hc. cbn [default from_option id] in Hc.
    rewrite truthy_dict in Hc by exact Hne. cbn [get bind] in Hc.
    destruct (float (default (VInt 0) (cb !! "average_click_interval"))); [|discriminate Hc].
    destruct (zero_as_float _ Hzero) as (f & Hf & _ & Hlt & Hgt & _).
    rewrite Hf in Hc. cbn [bind] in Hc. injection Hc as Hc.
    rewrite Hl, <- Hc. cbn [click_indicator click_bot_indicator]. rewrite Hlt.
    split; [reflexivity|].
    unfold likelihood. cbn [click_indicator click_bot_indicator rhythm_variance].
    rewrite Hgt.
    destruct (mouse_curves (mouse_behavior a)),
      (truthy_str (mouse_indicator (mouse_behavior a))); cbn; discriminate.
  - intros c Hclick Hgood. rewrite Hclick in Hc. unfold analyze_click in Hc.
    destruct (get (VDict m) "click_behavior" (VDict ∅)) as [click_data|]; [|discriminate Hc].
    cbn [bind] in Hc. destruct (truthy click_data); [|discriminate Hc].
    destruct (get click_data "total_clicks" (VInt 0)); [|discriminate Hc].
    destruct (get click_data "average_click_interval" (VInt 0)) as [i|]; [|discriminate Hc].
    cbn [bind] in Hc. destruct (float i); [|discriminate Hc].
    destruct (get click_data "click_rhythm_variance" (VInt 0)) as [v|]; [|discriminate Hc].
    cbn [bind] in Hc. destruct (float v) as [f|]; [|discriminate Hc].
    cbn [bind] in Hc. injection Hc as Hc. rewrite <- Hc in Hgood |- *.
    cbn [click_quality click_bot_indicator] in *.
    destruct (float_gt f 100) eqn:Hgt; [|discriminate Hgood].
    now rewrite (float_gt_not_lt f 50 100 ltac:(lia) Hgt).
Qed.

End Behavior.

(** ** Baseline signals, virtual machines, media queries *)

(** X17.  With boolean entries, [analyze_behavioral_signals] grades by
    the number of true ones among mouse movement, keyboard input, page
    focus and scrolling, page focus counting as true when absent:
    'human_likely' from three, 'uncertain' at two, 'bot_likely' below.
    Touch support is reported and not counted. *)
Theorem behavioral_score_counts_signals (self : analyzer) (m : gmap string value)
    (mouse keyboard focus scroll : bool) :
  default (VBool false) (m !! "has_mouse_movement") = VBool mouse ->
  default (VBool false) (m !! "has_keyboard_input") = VBool keyboard ->
  default (VBool true) (m !! "has_page_focus") = VBool focus ->
  default (VBool false) (m !! "has_scroll") = VBool scroll ->
  let n := Z_of_bool mouse + Z_of_bool keyboard + Z_of_bool focus + Z_of_bool scroll in
  exists s, analyze_behavioral_signals (with_payload self (VDict m)) = Ok s /\
    touch_support s = default (VBool false) (m !! "touch_support") /\
    (behavioral_score s = HumanLikely <-> 3 <= n) /\
    (behavioral_score s = Uncertain <-> n = 2) /\
    (behavioral_score s = BotLikely <-> n <= 1).
Proof.
  intros Hm Hk Hf Hs. unfold analyze_behavioral_signals.
  cbn [fingerprint with_payload get bind]. rewrite Hm, Hk, Hf, Hs.
  destruct mouse, keyboard, focus, scroll; cbn; eexists; (split; [reflexivity|]);
    cbn; repeat split; intros; try discriminate; try reflexivity; lia.
Qed.

Lemma eq_str_entry (o : option value) (s : string) :
  eq_str (default VNone o) s = true <-> o = Some (VStr s).
Proof.
  destruct o as [[| | | |t| |]|]; cbn; split; try discriminate.
  - intros H. apply String.eqb_eq in H. now subst.
  - intros [= ->]. apply String.eqb_refl.
Qed.

(** X18.  [analyze_vm_detection] raises on a 'vm_detection' entry that
    is not a map, null included.  On a map it trusts the reported label
    alone: a machine is 'likely virtual' exactly when the label is the
    text 'high' or 'medium', whatever the number of indicators, which
    lies between zero and the size of the map. *)
Theorem vm_detection_trusts_label (self : analyzer) (m : gmap string value) :
  (forall v, m !! "vm_detection" = Some v -> is_dict v = false ->
     analyze_vm_detection (with_payload self (VDict m)) = Raise AttributeError) /\
  (forall vm, default (VDict ∅) (m !! "vm_detection") = VDict vm ->
     exists d, analyze_vm_detection (with_payload self (VDict m)) = Ok d /\
       vm_indicators d = VDict vm /\
       (is_likely_vm d = true <->
          vm !! "vm_likelihood" = Some (VStr "high") \/
          vm !! "vm_likelihood" = Some (VStr "medium")) /\
       0 <= total_indicators d <= Z.of_nat (size vm)).
Proof.
  unfold analyze_vm_detection. cbn [fingerprint with_payload get bind]. split.
  - intros v Hv Hd. rewrite Hv. cbn [default from_option id].
    destruct v; try discriminate Hd; reflexivity.
  - intros vm ->. cbn [get bind].
    destruct (truthy (VDict vm)) eqn:Ht; cbn [get bind]; eexists; (split; [reflexivity|]);
      cbn [vm_indicators is_likely_vm total_indicators]; (split; [reflexivity|]).
    + split.
      * rewrite orb_true_iff, !eq_str_entry. tauto.
      * unfold count_true. split; [lia|]. apply inj_le.
        rewrite <- length_map_to_list. apply filter_length_le.
    + assert (vm = ∅) as ->.
      { cbn in Ht. apply negb_false_iff, bool_decide_eq_true in Ht. exact Ht. }
      split; [split; [discriminate|intros [H|H]; rewrite lookup_empty in H; discriminate H]|].
      unfold count_true. split; [lia|]. apply inj_le.
      rewrite <- length_map_to_list. apply filter_length_le.
Qed.

(** X19.  The feature count of [analyze_css_media] is read in two
    places: it is reported from the media-query block, and only when the
    payload itself has a key of that name, whose own value is never
    looked at. *)
Theorem css_feature_count (self : analyzer) (m : gmap string value) :
  (m !! "css_media_queries_count" = None ->
   forall c, analyze_css_media (with_payload self (VDict m)) = Ok c ->
     total_features c = VInt 0) /\
  (forall v v',
     analyze_css_media (with_payload self (VDict (<["css_media_queries_count" := v]> m))) =
     analyze_css_media (with_payload self (VDict (<["css_media_queries_count" := v']> m)))) /\
  (forall v block c, m !! "css_media_queries" = Some (VDict block) ->
     analyze_css_media (with_payload self (VDict (<["css_media_queries_count" := v]> m)))
       = Ok c ->
     total_features c = default (VInt 0) (block !! "css_media_queries_count")).
Proof.
  split; [|split].
  - intros Hnone c. unfold analyze_css_media.
    cbn [fingerprint with_payload get bind contains_atom]. rewrite Hnone.
    replace (bool_decide (is_Some (@None value))) with false
      by (symmetry; apply bool_decide_eq_false; intros [? ?]; discriminate).
    cbn [bind].
    repeat match goal with
           | |- context [get ?d ?k ?v] => destruct (get d k v); [|discriminate]; cbn [bind]
           | |- context [if ?b then _ else _] => destruct b; cbn [bind]
           end; intros [= <-]; reflexivity.
  - intros v v'. unfold analyze_css_media.
    cbn [fingerprint with_payload get bind contains_atom].
    rewrite !lookup_insert_eq. rewrite !lookup_insert_ne by discriminate. reflexivity.
  - intros v block c Hblock. unfold analyze_css_media.
    cbn [fingerprint with_payload get bind contains_atom].
    rewrite lookup_insert_eq. rewrite lookup_insert_ne by discriminate. rewrite Hblock.
    replace (bool_decide (is_Some (Some v))) with true
      by (symmetry; apply bool_decide_eq_true; eauto).
    cbn [default from_option id get bind].
    repeat match goal with
           | |- context [if ?b then _ else _] => destruct b; cbn [bind]
           end; intros [= <-]; reflexivity.
Qed.

(** ** The payload as a whole *)

Section WholePayload.
Context `{rt : Runtime}.

(** X20.  The fingerprint has to be a map.  Any other value that is
    truthy (a non-empty list or text, a non-zero number, true) makes the
    first analyzer raise [AttributeError], and the endpoint answers with
    its failure response; any other value that is falsy (null, false,
    zero, an empty text or list) is analysed exactly as the empty map. *)
Theorem fingerprint_must_be_a_map (req : request) (fp : value) :
  is_dict fp = false ->
  (truthy fp = true ->
     analyze (init req) fp = Raise AttributeError /\
     analyze_visitor req (Ok (VDict {[ "fingerprint" := fp ]})) = Failure AttributeError 500) /\
  (truthy fp = false -> analyze (init req) fp = analyze (init req) (VDict ∅)).
Proof.
  intros Hd. split.
  - intros Ht.
    assert (Ha : analyze (init req) fp = Raise AttributeError).
    { assert (Hset : set_fingerprint (init req) fp = with_payload (init req) fp)
        by (unfold set_fingerprint; now rewrite Ht).
      unfold analyze. rewrite Hset. unfold collect, analyze_browser_fingerprint.
      cbn [fingerprint with_payload]. rewrite Ht. cbn [negb].
      destruct fp; try discriminate Hd; reflexivity. }
    split; [exact Ha|].
    unfold analyze_visitor. cbn [bind]. rewrite truthy_dict by apply insert_non_empty.
    cbn [get bind]. rewrite lookup_singleton_eq. cbn [default from_option id].
    now rewrite Ha.
  - intros Hf. unfold analyze, set_fingerprint. rewrite Hf. reflexivity.
Qed.

End WholePayload.

(** ** The resolved address *)

(** A text that is empty or starts with a character [strip] keeps. *)
Lemma lstrip_start (s : string) :
  match lstrip s with
  | EmptyString => True
  | String c _ => is_space c = false
  end.
Proof.
  induction s as [|c s IH]; cbn [lstrip]; [exact I|].
  destruct (is_space c) eqn:E; [exact IH|exact E].
Qed.

Lemma lstrip_fixed (s : string) :
  match s with
  | EmptyString => True
  | String c _ => is_space c = false
  end -> lstrip s = s.
Proof. destruct s as [|c s]; cbn [lstrip]; [reflexivity|]. now intros ->. Qed.

Lemma rstrip_start (c : ascii) (s : string) :
  is_space c = false -> exists r, rstrip (String c s) = String c r.
Proof.
  intros Hc. cbn [rstrip]. destruct (rstrip s); rewrite ?Hc; eauto.
Qed.

Lemma rstrip_cons (c : ascii) (s : string) :
  rstrip (String c s) =
  match rstrip s with
  | EmptyString => if is_space c then EmptyString else String c EmptyString
  | String d r => String c (String d r)
  end.
Proof. reflexivity. Qed.

Lemma rstrip_idempotent (s : string) : rstrip (rstrip s) = rstrip s.
Proof.
  induction s as [|c s IH]; [reflexivity|]. rewrite rstrip_cons.
  destruct (rstrip s) as [|d r].
  - destruct (is_space c) eqn:Hc; [reflexivity|]. rewrite rstrip_cons. cbn [rstrip].
    now rewrite Hc.
  - rewrite rstrip_cons, IH. reflexivity.
Qed.

Lemma strip_idempotent (s : string) : strip (strip s) = strip s.
Proof.
  unfold strip. pose proof (lstrip_start s) as Hs.
  destruct (lstrip s) as [|c t]; [reflexivity|].
  destruct (rstrip_start c t Hs) as [r Hr]. rewrite Hr.
  rewrite (lstrip_fixed (String c r)) by exact Hs.
  rewrite <- Hr. apply rstrip_idempotent.
Qed.

Lemma contains_comma (c : ascii) (s : string) :
  contains "," (String c s) = Ascii.eqb c "," || contains "," s.
Proof.
  cbn [contains String.prefix]. f_equal.
  destruct (ascii_dec "," c) as [<-|Hne].
  - destruct s; reflexivity.
  - destruct (Ascii.eqb_spec c ","%char); [congruence|reflexivity].
Qed.

Lemma split_first_no_comma (s : string) : contains "," (split_first "," s) = false.
Proof.
  induction s as [|c s IH]; [reflexivity|]. cbn [split_first].
  destruct (Ascii.eqb c ",") eqn:E; [reflexivity|].
  now rewrite contains_comma, E, IH.
Qed.

Lemma lstrip_no_comma (s : string) :
  contains "," s = false -> contains "," (lstrip s) = false.
Proof.
  induction s as [|c s IH]; [reflexivity|]. intros H. cbn [lstrip].
  destruct (is_space c); [|exact H].
  rewrite contains_comma in H. apply orb_false_iff in H. now apply IH.
Qed.

Lemma rstrip_no_comma (s : string) :
  contains "," s = false -> contains "," (rstrip s) = false.
Proof.
  induction s as [|c s IH]; [reflexivity|]. intros H.
  rewrite contains_comma in H. apply orb_false_iff in H. destruct H as [Hc Hs].
  specialize (IH Hs). cbn [rstrip].
  destruct (rstrip s) as [|d r].
  - destruct (is_space c); [reflexivity|]. now rewrite contains_comma, Hc.
  - now rewrite contains_comma, Hc, IH.
Qed.

(** X21.  When X-Forwarded-For is sent with a non-empty value, the
    resolved address is taken from it whatever X-Real-IP and the peer
    address are; it holds no comma and no surrounding whitespace, and
    it is the whole trimmed header when that holds a single address. *)
Theorem forwarded_address_is_clean (req : request) (xff : string) :
  req_headers req !! "X-Forwarded-For" = Some xff -> xff <> "" ->
  exists a, get_client_ip req = Some a /\
    a = strip (split_first "," xff) /\
    contains "," a = false /\
    strip a = a /\
    (contains "," xff = false -> a = strip xff).
Proof.
  intros Hx Hne. unfold get_client_ip.
  change (header req "X-Forwarded-For") with (req_headers req !! "X-Forwarded-For").
  rewrite Hx. cbn [truthy_str default from_option id].
  destruct (String.eqb_spec xff "") as [E|_]; [contradiction|]. cbn [negb].
  eexists. split; [reflexivity|]. split; [reflexivity|]. split; [|split].
  - unfold strip. apply rstrip_no_comma, lstrip_no_comma, split_first_no_comma.
  - apply strip_idempotent.
  - intros Hno. f_equal. clear Hx Hne. induction xff as [|c s IH]; [reflexivity|].
    rewrite contains_comma in Hno. apply orb_false_iff in Hno. destruct Hno as [Hc Hs].
    cbn [split_first]. rewrite Hc. f_equal. now apply IH.
Qed.

(** ** Fingerprint integrity *)

Lemma automation_artifacts_length (fp : value) (props : list string) :
  forall l, automation_artifacts fp props = Ok l -> (length l <= length props)%nat.
Proof.
  induction props as [|p props IH]; cbn [automation_artifacts]; intros l.
  - intros [= <-]. cbn. lia.
  - destruct (get fp p VNone) as [v|]; [|discriminate]. cbn [bind].
    destruct (automation_artifacts fp props) as [more|]; [|discriminate]. cbn [bind].
    intros [= <-]. specialize (IH more eq_refl). rewrite length_app.
    destruct (truthy v); cbn [when length]; lia.
Qed.

(** X22.  The grade of every completed run of
    [analyze_browser_fingerprint]: at most ten manipulation indicators
    and five inconsistencies are listed; the grade is 'bad' exactly when
    the payload is empty or a manipulation indicator is listed,
    'suspicious' exactly with no manipulation and four or five
    inconsistencies, 'acceptable' with one to three, and 'good' exactly
    when nothing at all is listed. *)
Theorem fingerprint_grade_bounds (self : analyzer) (a : fp_analysis) :
  analyze_browser_fingerprint self = Ok a ->
  let manipulations := length (manipulation_indicators a) in
  let oddities := length (inconsistencies a) in
  fingerprint_data a = fingerprint self /\
  (manipulations <= 10)%nat /\ (oddities <= 5)%nat /\
  (fp_quality a = Bad <->
     truthy (fingerprint self) = false \/ (1 <= manipulations)%nat) /\
  (fp_quality a = Suspicious <->
     truthy (fingerprint self) = true /\ manipulations = 0%nat /\ (4 <= oddities)%nat) /\
  (fp_quality a = Acceptable <->
     truthy (fingerprint self) = true /\ manipulations = 0%nat /\ (1 <= oddities <= 3)%nat) /\
  (fp_quality a = Good <-> manipulations = 0%nat /\ oddities = 0%nat).
Proof.
  unfold analyze_browser_fingerprint.
  destruct (truthy (fingerprint self)) eqn:Ht; cbn [negb].
  2:{ intros [= <-]. cbn. repeat split; try tauto; try lia; try discriminate;
        intros; try tauto; lia. }
  set (fp := fingerprint self) in *.
  destruct (get fp "webdriver" VNone) as [webdriver|]; [|discriminate]. cbn [bind].
  destruct (get fp "headless" VNone) as [headless|]; [|discriminate]. cbn [bind].
  destruct (get fp "plugins" (VInt 0)) as [plugins|]; [|discriminate]. cbn [bind].
  destruct (get fp "languages" (VList [])) as [languages|]; [|discriminate]. cbn [bind].
  match goal with
  | |- bind ?m _ = _ -> _ => destruct m as [no_languages|]; [|discriminate]
  end. cbn [bind].
  destruct (get fp "canvas" VNone) as [canvas|]; [|discriminate]. cbn [bind].
  destruct (get fp "webgl_vendor" VNone) as [vendor|]; [|discriminate]. cbn [bind].
  destruct (get fp "webgl_renderer" VNone) as [renderer|]; [|discriminate]. cbn [bind].
  destruct (get fp "screen_width" (VInt 0)) as [width|]; [|discriminate]. cbn [bind].
  destruct (get fp "screen_height" (VInt 0)) as [height|]; [|discriminate]. cbn [bind].
  match goal with
  | |- bind ?m _ = _ -> _ => destruct m as [screen|] eqn:Hscreen; [|discriminate]
  end. cbn [bind].
  destruct (get fp "timezone" VNone) as [timezone|]; [|discriminate]. cbn [bind].
  destruct (automation_artifacts fp automation_props) as [artifacts|] eqn:Hart;
    [|discriminate]. cbn [bind].
  intros [= <-]. cbv zeta.
  cbn [fingerprint_data manipulation_indicators inconsistencies fp_quality].
  apply automation_artifacts_length in Hart. cbn [automation_props length] in Hart.
  assert (Hs : (length screen <= 1)%nat).
  { destruct (eq_int width 0 || eq_int height 0); [injection Hscreen as <-; cbn; lia|].
    destruct (lt_int width 800) as [narrow|]; [|discriminate]. cbn [bind] in Hscreen.
    destruct narrow; cbn [bind] in Hscreen; [injection Hscreen as <-; cbn; lia|].
    destruct (lt_int height 600) as [small|]; [|discriminate]. cbn [bind] in Hscreen.
    injection Hscreen as <-. destruct small; cbn; lia. }
  rewrite !length_app. unfold fp_grade.
  set (m := (length (when (truthy webdriver) _) + _)%nat).
  set (i := (length (when (eq_int plugins 0) _) + _)%nat).
  assert (Hm : (m <= 10)%nat).
  { subst m. destruct (truthy webdriver), (truthy headless),
      (eq_str canvas "blocked" || negb (truthy canvas)); cbn [when length]; lia. }
  assert (Hi : (i <= 5)%nat).
  { subst i. destruct (eq_int plugins 0), no_languages,
      (negb (truthy vendor) || negb (truthy renderer)), (negb (truthy timezone));
      cbn [when length]; lia. }
  split; [reflexivity|]. split; [exact Hm|]. split; [exact Hi|].
  destruct (Z.gtb_spec (Z.of_nat m) 0), (Z.gtb_spec (Z.of_nat i) 3),
    (Z.gtb_spec (Z.of_nat i) 0);
    repeat split; intros; try discriminate; try reflexivity; try lia;
    repeat match goal with
           | H : _ /\ _ |- _ => destruct H
           | H : _ \/ _ |- _ => destruct H
           end; try discriminate; try lia; auto.
Qed.

(** ** The flags of an assessment *)

(** What a block appends to the red flags does not depend on the
    assessment so far. *)
Lemma step_flags_fixed (step : findings -> risk -> risk) (res : findings) (r : risk) :
  In step scoring_steps ->
  red_flags (step res r) = red_flags r ++ red_flags (step res initial_risk).
Proof.
  unfold scoring_steps. cbn [In].
  intros H; repeat (destruct H as [<- | H]); try contradiction;
    unfold score_headers, score_user_agent, score_fingerprint, score_proxy,
      score_automation, score_consistency, score_threat, score_behavior,
      score_mouse, score_click, score_vm, score_timing, score_extensions;
    step_cases; cbn [red_flag green_flag add_score not_genuine red_flags initial_risk app];
    rewrite ?app_nil_r; reflexivity.
Qed.

Lemma run_steps_raised (res : findings) (steps : list (findings -> risk -> risk)) :
  (forall s, In s steps -> In s scoring_steps) ->
  forall r, red_flags (run_steps res steps r) = red_flags r ++ raised res steps.
Proof.
  unfold run_steps, raised.
  induction steps as [|s steps IH]; intros Hin r; cbn [fold_left flat_map].
  - now rewrite app_nil_r.
  - rewrite IH by (intros; apply Hin; now right).
    rewrite (step_flags_fixed s res r) by (apply Hin; now left).
    now rewrite app_assoc.
Qed.

Lemma final_flags (res : findings) :
  red_flags (calculate_risk_score res) = raised res scoring_steps.
Proof.
  unfold calculate_risk_score. rewrite closing_keeps_flags.
  now rewrite run_steps_raised by auto.
Qed.

(** A flag that starts with 'Timing: ' comes from the timing block. *)
Lemma timing_flag_origin (res : findings) (flag : string) :
  String.prefix "Timing: " flag = true ->
  (In flag (red_flags (calculate_risk_score res)) <->
   In flag (red_flags (score_timing res initial_risk))).
Proof.
  intros Hp. rewrite final_flags. unfold raised. rewrite in_flat_map. split.
  - intros (step & Hstep & Hin). revert Hin. unfold scoring_steps in Hstep. cbn [In] in Hstep.
    repeat (destruct Hstep as [<- | Hstep]); try contradiction; try (intros H; exact H);
      unfold score_headers, score_user_agent, score_fingerprint, score_proxy,
        score_automation, score_consistency, score_threat, score_behavior,
        score_mouse, score_click, score_vm, score_extensions;
      step_cases;
      cbn [red_flag green_flag add_score not_genuine red_flags initial_risk app In];
      intros H; repeat (destruct H as [H|H]); try contradiction;
      subst flag; cbn in Hp; discriminate Hp.
  - intros Hin. exists score_timing. split; [cbn; tauto|exact Hin].
Qed.

Section Flags.
Context `{rt : Runtime}.

Lemma timing_shape (self : analyzer) (t : timing_analysis) :
  analyze_timing self = Ok t ->
  (suspicion_level t = High /\
   (reason t = Some "Clicked too fast (< 100ms)" \/ reason t = Some "Interacted too fast")) \/
  (suspicion_level t = NoRisk /\ reason t = None).
Proof.
  unfold analyze_timing.
  destruct (get (fingerprint self) "advanced_timing" (VDict ∅)) as [td|]; [|discriminate].
  cbn [bind].
  destruct (get td "page_load_time" (VInt 0)); [|discriminate].
  destruct (get td "time_to_first_interaction" VNone); [|discriminate].
  destruct (get td "time_to_first_click" VNone); [|discriminate].
  destruct (get td "time_to_first_scroll" VNone); [|discriminate]. cbn [bind].
  destruct (present_and_below td "time_to_first_click" 100) as [[]|]; [| |discriminate];
    cbn [bind].
  - intros [= <-]. left. cbn. tauto.
  - destruct (present_and_below td "time_to_first_interaction" 50) as [[]|];
      [| |discriminate]; cbn [bind]; intros [= <-]; cbn; tauto.
Qed.

(** X23.  In a completed analysis the timing flag always names its
    reason: the suspicion level is 'high' exactly when a reason is
    given, the flag reads 'Timing: Clicked too fast (< 100ms)' or
    'Timing: Interacted too fast' exactly for that reason, and the
    fallback text 'Timing: Too fast' is never raised. *)
Theorem timing_flag_names_its_reason (self : analyzer) (fp : value) (r : results) :
  analyze self fp = Ok r ->
  let t := timing_analysis_of (findings_of r) in
  let flags := red_flags (risk_assessment r) in
  (suspicion_level t = High <-> reason t <> None) /\
  ~ In "Timing: Too fast" flags /\
  (In "Timing: Clicked too fast (< 100ms)" flags <->
     reason t = Some "Clicked too fast (< 100ms)") /\
  (In "Timing: Interacted too fast" flags <-> reason t = Some "Interacted too fast").
Proof.
  intros Hr. destruct (analyze_inv _ _ _ Hr) as [Hc ->].
  set (res := findings_of r) in *.
  destruct (collect_inv _ _ Hc) as (_ & _ & _ & _ & _ & _ & _ & _ & _ & Ht & _).
  apply timing_shape in Ht. cbv zeta.
  rewrite !timing_flag_origin by reflexivity. unfold score_timing.
  destruct Ht as [[-> [-> | ->]] | [-> ->]];
    cbn [label_eqb red_flag add_score red_flags initial_risk app In default from_option id];
    change (label_eqb High High) with true; change (label_eqb NoRisk High) with false;
    cbn [red_flag add_score red_flags initial_risk app In];
    repeat split; try discriminate; try reflexivity;
    try (intros H; repeat (destruct H as [H|H]); try contradiction; discriminate H);
    try (intros _; left; reflexivity); try congruence.
Qed.

End Flags.

(** ** Extensions *)

Lemma step_ignores_extensions (step : findings -> risk -> risk) (res : findings)
    (ext : extensions) (r : risk) :
  In step flagging_steps -> step (with_extensions res ext) r = step res r.
Proof.
  unfold flagging_steps. cbn [In].
  intros H; repeat (destruct H as [<- | H]); try contradiction; reflexivity.
Qed.

(** A green flag changes nothing else of the closed assessment. *)
Lemma closing_green_flag (s : string) (r : risk) :
  let closed x := set_confidence (determine_level (cap_score x)) in
  total_score (closed (green_flag s r)) = total_score (closed r) /\
  risk_level (closed (green_flag s r)) = risk_level (closed r) /\
  visitor_quality (closed (green_flag s r)) = visitor_quality (closed r) /\
  is_genuine (closed (green_flag s r)) = is_genuine (closed r) /\
  confidence (closed (green_flag s r)) = confidence (closed r) /\
  red_flags (closed (green_flag s r)) = red_flags (closed r) /\
  green_flags (closed (green_flag s r)) = green_flags (closed r) ++ [s].
Proof.
  cbv zeta. unfold determine_level. cbn [cap_score green_flag total_score].
  step_cases; cbn; repeat split.
Qed.

(** X24.  The extension findings never change the verdict: whatever
    they are, the score, the risk level, the visitor quality, the
    genuineness, the confidence and the red flags of the assessment are
    the same, and the green flags differ only by a closing
    'Privacy-aware (ad blocker detected)', listed exactly when the
    privacy entry is truthy. *)
Theorem extensions_never_change_the_verdict (res : findings) :
  exists others : list string,
  forall ext,
    let r := calculate_risk_score res in
    let r' := calculate_risk_score (with_extensions res ext) in
    total_score r' = total_score r /\
    risk_level r' = risk_level r /\
    visitor_quality r' = visitor_quality r /\
    is_genuine r' = is_genuine r /\
    confidence r' = confidence r /\
    red_flags r' = red_flags r /\
    green_flags r' =
      others ++ when (truthy (privacy_concerned ext)) "Privacy-aware (ad blocker detected)".
Proof.
  set (before := run_steps res flagging_steps initial_risk).
  set (closed := fun x => set_confidence (determine_level (cap_score x))).
  exists (green_flags (closed before)). intros ext. cbv zeta.
  assert (Hres : forall e, calculate_risk_score (with_extensions res e)
                           = closed (if truthy (privacy_concerned e)
                                     then green_flag "Privacy-aware (ad blocker detected)" before
                                     else before)).
  { intros e. unfold calculate_risk_score.
    change (run_steps (with_extensions res e) scoring_steps initial_risk)
      with (score_extensions (with_extensions res e)
              (run_steps (with_extensions res e) flagging_steps initial_risk)).
    rewrite (run_steps_ext (with_extensions res e) res)
      by (intros s r Hs; now apply step_ignores_extensions).
    reflexivity. }
  assert (Hself : calculate_risk_score res
                  = closed (if truthy (privacy_concerned (browser_extensions res))
                            then green_flag "Privacy-aware (ad blocker detected)" before
                            else before)).
  { unfold calculate_risk_score.
    change (run_steps res scoring_steps initial_risk)
      with (score_extensions res (run_steps res flagging_steps initial_risk)).
    reflexivity. }
  rewrite Hres, Hself.
  destruct (closing_green_flag "Privacy-aware (ad blocker detected)" before)
    as (H1 & H2 & H3 & H4 & H5 & H6 & H7). subst closed. cbv beta in *.
  destruct (truthy (privacy_concerned ext)),
    (truthy (privacy_concerned (browser_extensions res))); cbn [when];
    rewrite ?app_nil_r; repeat split; congruence.
Qed.

(** ** A request without a fingerprint *)

Section NoFingerprint.
Context `{rt : Runtime}.

(** X25.  A request whose fingerprint is missing or empty is always
    assessed, and its score is decided by the request alone: 30 for the
    missing fingerprint and 5 for the hardware check that fails on it,
    plus the contributions of the headers, the user agent, the
    forwarding headers and the threat patterns, capped at 100.  It is
    never genuine and never rated below 'medium'.  The forwarding
    headers are looked up in [self.headers], the copy with title-cased
    names, where only X-Forwarded-For, Via, Forwarded and
    X-Forwarded-Proto can be found. *)
Theorem missing_fingerprint_floor (req : request) (fp : value) :
  truthy fp = false ->
  exists r, analyze (init req) fp = Ok r /\
    total_score (risk_assessment r) =
      Z.min 100
        (35 +
         WeightTable.header (header_quality (analyze_headers (init req))) +
         WeightTable.user_agent (ua_quality (analyze_user_agent (init req))) +
         WeightTable.proxy (proxy_risk_level (proxy_from_headers (req_headers req))) +
         WeightTable.threat (threat_level (detect_threats (init req)))) /\
    35 <= total_score (risk_assessment r) /\
    is_genuine (risk_assessment r) = false /\
    risk_level (risk_assessment r) <> Minimal /\
    risk_level (risk_assessment r) <> Low /\
    (forall k, In k (proxy_headers_found (proxy_vpn_detection (findings_of r))) ->
       In k ["X-Forwarded-For"; "Via"; "Forwarded"; "X-Forwarded-Proto"]).
Proof.
  intros Hfalsy.
  set (self := set_fingerprint (init req) fp).
  assert (Hfp : fingerprint self = VDict ∅).
  { subst self. unfold set_fingerprint. cbn [fingerprint]. now rewrite Hfalsy. }
  destruct (collect_empty self Hfp)
    as (res & Hres & Hh & Hu & Hf & Hp & Ha & Hc & Ht & Hadv & Hvm & _ & Htim).
  exists {| findings_of := res; risk_assessment := calculate_risk_score res |}.
  split; [unfold analyze; fold self; now rewrite Hres|].
  cbn [risk_assessment].
  assert (Hsum : WeightTable.sum res =
                 35 +
                 WeightTable.header (header_quality (analyze_headers (init req))) +
                 WeightTable.user_agent (ua_quality (analyze_user_agent (init req))) +
                 WeightTable.proxy (proxy_risk_level (proxy_from_headers (req_headers req))) +
                 WeightTable.threat (threat_level (detect_threats (init req)))).
  { unfold WeightTable.sum. rewrite Hh, Hu, Hf, Hp, Ha, Hc, Ht, Hadv, Hvm, Htim.
    change (analyze_headers self) with (analyze_headers (init req)).
    change (analyze_user_agent self) with (analyze_user_agent (init req)).
    change (detect_threats self) with (detect_threats (init req)).
    change (headers self) with (req_headers req).
    cbn [empty_fp_analysis fp_quality WeightTable.fingerprint
         empty_automation automation_confidence WeightTable.automation
         empty_consistency failed empty_advanced human_likelihood mouse_behavior
         click_behavior mouse_indicator click_indicator truthy_str WeightTable.behavior
         WeightTable.present empty_vm is_likely_vm empty_timing suspicion_level].
    change (WeightTable.consistency_failures 1) with 5.
    change (label_eqb NoRisk High) with false. cbn [WeightTable.present]. lia. }
  assert (Hfloor : 35 <= WeightTable.sum res).
  { rewrite Hsum. destruct weights_nonneg as (Wh & Wu & _ & Wp & _ & _ & Wt & _).
    pose proof (Wh (header_quality (analyze_headers (init req)))).
    pose proof (Wu (ua_quality (analyze_user_agent (init req)))).
    pose proof (Wp (proxy_risk_level (proxy_from_headers (req_headers req)))).
    pose proof (Wt (threat_level (detect_threats (init req)))). lia. }
  assert (Htotal : 35 <= total_score (calculate_risk_score res))
    by (rewrite final_total; lia).
  split; [rewrite final_total, Hsum; reflexivity|]. split; [exact Htotal|].
  split; [rewrite final_genuine, Hf; reflexivity|].
  assert (Hnames : forall k, In k (proxy_headers_found (proxy_vpn_detection res)) ->
                     In k ["X-Forwarded-For"; "Via"; "Forwarded"; "X-Forwarded-Proto"]).
  { rewrite Hp. unfold proxy_from_headers. cbn [proxy_headers_found].
    change (headers self) with (req_headers req). rewrite forwarding_names_found.
    intros k Hk. apply filter_In in Hk as [Hk _]. exact Hk. }
  cbn [findings_of].
  destruct (final_level res) as (H70 & H50 & H30 & _).
  destruct (Z_lt_le_dec (total_score (calculate_risk_score res)) 50);
    [destruct H30 as [-> _]; [lia|repeat split; try discriminate; exact Hnames]|].
  destruct (Z_lt_le_dec (total_score (calculate_risk_score res)) 70);
    [destruct H50 as [-> _]; [lia|repeat split; try discriminate; exact Hnames]|].
  destruct H70 as [-> _]; [lia|repeat split; try discriminate; exact Hnames].
Qed.

End NoFingerprint.

(** ** WebDriver *)

Section WebDriver.
Context `{rt : Runtime}.

Lemma webdriver_graded_bad (self : analyzer) (m : gmap string value) (a : fp_analysis) :
  fingerprint self = VDict m ->
  truthy (default VNone (m !! "webdriver")) = true ->
  analyze_browser_fingerprint self = Ok a ->
  fp_quality a = Bad.
Proof.
  intros Hfp Hw. unfold analyze_browser_fingerprint. rewrite Hfp.
  destruct (truthy (VDict m)); cbn [negb]; [|intros [= <-]; reflexivity]. run.
  destruct (if negb (truthy (default (VList []) (m !! "languages"))) then Ok true
            else n <- len (default (VList []) (m !! "languages")) ;; Ok (n =? 0))
    as [no_languages|]; [|discriminate]. run.
  match goal with
  | |- (screen <- ?s ;; _) = _ -> _ => destruct s as [screen|]; [|discriminate]
  end. run.
  destruct (automation_artifacts_dict m automation_props) as [artifacts ->]. run.
  intros [= <-]. cbn [fp_quality]. apply fp_grade_manipulated.
  change (from_option id VNone (m !! "webdriver")) with (default VNone (m !! "webdriver")).
  rewrite Hw. discriminate.
Qed.

Lemma webdriver_not_low (self : analyzer) (m : gmap string value)
    (d : automation_detection) :
  fingerprint self = VDict m ->
  truthy (default VNone (m !! "webdriver")) = true ->
  detect_automation self = Ok d ->
  automation_confidence d = Medium \/ automation_confidence d = High \/
  automation_confidence d = VeryHigh.
Proof.
  intros Hfp Hw. unfold detect_automation. rewrite Hfp. cbn [get bind]. rewrite Hw.
  destruct (automation_properties (VDict m) automation_checks _) as [out|] eqn:Hout;
    [|discriminate]. cbn [bind].
  destruct (automation_properties_invariant m automation_checks _ out Hout)
    as (_ & _ & H3 & _); [apply NoDup_singleton|]. cbn [when fst length] in H3.
  match goal with
  | |- bind ?x _ = _ -> _ => destruct x as [missing|]; [|discriminate]
  end. cbn [bind]. intros [= <-]. cbn [automation_confidence].
  rewrite length_app.
  set (n := Z.of_nat (length out.1 + _)).
  assert (Hn : 1 <= n) by (subst n; lia).
  unfold automation_grade.
  destruct (Z.gtb_spec n 3); [tauto|].
  destruct (Z.gtb_spec n 1); [tauto|].
  destruct (Z.gtb_spec n 0); [tauto|lia].
Qed.

(** X26.  A truthy 'webdriver' entry is counted twice, by the
    fingerprint analyzer and by the automation detector: in every
    completed analysis of such a payload the fingerprint is graded 'bad'
    and the automation confidence is above 'low', so the score is at
    least 40, the visitor is not genuine and the risk level is 'medium'
    or higher. *)
Theorem webdriver_counts_twice (self : analyzer) (m : gmap string value) (r : results) :
  truthy (default VNone (m !! "webdriver")) = true ->
  analyze self (VDict m) = Ok r ->
  fp_quality (browser_fingerprint (findings_of r)) = Bad /\
  automation_confidence (automation_detection_of (findings_of r)) <> Low /\
  40 <= total_score (risk_assessment r) /\
  is_genuine (risk_assessment r) = false /\
  risk_level (risk_assessment r) <> Minimal /\
  risk_level (risk_assessment r) <> Low.
Proof.
  intros Hw Hr. destruct (analyze_inv _ _ _ Hr) as [Hc ->].
  set (res := findings_of r) in *.
  assert (Hfp : fingerprint (set_fingerprint self (VDict m)) = VDict m).
  { unfold set_fingerprint. cbn [fingerprint]. destruct (truthy (VDict m)) eqn:E; [reflexivity|].
    cbn in E. apply negb_false_iff, bool_decide_eq_true in E. now subst m. }
  destruct (collect_inv _ _ Hc) as (Hf & _ & Ha & _).
  pose proof (webdriver_graded_bad _ m _ Hfp Hw Hf) as Hbad.
  pose proof (webdriver_not_low _ m _ Hfp Hw Ha) as Hauto.
  fold res in Hbad, Hauto.
  split; [exact Hbad|].
  split; [destruct Hauto as [-> | [-> | ->]]; discriminate|].
  assert (Hsum : 40 <= WeightTable.sum res).
  { unfold WeightTable.sum. table_terms res. rewrite Hbad in *.
    cbn [WeightTable.fingerprint] in *.
    destruct Hauto as [Hauto | [Hauto | Hauto]]; rewrite Hauto in *;
      cbn [WeightTable.automation] in *; lia. }
  assert (Htotal : 40 <= total_score (calculate_risk_score res))
    by (rewrite final_total; lia).
  split; [exact Htotal|].
  split; [rewrite final_genuine, Hbad; reflexivity|].
  destruct (final_level res) as (H70 & H50 & H30 & _).
  destruct (Z_lt_le_dec (total_score (calculate_risk_score res)) 50);
    [destruct H30 as [-> _]; [lia|split; discriminate]|].
  destruct (Z_lt_le_dec (total_score (calculate_risk_score res)) 70);
    [destruct H50 as [-> _]; [lia|split; discriminate]|].
  destruct H70 as [-> _]; [lia|split; discriminate].
Qed.

End WebDriver.

(** ** Entries the analyzers do not read *)

Lemma unknown_entry_same_reads (m : gmap string value) (k : string) (v : value) :
  m <> ∅ -> ~ In k (map fst top_level_defaults) -> k <> "css_media_queries_count" ->
  same_reads m (<[k:=v]> m).
Proof.
  intros Hne Hk Hcount. repeat split.
  - rewrite (truthy_dict m Hne). symmetry. apply truthy_dict, insert_non_empty.
  - unfold has_key. now rewrite lookup_insert_ne.
  - apply Forall_forall. intros [k' d'] Hin. apply list_elem_of_In in Hin. cbn [fst snd].
    rewrite lookup_insert_ne; [reflexivity|].
    intros ->. apply Hk. apply in_map_iff. exists (k', d'). split; [reflexivity|exact Hin].
Qed.

Section UnknownEntries.
Context `{rt : Runtime}.

(** X27.  An entry under a key no analyzer reads is ignored: adding it
    to a non-empty payload, or changing its value, changes neither
    whether the analysis completes, nor the exception it raises, nor any
    finding (the echo of the payload apart), nor the assessment. *)
Theorem unknown_entries_are_ignored (req : request) (m : gmap string value)
    (k : string) (v : value) :
  m <> ∅ -> ~ In k (map fst top_level_defaults) -> k <> "css_media_queries_count" ->
  lift (fun r => (forget_payload (findings_of r), risk_assessment r))
       (analyze (init req) (VDict (<[k:=v]> m)))
  = lift (fun r => (forget_payload (findings_of r), risk_assessment r))
         (analyze (init req) (VDict m)).
Proof.
  intros Hne Hk Hcount. unfold analyze.
  fold (with_fingerprint req (VDict m)) (with_fingerprint req (VDict (<[k:=v]> m))).
  rewrite (with_fingerprint_payload req m Hne).
  rewrite (with_fingerprint_payload req (<[k:=v]> m)) by apply insert_non_empty.
  pose proof (same_findings (init req) m (<[k:=v]> m)
                (unknown_entry_same_reads m k v Hne Hk Hcount)) as Hsame.
  destruct (collect (with_payload (init req) (VDict m))) as [x|e],
           (collect (with_payload (init req) (VDict (<[k:=v]> m)))) as [y|e'];
    cbn [lift bind] in Hsame |- *; try discriminate Hsame.
  - assert (Hxy : forget_payload x = forget_payload y) by congruence.
    cbn [findings_of risk_assessment].
    rewrite <- (risk_ignores_echo x), <- (risk_ignores_echo y).
    now rewrite Hxy.
  - now injection Hsame as ->.
Qed.

End UnknownEntries.

(** ** The privacy flag *)




Section PrivacyFlag.
Context `{rt : Runtime}.


End PrivacyFlag.

(** ** Speech synthesis and client hints *)

(** The three facts about a reported voice count, once the comparisons
    are decided. *)
Ltac speech_case :=
  cbn;
  (split; [tauto|]);
  (split; [let H := fresh in intros H; first [discriminate H | reflexivity | lia]|]);
  let k := fresh in
  let Hk := fresh in
  intros k Hk;
  first [ discriminate Hk
        | injection Hk as <-; split; split;
          let Hx := fresh in
          intros Hx; first [discriminate Hx | reflexivity | lia] ].

(** X29.  The two optional sections hang on their support entry.
    [analyze_speech] reports 'unsupported' exactly when
    'speech_synthesis_support' is falsy, whatever the voice entries say;
    when it reports voices, 'uniqueness' is 'high' exactly above ten
    voices and then 'has_voices' holds, and the voice count was a number.
    [analyze_client_hints] reports 'unsupported' exactly when
    'client_hints' is falsy, high-entropy values or not. *)
Theorem optional_sections_need_support (self : analyzer) (m : gmap string value) :
  (forall s, analyze_speech (with_payload self (VDict m)) = Ok s ->
     (s = None <-> truthy (default (VBool false) (m !! "speech_synthesis_support")) = false) /\
     (forall v, s = Some v ->
        is_number (default (VInt 0) (m !! "speech_voices_count")) = true /\
        voices_count v = default (VInt 0) (m !! "speech_voices_count") /\
        (uniqueness v = High \/ uniqueness v = Low) /\
        (uniqueness v = High -> has_voices v = true) /\
        (forall n, voices_count v = VInt n ->
           (has_voices v = true <-> 0 < n) /\ (uniqueness v = High <-> 10 < n)))) /\
  (forall h, analyze_client_hints (with_payload self (VDict m)) = Ok h ->
     (h = None <-> truthy (default (VDict ∅) (m !! "client_hints")) = false)).
Proof.
  split.
  - intros s. unfold analyze_speech. cbn [fingerprint with_payload get bind].
    destruct (truthy (default (VBool false) (m !! "speech_synthesis_support"))); cbn [negb].
    + destruct (default (VInt 0) (m !! "speech_voices_count")) as [|b|z|f|t|l|d] eqn:E;
        unfold gt_int, lift; cbn [cmp_int bind]; try discriminate;
        intros [= <-]; (split; [split; discriminate|]); intros v [= <-];
        cbn [voices_count uniqueness has_voices];
        (split; [reflexivity|]); (split; [reflexivity|]).
      * destruct b; speech_case.
      * destruct (Z.compare_spec z 10), (Z.compare_spec z 0); speech_case.
      * destruct (cmp_float_Z_mono f 0 10 ltac:(lia)) as (Hgt & _).
        unfold is_gt. destruct (cmp_float_Z f 10) as [[]|];
          try (rewrite (Hgt eq_refl)); speech_case.
    + intros [= <-]. split; [tauto|]. discriminate.
  - intros h. unfold analyze_client_hints. cbn [fingerprint with_payload get bind].
    destruct (truthy (default (VDict ∅) (m !! "client_hints"))); cbn [negb].
    + destruct (get (default (VDict ∅) (m !! "client_hints")) "mobile" (VBool false));
        [|discriminate].
      destruct (get (default (VDict ∅) (m !! "client_hints")) "platform" (VStr "unknown"));
        [|discriminate].
      destruct (get (default (VDict ∅) (m !! "client_hints")) "brands" (VList []));
        [|discriminate].
      cbn [bind].
      destruct (get (default (VDict ∅) (m !! "client_hints_high_entropy")) "architecture" VNone);
        [|discriminate].
      destruct (get (default (VDict ∅) (m !! "client_hints_high_entropy")) "bitness" VNone);
        [|discriminate].
      cbn [bind]. intros [= <-]. split; discriminate.
    + intros [= <-]. tauto.
Qed.

(** ** Sample runs of the further properties *)

Lemma not_genuine_sample :
  exists r, analyze (rt := sample_runtime) (init (request_with browser_headers))
              (VDict typical_payload) = Ok r /\
    is_genuine (risk_assessment r) = false /\
    25 <= total_score (risk_assessment r) /\
    risk_level (risk_assessment r) <> Minimal /\
    visitor_quality (risk_assessment r) <> Good.
Proof.
  destruct (analyze (rt := sample_runtime) (init (request_with browser_headers))
              (VDict typical_payload)) as [r|e] eqn:E.
  - exists r. split; [reflexivity|].
    assert (Hg : is_genuine (risk_assessment r) = false).
    { vm_compute in E. injection E as <-. reflexivity. }
    split; [exact Hg|].
    destruct (analyze_inv _ _ _ E) as [_ Hr]. rewrite Hr in *.
    apply (not_genuine_is_never_minimal (findings_of r) Hg).
  - vm_compute in E. discriminate E.
Defined.

Lemma curl_user_agent_sample :
  str_len (user_agent (init (request_with curl_headers))) < 50 /\
  ua_quality (analyze_user_agent (rt := sample_runtime) (init (request_with curl_headers))) = Bad /\
  (3 <= length (ua_suspicious_patterns
                  (analyze_user_agent (rt := sample_runtime)
                     (init (request_with curl_headers)))))%nat.
Proof.
  split; [reflexivity|].
  apply (short_tool_user_agent_is_bad (rt := sample_runtime) (init (request_with curl_headers)));
    reflexivity.
Defined.

Lemma curl_request_sample :
  req_headers (request_with curl_headers) !! "User-Agent" = Some "curl/7.68.0" /\
  header_quality (analyze_headers (init (request_with curl_headers))) <> Good /\
  ua_quality (analyze_user_agent (rt := sample_runtime) (init (request_with curl_headers))) <> Good /\
  (forall fp r, analyze (rt := sample_runtime) (init (request_with curl_headers)) fp = Ok r ->
                25 <= total_score (risk_assessment r)).
Proof.
  split; [reflexivity|].
  apply (tool_user_agent_counts_twice (rt := sample_runtime) (request_with curl_headers)
           "curl/7.68.0"); reflexivity.
Defined.

Lemma consistency_tally_sample :
  exists c, check_consistency (rt := sample_runtime)
              (with_payload (init (request_with browser_headers)) (VDict typical_payload))
            = Ok c /\
    passed c + failed c + warnings c = Z.of_nat (length (checks c)) /\
    failed c <= 3.
Proof.
  destruct (check_consistency (rt := sample_runtime)
              (with_payload (init (request_with browser_headers)) (VDict typical_payload)))
    as [c|e] eqn:E; [|vm_compute in E; discriminate E].
  exists c. split; [reflexivity|].
  destruct (consistency_tally (rt := sample_runtime) _ c E)
    as (_ & _ & _ & Hsum & _ & _ & _ & Hf & _).
  split; assumption.
Defined.

Lemma timezone_offset_sample :
  exists c, check_consistency (rt := sample_runtime)
              (with_payload (init (request_with browser_headers)) (VDict typical_payload))
            = Ok c /\
    In (Check "Timezone Validation" Passed) (checks c).
Proof.
  destruct (check_consistency (rt := sample_runtime)
              (with_payload (init (request_with browser_headers)) (VDict typical_payload)))
    as [c|e] eqn:E; [|vm_compute in E; discriminate E].
  exists c. split; [reflexivity|].
  destruct (timezone_offset_validation (rt := sample_runtime) _ typical_payload c E)
    as (_ & _ & Hz).
  apply (Hz (-60)). reflexivity.
Defined.

Lemma hardware_concurrency_sample :
  exists c, check_consistency (rt := sample_runtime)
              (with_payload (init (request_with browser_headers)) (VDict ∅)) = Ok c /\
    last (checks c) = Some (Check "Hardware Concurrency" Failed) /\
    1 <= failed c.
Proof.
  destruct (check_consistency (rt := sample_runtime)
              (with_payload (init (request_with browser_headers)) (VDict ∅)))
    as [c|e] eqn:E; [|vm_compute in E; discriminate E].
  exists c. split; [reflexivity|].
  destruct (hardware_concurrency_validation (rt := sample_runtime) _ ∅ c E)
    as (st & Hlast & Hst & _ & Hfail).
  assert (st = Failed) as -> by (apply Hst; reflexivity).
  split; [exact Hlast|]. apply Hfail. reflexivity.
Defined.

Lemma forwarded_chain_sample :
  exists d, detect_proxy_vpn (with_payload (init (request_with forwarded_headers)) (VDict ∅))
            = Ok d /\
    is_proxy_likely d = true /\ proxy_risk_level d = High.
Proof.
  destruct (detect_proxy_vpn (with_payload (init (request_with forwarded_headers)) (VDict ∅)))
    as [d|e] eqn:E; [|vm_compute in E; discriminate E].
  exists d. split; [reflexivity|].
  destruct (proxy_likely_is_high _ d E) as (Hl & Hh & _).
  assert (Hlikely : is_proxy_likely d = true) by (apply Hl; left; reflexivity).
  split; [exact Hlikely|]. apply Hh, Hlikely.
Defined.

Lemma reverse_proxy_sample :
  exists d, detect_proxy_vpn (with_payload (init (request_with reverse_proxy_headers)) (VDict ∅))
            = Ok d /\
    sent_headers (request_with reverse_proxy_headers) !! "X-Real-IP" = Some "198.51.100.23" /\
    proxy_headers_found d = ["X-Forwarded-For"; "X-Forwarded-Proto"] /\
    WeightTable.proxy (proxy_risk_level d) = 10.
Proof.
  pose proof (forwarding_headers_alone (request_with reverse_proxy_headers) ∅) as Hrun.
  destruct (Hrun ltac:(reflexivity) ltac:(reflexivity) ltac:(reflexivity) ltac:(reflexivity))
    as (d & Hd & H).
  exists d. split; [exact Hd|]. split; [reflexivity|]. cbv zeta in H.
  destruct H as (_ & _ & _ & _ & _ & _ & _ & H10).
  assert (Hn : proxy_headers_found d = ["X-Forwarded-For"; "X-Forwarded-Proto"]).
  { vm_compute in Hd. injection Hd as <-. reflexivity. }
  split; [exact Hn|]. apply H10. rewrite Hn. cbn. lia.
Defined.

Lemma scripted_click_sample :
  exists r, analyze (rt := sample_runtime) (init (request_with browser_headers))
              (VDict scripted_click_payload) = Ok r /\
    human_likelihood (advanced_behavioral_of (findings_of r)) = Low /\
    30 <= total_score (risk_assessment r).
Proof.
  destruct (analyze (rt := sample_runtime) (init (request_with browser_headers))
              (VDict scripted_click_payload)) as [r|e] eqn:E;
    [|vm_compute in E; discriminate E].
  exists r. split; [reflexivity|].
  assert (Hlow : human_likelihood (advanced_behavioral_of (findings_of r)) = Low).
  { vm_compute in E. injection E as <-. reflexivity. }
  split; [exact Hlow|].
  apply (bot_like_behavior_scores_thirty (rt := sample_runtime) _ _ r E Hlow).
Defined.

Lemma idle_page_sample :
  exists a, analyze_advanced_behavioral (rt := sample_runtime)
              (with_payload (init (request_with browser_headers)) (VDict idle_payload))
            = Ok a /\
    mouse_indicator (mouse_behavior a) = Some "No mouse movement" /\
    click_indicator (click_behavior a) = Some "Too consistent (bot-like)".
Proof.
  destruct (analyze_advanced_behavioral (rt := sample_runtime)
              (with_payload (init (request_with browser_headers)) (VDict idle_payload)))
    as [a|e] eqn:E; [|vm_compute in E; discriminate E].
  exists a. split; [reflexivity|].
  destruct (idle_blocks_read_as_bot (rt := sample_runtime) _ idle_payload a E)
    as (Hmouse & Hclick & _).
  split.
  - apply (Hmouse {[ "total_movements" := VInt 0 ]}); [reflexivity| |reflexivity].
    apply insert_non_empty.
  - apply (Hclick {[ "total_clicks" := VInt 0 ]}); [reflexivity| |reflexivity].
    apply insert_non_empty.
Defined.

Lemma behavioral_score_sample :
  exists s, analyze_behavioral_signals
              (with_payload (init (request_with browser_headers)) (VDict typical_payload))
            = Ok s /\
    behavioral_score s = Uncertain.
Proof.
  destruct (behavioral_score_counts_signals (init (request_with browser_headers))
              typical_payload true false true false
              ltac:(reflexivity) ltac:(reflexivity) ltac:(reflexivity) ltac:(reflexivity))
    as (s & Hs & _ & _ & Hu & _).
  exists s. split; [exact Hs|]. apply Hu. reflexivity.
Defined.

Lemma text_fingerprint_sample :
  analyze (rt := sample_runtime) (init (request_with browser_headers)) (VStr "chrome")
    = Raise AttributeError /\
  analyze_visitor (rt := sample_runtime) (request_with browser_headers)
    (Ok (VDict {[ "fingerprint" := VStr "chrome" ]})) = Failure AttributeError 500.
Proof.
  destruct (fingerprint_must_be_a_map (rt := sample_runtime) (request_with browser_headers)
              (VStr "chrome") ltac:(reflexivity)) as [H _].
  apply H. reflexivity.
Defined.

Lemma forwarded_address_sample :
  exists a, get_client_ip (request_with forwarded_headers) = Some a /\
    a = "1.2.3.4" /\ contains "," a = false /\ strip a = a.
Proof.
  destruct (forwarded_address_is_clean (request_with forwarded_headers) "1.2.3.4, 5.6.7.8"
              ltac:(reflexivity) ltac:(discriminate)) as (a & Ha & Hv & Hc & Hs & _).
  exists a. split; [exact Ha|]. split; [rewrite Hv; reflexivity|]. split; assumption.
Defined.

Lemma fingerprint_grade_sample :
  exists a, analyze_browser_fingerprint
              (with_payload (init (request_with browser_headers)) (VDict typical_payload))
            = Ok a /\
    fp_quality a = Bad /\ (length (inconsistencies a) <= 5)%nat.
Proof.
  destruct (analyze_browser_fingerprint
              (with_payload (init (request_with browser_headers)) (VDict typical_payload)))
    as [a|e] eqn:E; [|vm_compute in E; discriminate E].
  exists a. split; [reflexivity|].
  destruct (fingerprint_grade_bounds _ a E) as (_ & _ & Hi & Hbad & _).
  split; [|exact Hi]. apply Hbad. right.
  vm_compute in E. injection E as <-. cbn. lia.
Defined.

Lemma fast_click_sample :
  exists r, analyze (rt := sample_runtime) (init (request_with browser_headers))
              (VDict fast_click_payload) = Ok r /\
    In "Timing: Clicked too fast (< 100ms)" (red_flags (risk_assessment r)) /\
    ~ In "Timing: Too fast" (red_flags (risk_assessment r)).
Proof.
  destruct (analyze (rt := sample_runtime) (init (request_with browser_headers))
              (VDict fast_click_payload)) as [r|e] eqn:E;
    [|vm_compute in E; discriminate E].
  exists r. split; [reflexivity|].
  destruct (timing_flag_names_its_reason (rt := sample_runtime) _ _ r E)
    as (_ & Hnever & Hclick & _).
  split; [|exact Hnever]. apply Hclick.
  vm_compute in E. injection E as <-. reflexivity.
Defined.

Lemma forwarded_without_fingerprint_sample :
  exists r, analyze (rt := sample_runtime) (init (request_with cdn_headers)) VNone = Ok r /\
    proxy_headers_found (proxy_vpn_detection (findings_of r))
      = ["X-Forwarded-For"; "X-Forwarded-Proto"] /\
    total_score (risk_assessment r) = 45 /\
    is_genuine (risk_assessment r) = false.
Proof.
  destruct (missing_fingerprint_floor (rt := sample_runtime) (request_with cdn_headers) VNone
              ltac:(reflexivity)) as (r & Hr & Ht & _ & Hg & _).
  exists r. split; [exact Hr|]. split.
  - vm_compute in Hr. injection Hr as <-. reflexivity.
  - split; [rewrite Ht; reflexivity|exact Hg].
Defined.

Lemma webdriver_sample :
  exists r, analyze (rt := sample_runtime) (init (request_with browser_headers))
              (VDict webdriver_payload) = Ok r /\
    40 <= total_score (risk_assessment r) /\
    is_genuine (risk_assessment r) = false.
Proof.
  destruct (analyze (rt := sample_runtime) (init (request_with browser_headers))
              (VDict webdriver_payload)) as [r|e] eqn:E;
    [|vm_compute in E; discriminate E].
  exists r. split; [reflexivity|].
  destruct (webdriver_counts_twice (rt := sample_runtime) _ webdriver_payload r
              ltac:(reflexivity) E) as (_ & _ & Ht & Hg & _).
  split; assumption.
Defined.

Lemma unknown_entry_sample :
  typical_payload <> ∅ /\
  lift (fun r => (forget_payload (findings_of r), risk_assessment r))
       (analyze (rt := sample_runtime) (init (request_with browser_headers))
          (VDict (<["favourite_colour" := VStr "green"]> typical_payload)))
  = lift (fun r => (forget_payload (findings_of r), risk_assessment r))
         (analyze (rt := sample_runtime) (init (request_with browser_headers))
            (VDict typical_payload)).
Proof.
  split; [exact typical_payload_nonempty|].
  apply (unknown_entries_are_ignored (rt := sample_runtime) (request_with browser_headers)
           typical_payload "favourite_colour" (VStr "green") typical_payload_nonempty).
  - unfold top_level_defaults. cbn [map fst In].
    intros H; repeat (destruct H as [H | H]); try discriminate H; exact H.
  - discriminate.
Defined.

